(** * django-notification: a shallow embedding of [notification/models.py]

    The Django ORM tables are lists of rows (insertion order), the
    process-wide translation state and the Python dict objects that are
    passed by reference live in an explicit [World], and every function of
    [models.py] is a state-and-exception passing function over it. *)

From Stdlib Require Import ZArith String List Bool Lia.
From Stdlib Require Import Sorting.Sorted Sorting.Permutation.
From stdpp Require Import base option list gmap strings.

Local Open Scope string_scope.
Local Open Scope Z_scope.

(** ** Exceptions raised by the code *)

Inductive Model :=
| MUser | MLanguage | MNoticeType | MNoticeSetting | MActivityContext
| MNoticeQueueBatch | MObservedItem.

Inductive Exception :=
| DoesNotExist (m : Model)
| MultipleObjectsReturned (m : Model)
| KeyError (key : string)
| TypeError
| AssertionError (msg : string)
| LanguageStoreNotAvailable.

(** ** Objects *)

Record Site := { site_domain : string; site_name : string }.

(** [auth.User]; [u_profile] is what [get_profile()] returns (its attributes
    by name), [None] when the user has no profile. *)
Record User := {
  u_id : Z;
  u_email : string;
  u_profile : option (list (string * string));
}.

(** [isinstance(observer, AnonymousUser)] separates the two cases. *)
Inductive Observer :=
| AnonymousUser
| AuthUser (u : User).

(** An arbitrary model instance (an observed object, or the [context] of a
    notice): its content type and primary key. *)
Record Entity := { e_content_type : string; e_pk : Z }.

(** Values held by a template context or by [extra_context]. *)
Inductive Value :=
| VStr (s : string)
| VUser (u : User)
| VSite (s : Site)
| VEntity (e : Entity).

Abbreviation Dict := (gmap string Value).

(** [django.template.Context] as the renderer sees it. *)
Record TemplateContext := { tc_dict : Dict; tc_autoescape : bool }.

(** ** Rows *)

Record NoticeType := {
  nt_id : Z;
  nt_label : string;
  nt_display : string;
  nt_description : string;
  nt_default : Z;
}.

Record NoticeSetting := {
  ns_id : Z;
  ns_user : Z;
  ns_notice_type : Z;
  ns_medium : string;
  ns_send : bool;
}.

Record ActivityContext := {
  ac_id : Z;
  ac_content_type : string;
  ac_object_id : Z;
}.

Record Notice := {
  n_id : Z;
  n_user : Z;
  n_message : string;
  n_notice_type : Z;
  n_added : Z;
  n_unseen : bool;
  n_archived : bool;
  n_on_site : bool;
  n_context : option Z;
}.

(** One request of a queued batch:
    [(user, label, extra_context, on_site, context)], the user by [pk]. *)
Record QueuedNotice := {
  qn_user : Z;
  qn_label : string;
  qn_extra_context : Dict;
  qn_on_site : bool;
  qn_context : option Entity;
}.

(** [pickled_data] is kept as the list it is the pickle of. *)
Record NoticeQueueBatch := {
  qb_id : Z;
  qb_pickled_data : list QueuedNotice;
}.

Record ObservedItem := {
  oi_id : Z;
  oi_user : Z;
  oi_content_type : string;
  oi_object_id : Z;
  oi_notice_type : Z;
  oi_added : Z;
  oi_signal : string;
}.

(** A row of the model named by [NOTIFICATION_LANGUAGE_MODULE]; the language
    is [None] when the row has no [language] attribute. *)
Record LanguageRow := { lr_user : Z; lr_language : option string }.

(** ** What leaves the process *)

Inductive Event :=
| SendMail (subject body from_email : string) (recipients : list string)
| PutWallPost (access_token message : string) (attachment : Dict)
| Print (line : string).

(** ** The world: database tables, Python heap, translation state *)

Record World := {
  users : list User;
  language_store : option (list LanguageRow);
  notice_types : list NoticeType;
  notice_settings : list NoticeSetting;
  notices : list Notice;
  activity_contexts : list ActivityContext;
  queue_batches : list NoticeQueueBatch;
  observed_items : list ObservedItem;
  heap : list Dict;
  language : string;
  trace : list Event;
  now : Z;
}.

Definition set_notice_types (v : list NoticeType) (w : World) : World :=
  {| users := users w; language_store := language_store w; notice_types := v;
  notice_settings := notice_settings w; notices := notices w;
  activity_contexts := activity_contexts w; queue_batches := queue_batches w;
  observed_items := observed_items w; heap := heap w; language := language w;
  trace := trace w; now := now w |}.

Definition set_notice_settings (v : list NoticeSetting) (w : World) : World :=
  {| users := users w; language_store := language_store w; notice_types :=
  notice_types w; notice_settings := v; notices := notices w;
  activity_contexts := activity_contexts w; queue_batches := queue_batches w;
  observed_items := observed_items w; heap := heap w; language := language w;
  trace := trace w; now := now w |}.

Definition set_notices (v : list Notice) (w : World) : World :=
  {| users := users w; language_store := language_store w; notice_types :=
  notice_types w; notice_settings := notice_settings w; notices := v;
  activity_contexts := activity_contexts w; queue_batches := queue_batches w;
  observed_items := observed_items w; heap := heap w; language := language w;
  trace := trace w; now := now w |}.

Definition set_activity_contexts (v : list ActivityContext) (w : World) : World :=
  {| users := users w; language_store := language_store w; notice_types :=
  notice_types w; notice_settings := notice_settings w; notices := notices w;
  activity_contexts := v; queue_batches := queue_batches w; observed_items :=
  observed_items w; heap := heap w; language := language w; trace := trace w;
  now := now w |}.

Definition set_queue_batches (v : list NoticeQueueBatch) (w : World) : World :=
  {| users := users w; language_store := language_store w; notice_types :=
  notice_types w; notice_settings := notice_settings w; notices := notices w;
  activity_contexts := activity_contexts w; queue_batches := v; observed_items
  := observed_items w; heap := heap w; language := language w; trace := trace
  w; now := now w |}.

Definition set_observed_items (v : list ObservedItem) (w : World) : World :=
  {| users := users w; language_store := language_store w; notice_types :=
  notice_types w; notice_settings := notice_settings w; notices := notices w;
  activity_contexts := activity_contexts w; queue_batches := queue_batches w;
  observed_items := v; heap := heap w; language := language w; trace := trace
  w; now := now w |}.

Definition set_heap (v : list Dict) (w : World) : World :=
  {| users := users w; language_store := language_store w; notice_types :=
  notice_types w; notice_settings := notice_settings w; notices := notices w;
  activity_contexts := activity_contexts w; queue_batches := queue_batches w;
  observed_items := observed_items w; heap := v; language := language w; trace
  := trace w; now := now w |}.

Definition set_language (v : string) (w : World) : World :=
  {| users := users w; language_store := language_store w; notice_types :=
  notice_types w; notice_settings := notice_settings w; notices := notices w;
  activity_contexts := activity_contexts w; queue_batches := queue_batches w;
  observed_items := observed_items w; heap := heap w; language := v; trace :=
  trace w; now := now w |}.

Definition set_trace (v : list Event) (w : World) : World :=
  {| users := users w; language_store := language_store w; notice_types :=
  notice_types w; notice_settings := notice_settings w; notices := notices w;
  activity_contexts := activity_contexts w; queue_batches := queue_batches w;
  observed_items := observed_items w; heap := heap w; language := language w;
  trace := v; now := now w |}.

(** The clock, which the code only reads ([datetime.now()] when a row is
    created): time passes between calls by setting it. *)
Definition set_now (v : Z) (w : World) : World :=
  {| users := users w; language_store := language_store w; notice_types :=
  notice_types w; notice_settings := notice_settings w; notices := notices w;
  activity_contexts := activity_contexts w; queue_batches := queue_batches w;
  observed_items := observed_items w; heap := heap w; language := language w;
  trace := trace w; now := v |}.

(** ** State and exception passing *)

Definition M (A : Type) : Type := World -> World * (Exception + A).

Definition ret {A} (a : A) : M A := fun w => (w, inr a).

Definition raise {A} (e : Exception) : M A := fun w => (w, inl e).

Definition bind {A B} (m : M A) (k : A -> M B) : M B :=
  fun w =>
    match m w with
    | (w', inr a) => k a w'
    | (w', inl e) => (w', inl e)
    end.

Notation "'let*' x ':=' m 'in' k" := (bind m (fun x => k))
  (at level 10, x pattern, m at level 100, k at level 200, only parsing).
Notation "m ';;' k" := (bind m (fun _ => k))
  (at level 100, k at level 200, right associativity, only parsing).

Definition get_world : M World := fun w => (w, inr w).

Definition modify (f : World -> World) : M unit := fun w => (f w, inr tt).

Definition lift {A} (r : Exception + A) : M A := fun w => (w, r).

(** [try: body except ...: handler]; the handler answers [None] for an
    exception its [except] clauses do not name. *)
Definition try_except {A} (body : M A) (handler : Exception -> option (M A)) : M A :=
  fun w =>
    match body w with
    | (w', inr a) => (w', inr a)
    | (w', inl e) =>
        match handler e with
        | Some h => h w'
        | None => (w', inl e)
        end
    end.

(** [for x in xs: body x] *)
Fixpoint for_each {A} (xs : list A) (body : A -> M unit) : M unit :=
  match xs with
  | [] => ret tt
  | x :: xs' => body x ;; for_each xs' body
  end.

(** ** The ORM operations the code uses *)

(** [Model.objects.get] with the given filter *)
Definition objects_get {A} (m : Model) (p : A -> bool) (rows : list A) : Exception + A :=
  match List.filter p rows with
  | [] => inl (DoesNotExist m)
  | [x] => inr x
  | _ :: _ :: _ => inl (MultipleObjectsReturned m)
  end.

(** The primary key an insert gets. *)
Definition next_pk (ids : list Z) : Z := 1 + fold_right Z.max 0 ids.

Definition emit (e : Event) : M unit :=
  modify (fun w => set_trace (trace w ++ [e]) w).

(** A new Python dict object; the result is its reference. *)
Definition new_dict (d : Dict) : M nat :=
  fun w => (set_heap (heap w ++ [d]) w, inr (length (heap w))).

Definition read_dict (l : nat) : M Dict :=
  fun w => (w, inr (default ∅ (heap w !! l))).

Definition write_dict (l : nat) (d : Dict) : M unit :=
  modify (fun w => set_heap (<[l := d]> (heap w)) w).

(** [row.save()] for a row that has a primary key: UPDATE where the key
    matches, INSERT when no row has it. *)
Definition save_row {A} (pk : A -> Z) (row : A) (rows : list A) : list A :=
  if existsb (fun r => bool_decide (pk r = pk row)) rows
  then map (fun r => if bool_decide (pk r = pk row) then row else r) rows
  else rows ++ [row].

(** [row.delete()] *)
Definition delete_row {A} (pk : A -> Z) (row : A) (rows : list A) : list A :=
  List.filter (fun r => negb (bool_decide (pk r = pk row))) rows.

(** ** Strings *)

(** [s.endswith(suffix)] *)
Definition endswith (s suffix : string) : bool :=
  let n := String.length s in
  let k := String.length suffix in
  (k <=? n)%nat && String.eqb (substring (n - k) k s) suffix.

(** [needle in s] *)
Definition contains (needle s : string) : bool :=
  match index 0 needle s with
  | Some _ => true
  | None => false
  end.

(** The one-character line boundaries of [splitlines()]. *)
Definition is_linebreak (c : Ascii.ascii) : bool :=
  let n := Ascii.nat_of_ascii c in
  ((10 <=? n) && (n <=? 13) || (28 <=? n) && (n <=? 30) || (n =? 133))%nat.

(** [''.join(s.splitlines())] *)
Fixpoint join_splitlines (s : string) : string :=
  match s with
  | EmptyString => EmptyString
  | String c s' =>
      if is_linebreak c then join_splitlines s' else String c (join_splitlines s')
  end.

(** ** Module constants *)

(** How spam-sensitive is the medium: ["1"] email, ["2"] facebook. *)
Definition NOTICE_MEDIA_DEFAULTS : gmap string Z := {[ "1" := 2; "2" := 3 ]}.

Definition facebook_attrs : list string :=
  ["name"; "link"; "caption"; "description"; "picture"].

(** How a function decorated with [daemonize] runs with respect to its
    caller's objects. *)
Inductive DaemonMode :=
| Detached
| InProcess.

(** What the module reads from [django.conf.settings], the current [Site]
    and the URL configuration. *)
Record Settings := {
  QUEUE_ALL : bool;
  LAZY_RENDERING : bool;
  FACEBOOK_ATTR : string;
  PROFILES_ACTIVATED : bool;
  NOTIFICATION_SITE_PICTURE : option Value;
  DEFAULT_FROM_EMAIL : string;
  current_site : Site;
  notice_settings_url : string;
  daemon_mode : DaemonMode;
}.

(** The template engine, the translation catalogue and the pickling of a
    template context, which the module calls and does not define; the first
    argument of [render] and [translate] is the active language. *)
Record Collaborators := {
  render : string -> list string -> TemplateContext -> string;
  translate : string -> string -> string;
  pickle_context : TemplateContext -> string;
}.

Section models.
Context (settings : Settings) (ext : Collaborators).

(** *** Translation state *)

Definition get_language : M string := fun w => (w, inr (language w)).

Definition activate (lang : string) : M unit := modify (set_language lang).

Definition ugettext (s : string) : M string :=
  fun w => (w, inr (translate ext (language w) s)).

(** [render_to_string(template_names, dictionary, context_instance)]: the
    dictionary is pushed over the context for the rendering. *)
Definition render_to_string (template_names : list string) (dictionary : Dict)
    (context_instance : TemplateContext) : M string :=
  fun w =>
    (w, inr (render ext (language w) template_names
               {| tc_dict := dictionary ∪ tc_dict context_instance;
                  tc_autoescape := tc_autoescape context_instance |})).

(** *** Preference store *)

(** The filter [user=user, notice_type=notice_type, medium=medium]. *)
Definition setting_filter (user : User) (notice_type : NoticeType) (medium : string)
    (s : NoticeSetting) : bool :=
  bool_decide (ns_user s = u_id user)
  && bool_decide (ns_notice_type s = nt_id notice_type)
  && bool_decide (ns_medium s = medium).

Definition NoticeSetting_objects_get (user : User) (notice_type : NoticeType)
    (medium : string) : M NoticeSetting :=
  let* w := get_world in
  lift (objects_get MNoticeSetting (setting_filter user notice_type medium)
          (notice_settings w)).

Definition get_notification_setting (user : User) (notice_type : NoticeType)
    (medium : string) : M NoticeSetting :=
  try_except (NoticeSetting_objects_get user notice_type medium)
    (fun e =>
       match e with
       | DoesNotExist MNoticeSetting =>
           Some (let* sensitivity :=
                   match NOTICE_MEDIA_DEFAULTS !! medium with
                   | Some s => ret s
                   | None => raise (KeyError medium)
                   end in
                 let default := sensitivity <=? nt_default notice_type in
                 let* w := get_world in
                 let setting :=
                   {| ns_id := next_pk (map ns_id (notice_settings w));
                      ns_user := u_id user;
                      ns_notice_type := nt_id notice_type;
                      ns_medium := medium;
                      ns_send := default |} in
                 modify (set_notice_settings (notice_settings w ++ [setting])) ;;
                 ret setting)
       | _ => None
       end).

Definition should_send (user : User) (notice_type : NoticeType) (medium : string) : M bool :=
  let* setting := get_notification_setting user notice_type medium in
  ret (ns_send setting).

(** *** Notice *)

Definition Notice_save (self : Notice) : M unit :=
  modify (fun w => set_notices (save_row n_id self (notices w)) w).

(** [Notice.objects.create(...)]: [added], [unseen] and [archived] take
    their field defaults. *)
Definition Notice_objects_create (user : User) (message : string)
    (notice_type : NoticeType) (on_site : bool) (context : option ActivityContext)
    : M Notice :=
  let* w := get_world in
  let notice :=
    {| n_id := next_pk (map n_id (notices w));
       n_user := u_id user;
       n_message := message;
       n_notice_type := nt_id notice_type;
       n_added := now w;
       n_unseen := true;
       n_archived := false;
       n_on_site := on_site;
       n_context := option_map ac_id context |} in
  modify (set_notices (notices w ++ [notice])) ;;
  ret notice.

Definition set_unseen (v : bool) (self : Notice) : Notice :=
  {| n_id := n_id self; n_user := n_user self; n_message := n_message self;
     n_notice_type := n_notice_type self; n_added := n_added self;
     n_unseen := v; n_archived := n_archived self; n_on_site := n_on_site self;
     n_context := n_context self |}.

(** [Notice.is_unseen]: the result is the instance after the call and the
    value returned. *)
Definition is_unseen (self : Notice) : M (Notice * bool) :=
  let unseen := n_unseen self in
  if unseen
  then (let self := set_unseen false self in
        Notice_save self ;;
        ret (self, unseen))
  else ret (self, unseen).

(** [k] reads for display of one notice, one after the other: the
    instance they leave and what each returned. *)
Fixpoint read_for_display (k : nat) (self : Notice) : M (Notice * list bool) :=
  match k with
  | O => ret (self, [])
  | S k' =>
      let* (self, unseen) := is_unseen self in
      let* (self, rest) := read_for_display k' self in
      ret (self, unseen :: rest)
  end.

(** *** Notice types *)

Definition NoticeType_objects_get_label (label : string) : M NoticeType :=
  let* w := get_world in
  lift (objects_get MNoticeType (fun t => bool_decide (nt_label t = label))
          (notice_types w)).

Definition NoticeType_objects_get_pk (pk : Z) : M NoticeType :=
  let* w := get_world in
  lift (objects_get MNoticeType (fun t => bool_decide (nt_id t = pk))
          (notice_types w)).

Definition NoticeType_save (self : NoticeType) : M unit :=
  modify (fun w => set_notice_types (save_row nt_id self (notice_types w)) w).

Definition print_if (c : bool) (line : string) : M unit :=
  if c then emit (Print line) else ret tt.

Definition create_notice_type (label display description : string)
    (default verbosity : Z) : M unit :=
  try_except
    (let* notice_type := NoticeType_objects_get_label label in
     let updated := false in
     let '(notice_type, updated) :=
       if bool_decide (display <> nt_display notice_type)
       then ({| nt_id := nt_id notice_type; nt_label := nt_label notice_type;
                nt_display := display;
                nt_description := nt_description notice_type;
                nt_default := nt_default notice_type |}, true)
       else (notice_type, updated) in
     let '(notice_type, updated) :=
       if bool_decide (description <> nt_description notice_type)
       then ({| nt_id := nt_id notice_type; nt_label := nt_label notice_type;
                nt_display := nt_display notice_type;
                nt_description := description;
                nt_default := nt_default notice_type |}, true)
       else (notice_type, updated) in
     let '(notice_type, updated) :=
       if bool_decide (default <> nt_default notice_type)
       then ({| nt_id := nt_id notice_type; nt_label := nt_label notice_type;
                nt_display := nt_display notice_type;
                nt_description := nt_description notice_type;
                nt_default := default |}, true)
       else (notice_type, updated) in
     if updated
     then (NoticeType_save notice_type ;;
           print_if (1 <? verbosity) ("Updated " ++ label ++ " NoticeType"))
     else ret tt)
    (fun e =>
       match e with
       | DoesNotExist MNoticeType =>
           Some (let* w := get_world in
                 modify (set_notice_types
                           (notice_types w ++
                              [{| nt_id := next_pk (map nt_id (notice_types w));
                                  nt_label := label; nt_display := display;
                                  nt_description := description;
                                  nt_default := default |}])) ;;
                 print_if (1 <? verbosity) ("Created " ++ label ++ " NoticeType"))
       | _ => None
       end).

(** *** Languages *)

Definition get_notification_language (user : User) : M string :=
  let* w := get_world in
  match language_store w with
  | Some rows =>
      try_except
        (let* language_model :=
           lift (objects_get MLanguage
                   (fun r => bool_decide (lr_user r = u_id user)) rows) in
         match lr_language language_model with
         | Some l => ret l
         | None => raise LanguageStoreNotAvailable
         end)
        (fun e =>
           match e with
           | DoesNotExist MLanguage => Some (raise LanguageStoreNotAvailable)
           | _ => None
           end)
  | None => raise LanguageStoreNotAvailable
  end.

(** *** Rendering *)

Definition set_autoescape (v : bool) (c : TemplateContext) : TemplateContext :=
  {| tc_dict := tc_dict c; tc_autoescape := v |}.

(** The loop of [get_formatted_messages]; the context it leaves is
    returned with the dictionary. *)
Fixpoint get_formatted_messages_from (format_templates : gmap string string)
    (formats : list string) (label : string) (context : TemplateContext)
    : M (gmap string string * TemplateContext) :=
  match formats with
  | [] => ret (format_templates, context)
  | format :: formats' =>
      let context :=
        if endswith format ".txt"
        then set_autoescape false context
        else set_autoescape true context in
      let* s := render_to_string
                  ["notification/" ++ label ++ "/" ++ format;
                   "notification/" ++ format] ∅ context in
      get_formatted_messages_from (<[format := s]> format_templates)
        formats' label context
  end.

Definition get_formatted_messages (formats : list string) (label : string)
    (context : TemplateContext) : M (gmap string string * TemplateContext) :=
  get_formatted_messages_from ∅ formats label context.

(** [messages[key]] *)
Definition getitem {V} (d : gmap string V) (key : string) : M V :=
  match d !! key with
  | Some v => ret v
  | None => raise (KeyError key)
  end.

(** *** Activity contexts *)

Definition ActivityContext_objects_get_or_create (content_type : string)
    (object_id : Z) : M ActivityContext :=
  try_except
    (let* w := get_world in
     lift (objects_get MActivityContext
             (fun c => bool_decide (ac_content_type c = content_type)
                       && bool_decide (ac_object_id c = object_id))
             (activity_contexts w)))
    (fun e =>
       match e with
       | DoesNotExist MActivityContext =>
           Some (let* w := get_world in
                 let c := {| ac_id := next_pk (map ac_id (activity_contexts w));
                             ac_content_type := content_type;
                             ac_object_id := object_id |} in
                 modify (set_activity_contexts (activity_contexts w ++ [c])) ;;
                 ret c)
       | _ => None
       end).

(** *** Delivery *)

Definition send_mail (subject body from_email : string) (recipients : list string)
    : M unit :=
  emit (SendMail subject body from_email recipients).

(** The body of [send_to_facebook]; [context] is the reference of the dict
    it was passed. *)
Definition send_to_facebook_body (user : User) (context : nat) : M unit :=
  let* d := read_dict context in
  write_dict context (filter (fun kv => kv.1 ∈ facebook_attrs) d) ;;
  let* d := read_dict context in
  let* link :=
    match d !! "link" with
    | None => ret ""
    | Some (VStr s) => ret s
    | Some _ => raise TypeError
    end in
  (if negb (contains "http://" link)
   then write_dict context
          (<["link" := VStr ("http://" ++ site_domain (current_site settings) ++ link)]> d)
   else ret tt) ;;
  let* profile :=
    match u_profile user with
    | Some p => ret p
    | None => raise (DoesNotExist MUser)
    end in
  let access_token :=
    option_map snd
      (find (fun a => bool_decide (a.1 = FACEBOOK_ATTR settings)) profile) in
  let* d := read_dict context in
  match access_token with
  | Some token =>
      if negb (bool_decide (d = ∅)) && negb (bool_decide (token = ""))
      then emit (PutWallPost token
                   (match d !! "message" with Some (VStr s) => s | _ => "" end) d)
      else ret tt
  | None => ret tt
  end.

(** Modelled from the spec: the [daemonize] decorator of
    [notification/decorators.py], which is not part of the sources read
    here. The decorated function runs off the caller's path and the caller
    observes neither its result nor its failure; [Detached] keeps only what
    left the process, [InProcess] also what it did to the objects it shares
    with the caller. *)
Definition daemonize (task : M unit) : M unit :=
  fun w =>
    let w' := fst (task w) in
    match daemon_mode settings with
    | Detached => (set_trace (trace w') w, inr tt)
    | InProcess => (w', inr tt)
    end.

Definition send_to_facebook (user : User) (context : nat) : M unit :=
  daemonize (send_to_facebook_body user context).

(** *** [send_now] *)

Definition builtin_context (user : User) (notice_type : NoticeType)
    (notices_url : string) : M Dict :=
  let* notice := ugettext (nt_display notice_type) in
  ret ({[ "user" := VUser user;
          "notice" := VStr notice;
          "notices_url" := VStr notices_url;
          "current_site" := VSite (current_site settings) ]} : Dict).

(** [Context(d)] followed by [update(extra_context)]: the dict pushed last
    is looked up first. *)
Definition Context_update (d extra_context : Dict) : TemplateContext :=
  {| tc_dict := extra_context ∪ d; tc_autoescape := true |}.

(** The guesses of the facebook attributes that [extra_context] lacks. *)
Definition guess_facebook_attrs (subject notices_url : string) (extra_context : Dict)
    : Dict :=
  let extra_context :=
    if negb (bool_decide (is_Some (extra_context !! "name")))
    then <["name" := VStr (site_domain (current_site settings))]> extra_context
    else extra_context in
  let extra_context :=
    if negb (bool_decide (is_Some (extra_context !! "description")))
    then <["description" := VStr subject]> extra_context
    else extra_context in
  let extra_context :=
    if negb (bool_decide (is_Some (extra_context !! "link")))
    then <["link" := VStr notices_url]> extra_context
    else extra_context in
  match NOTIFICATION_SITE_PICTURE settings with
  | Some picture =>
      if negb (bool_decide (is_Some (extra_context !! "picture")))
      then <["picture" := picture]> extra_context
      else extra_context
  | None => extra_context
  end.

(** One turn of the loop [for user in users] of [send_now]. *)
Definition send_now_user (label : string) (extra_context : nat) (on_site : bool)
    (context : option ActivityContext) (notice_type : NoticeType)
    (notices_url : string) (formats : list string) (user : User) : M unit :=
  let recipients : list string := [] in
  let* language :=
    try_except
      (let* l := get_notification_language user in ret (Some l))
      (fun e =>
         match e with
         | LanguageStoreNotAvailable => Some (ret None)
         | _ => None
         end) in
  match language with
  | Some l => activate l
  | None => ret tt
  end ;;
  let* d := builtin_context user notice_type notices_url in
  let* ec := read_dict extra_context in
  let template_context := Context_update d ec in
  let* (messages, template_context) :=
    get_formatted_messages formats label template_context in
  let* short := getitem messages "short.txt" in
  let* subject :=
    render_to_string ["notification/email_subject.txt"]
      {[ "message" := VStr short ]} template_context in
  let subject := join_splitlines subject in
  let* full := getitem messages "full.txt" in
  let* body :=
    render_to_string ["notification/email_body.txt"]
      {[ "message" := VStr full ]} template_context in
  let* notice :=
    if LAZY_RENDERING settings && on_site
    then (let* d := builtin_context user notice_type notices_url in
          let* ec := read_dict extra_context in
          let ctx := Context_update d ec in
          Notice_objects_create user (pickle_context ext ctx) notice_type
            on_site context)
    else (let* html := getitem messages "notice.html" in
          Notice_objects_create user html notice_type on_site context) in
  let* email_on := should_send user notice_type "1" in
  let recipients :=
    if email_on && negb (bool_decide (u_email user = ""))
    then (recipients ++ [u_email user])%list
    else recipients in
  let* facebook_on := should_send user notice_type "2" in
  (if facebook_on && PROFILES_ACTIVATED settings
   then (let* ec := read_dict extra_context in
         write_dict extra_context (guess_facebook_attrs subject notices_url ec) ;;
         send_to_facebook user extra_context)
   else ret tt) ;;
  send_mail subject body (DEFAULT_FROM_EMAIL settings) recipients.

(** The [formats] of [send_now]. *)
Definition notice_formats (on_site : bool) : list string :=
  let formats := ["short.txt"; "full.txt"; "full.html"] in
  if negb (LAZY_RENDERING settings) && on_site
  then (formats ++ ["notice.html"])%list
  else formats.

Definition send_now (users : list User) (label : string)
    (extra_context : option nat) (on_site : bool) (context : option Entity)
    : M unit :=
  let* extra_context :=
    match extra_context with
    | None => new_dict ∅
    | Some l => ret l
    end in
  let* context :=
    match context with
    | Some c =>
        let* a := ActivityContext_objects_get_or_create (e_content_type c) (e_pk c) in
        ret (Some a)
    | None => ret None
    end in
  let* notice_type := NoticeType_objects_get_label label in
  let notices_url :=
    "http://" ++ site_domain (current_site settings) ++ notice_settings_url settings in
  let* current_language := get_language in
  let formats := notice_formats on_site in
  for_each users
    (send_now_user label extra_context on_site context notice_type notices_url
       formats) ;;
  activate current_language.

(** *** [queue] and [send] *)

Definition queue (users : list User) (label : string)
    (extra_context : option nat) (on_site : bool) (context : option Entity)
    : M unit :=
  let* extra_context :=
    match extra_context with
    | None => new_dict ∅
    | Some l => ret l
    end in
  let users := map u_id users in
  let* ec := read_dict extra_context in
  let notices :=
    map (fun user =>
           {| qn_user := user; qn_label := label; qn_extra_context := ec;
              qn_on_site := on_site; qn_context := context |}) users in
  let* w := get_world in
  modify (set_queue_batches
            (queue_batches w ++
               [{| qb_id := next_pk (map qb_id (queue_batches w));
                   qb_pickled_data := notices |}])).

(** [send(users, label, extra_context, on_site, context, queue=.., now=..)] *)
Definition send (users : list User) (label : string)
    (extra_context : option nat) (on_site : bool) (context : option Entity)
    (queue_flag now_flag : bool) : M unit :=
  if queue_flag && now_flag
  then raise (AssertionError "'queue' and 'now' cannot both be True.")
  else if queue_flag
  then queue users label extra_context on_site context
  else if now_flag
  then send_now users label extra_context on_site context
  else if QUEUE_ALL settings
  then queue users label extra_context on_site context
  else send_now users label extra_context on_site context.

(** *** Observed items *)

(** [ordering = ['-added']]: newest first, rows of equal date with the
    later row of the table first. *)
Fixpoint insert_by_added (x : ObservedItem) (l : list ObservedItem) : list ObservedItem :=
  match l with
  | [] => [x]
  | y :: l' =>
      if oi_added y <? oi_added x then x :: y :: l' else y :: insert_by_added x l'
  end.

Definition order_by_added_desc (l : list ObservedItem) : list ObservedItem :=
  fold_right insert_by_added [] l.

Definition observed_filter (observed : Entity) (signal : string) (i : ObservedItem) : bool :=
  bool_decide (oi_content_type i = e_content_type observed)
  && bool_decide (oi_object_id i = e_pk observed)
  && bool_decide (oi_signal i = signal).

(** [ObservedItem.objects.all_for(observed, signal)] *)
Definition all_for (observed : Entity) (signal : string) : M (list ObservedItem) :=
  let* w := get_world in
  ret (order_by_added_desc
         (List.filter (observed_filter observed signal) (observed_items w))).

Definition observer_filter (observed : Entity) (observer : User) (signal : string)
    (i : ObservedItem) : bool :=
  observed_filter observed signal i && bool_decide (oi_user i = u_id observer).

(** [ObservedItem.objects.get_for(observed, observer, signal)] *)
Definition get_for (observed : Entity) (observer : User) (signal : string)
    : M ObservedItem :=
  let* w := get_world in
  lift (objects_get MObservedItem (observer_filter observed observer signal)
          (observed_items w)).

Definition User_objects_get_pk (pk : Z) : M User :=
  let* w := get_world in
  lift (objects_get MUser (fun u => bool_decide (u_id u = pk)) (users w)).

(** [ObservedItem.send_notice]: [self.user] and [self.notice_type] are
    fetched by their keys; [send] is called with its defaults. *)
Definition send_notice (self : ObservedItem) : M unit :=
  let* user := User_objects_get_pk (oi_user self) in
  let* notice_type := NoticeType_objects_get_pk (oi_notice_type self) in
  let* extra_context :=
    new_dict {[ "observed" :=
                  VEntity {| e_content_type := oi_content_type self;
                             e_pk := oi_object_id self |} ]} in
  send [user] (nt_label notice_type) (Some extra_context) true None false false.

Definition observe (observed : Entity) (observer : User)
    (notice_type_label signal : string) : M ObservedItem :=
  let* notice_type := NoticeType_objects_get_label notice_type_label in
  let* w := get_world in
  let observed_item :=
    {| oi_id := next_pk (map oi_id (observed_items w));
       oi_user := u_id observer;
       oi_content_type := e_content_type observed;
       oi_object_id := e_pk observed;
       oi_notice_type := nt_id notice_type;
       oi_added := now w;
       oi_signal := signal |} in
  modify (set_observed_items (observed_items w ++ [observed_item])) ;;
  ret observed_item.

Definition stop_observing (observed : Entity) (observer : User) (signal : string)
    : M unit :=
  let* observed_item := get_for observed observer signal in
  modify (fun w =>
            set_observed_items (delete_row oi_id observed_item (observed_items w)) w).

Definition send_observation_notices_for (observed : Entity) (signal : string)
    : M (list ObservedItem) :=
  let* observed_items := all_for observed signal in
  for_each observed_items send_notice ;;
  ret observed_items.

Definition is_observing (observed : Entity) (observer : Observer) (signal : string)
    : M bool :=
  match observer with
  | AnonymousUser => ret false
  | AuthUser u =>
      try_except
        (let* observed_items := get_for observed u signal in ret true)
        (fun e =>
           match e with
           | DoesNotExist MObservedItem => Some (ret false)
           | MultipleObjectsReturned MObservedItem => Some (ret true)
           | _ => None
           end)
  end.

Definition handle_observations (instance : Entity) : M unit :=
  send_observation_notices_for instance "post_save" ;; ret tt.

(** *** The queue worker *)

(** Modelled from the spec: the worker that drains the queue, which is not
    part of the sources read here. By section 4.3 it reads all queued
    batches, deserializes each, replays every request tuple through the
    single-recipient path of [send_now], then deletes the batch record.
    A request names its user by primary key, so the user is fetched first;
    deserializing gives the request a dict object of its own. *)
Definition replay (r : QueuedNotice) : M unit :=
  let* user := User_objects_get_pk (qn_user r) in
  let* extra_context := new_dict (qn_extra_context r) in
  send_now [user] (qn_label r) (Some extra_context) (qn_on_site r) (qn_context r).

Definition drain : M unit :=
  let* w := get_world in
  for_each (queue_batches w)
    (fun batch =>
       for_each (qb_pickled_data batch) replay ;;
       modify (fun w =>
                 set_queue_batches (delete_row qb_id batch (queue_batches w)) w)).

End models.

(** ** A small installation, for evaluating the code *)

Module Example.

Definition site : Site := {| site_domain := "example.com"; site_name := "Example" |}.

Definition settings : Settings :=
  {| QUEUE_ALL := false;
     LAZY_RENDERING := false;
     FACEBOOK_ATTR := "facebook_access_token";
     PROFILES_ACTIVATED := true;
     NOTIFICATION_SITE_PICTURE := None;
     DEFAULT_FROM_EMAIL := "noreply@example.com";
     current_site := site;
     notice_settings_url := "/notices/settings/";
     daemon_mode := Detached |}.

(** A renderer that shows the language it ran under and the first template
    name it was given. *)
Definition ext : Collaborators :=
  {| render := fun lang names _ => lang ++ ":" ++ hd "" names;
     translate := fun _ s => s;
     pickle_context := fun _ => "pickled" |}.

Definition alice : User :=
  {| u_id := 1; u_email := "alice@example.com";
     u_profile := Some [("facebook_access_token", "token-a")] |}.

Definition bob : User := {| u_id := 2; u_email := ""; u_profile := None |}.

Definition welcome : NoticeType :=
  {| nt_id := 1; nt_label := "welcome"; nt_display := "Welcome";
     nt_description := "Sent on sign-up"; nt_default := 2 |}.

(** Like [welcome], and on for facebook as well. *)
Definition invite : NoticeType :=
  {| nt_id := 2; nt_label := "invite"; nt_display := "Invitation";
     nt_description := "A friend invited you"; nt_default := 3 |}.

Definition notice1 : Notice :=
  {| n_id := 1; n_user := 1; n_message := "Welcome, Alice"; n_notice_type := 1;
     n_added := 0; n_unseen := true; n_archived := false; n_on_site := true;
     n_context := None |}.

Definition project : Entity := {| e_content_type := "projects.project"; e_pk := 42 |}.

(** Alice reads Spanish; Bob has no language of his own. *)
Definition world : World :=
  {| users := [alice; bob];
     language_store := Some [ {| lr_user := 1; lr_language := Some "es" |} ];
     notice_types := [welcome; invite];
     notice_settings := [];
     notices := [];
     activity_contexts := [];
     queue_batches := [];
     observed_items := [];
     heap := [];
     language := "en";
     trace := [];
     now := 0 |}.


End Example.

(** * The vocabulary of the properties *)

(** What [send_now] gets from [get_notification_language]: the language of
    the user, [None] for [LanguageStoreNotAvailable], or the exception that
    is not caught. *)
Definition lang_lookup (store : option (list LanguageRow)) (user : User)
    : Exception + option string :=
  match store with
  | None => inr None
  | Some rows =>
      match objects_get MLanguage (fun r => bool_decide (lr_user r = u_id user)) rows with
      | inr r => inr (lr_language r)
      | inl (DoesNotExist MLanguage) => inr None
      | inl e => inl e
      end
  end.

(** [get_notification_setting] on the table of settings: the setting it
    returns and the table it leaves. *)
Definition resolve (user : User) (notice_type : NoticeType) (medium : string)
    (rows : list NoticeSetting) : Exception + (NoticeSetting * list NoticeSetting) :=
  match objects_get MNoticeSetting (setting_filter user notice_type medium) rows with
  | inr s => inr (s, rows)
  | inl (DoesNotExist MNoticeSetting) =>
      match NOTICE_MEDIA_DEFAULTS !! medium with
      | Some sensitivity =>
          let s := {| ns_id := next_pk (map ns_id rows);
                      ns_user := u_id user;
                      ns_notice_type := nt_id notice_type;
                      ns_medium := medium;
                      ns_send := sensitivity <=? nt_default notice_type |} in
          inr (s, (rows ++ [s])%list)
      | None => inl (KeyError medium)
      end
  | inl e => inl e
  end.

(** The world apart from the Python heap and from what left the process. *)
Definition db_of (w : World) :=
  (users w, language_store w, notice_types w, notice_settings w, notices w,
   activity_contexts w, queue_batches w, observed_items w, language w, now w).

(** An action that changes neither the tables nor the active language. *)
Definition keeps_db {A} (m : M A) : Prop := forall w, db_of (fst (m w)) = db_of w.

(** The dict a reference stands for. *)
Definition dict_at (l : nat) (w : World) : Dict := default ∅ (heap w !! l).

(** The facebook attributes that [send_now] guesses are in the dict. *)
Definition guessed (settings : Settings) (d : Dict) : Prop :=
  is_Some (d !! "name") /\ is_Some (d !! "description") /\ is_Some (d !! "link")
  /\ (is_Some (NOTIFICATION_SITE_PICTURE settings) -> is_Some (d !! "picture")).

(** From [d] to [d'] no facebook attribute was lost, and no picture came
    in unless the settings have one. *)
Definition dict_kept (settings : Settings) (d d' : Dict) : Prop :=
  (forall k, In k facebook_attrs -> is_Some (d !! k) -> is_Some (d' !! k))
  /\ (NOTIFICATION_SITE_PICTURE settings = None ->
      d !! "picture" = None -> d' !! "picture" = None).

(** From [w] to [w'] no dict was created and the dict of [l] was kept. *)
Definition heap_kept (settings : Settings) (l : nat) (w w' : World) : Prop :=
  length (heap w') = length (heap w)
  /\ dict_kept settings (dict_at l w) (dict_at l w').

(** The notice type has these values already. *)
Definition has_fields (display description : string) (default : Z) (t : NoticeType) : bool :=
  bool_decide (nt_display t = display)
  && bool_decide (nt_description t = description)
  && bool_decide (nt_default t = default).

(** A notice without its rendered message. *)
Definition blank (n : Notice) : Notice :=
  {| n_id := n_id n; n_user := n_user n; n_message := "";
     n_notice_type := n_notice_type n; n_added := n_added n;
     n_unseen := n_unseen n; n_archived := n_archived n;
     n_on_site := n_on_site n; n_context := n_context n |}.

(** A notice without its rendered message and without the date of its
    creation. *)
Definition undated (n : Notice) : Notice :=
  {| n_id := n_id n; n_user := n_user n; n_message := "";
     n_notice_type := n_notice_type n; n_added := 0;
     n_unseen := n_unseen n; n_archived := n_archived n;
     n_on_site := n_on_site n; n_context := n_context n |}.

(** The call returned, as opposed to raised. *)
Definition is_ok {A} (r : Exception + A) : bool :=
  match r with inr _ => true | inl _ => false end.

(** The notice of one turn, its message apart. *)
Definition new_notice (user : User) (notice_type : NoticeType) (on_site : bool)
    (context : option ActivityContext) (added : Z) (ns : list Notice) : Notice :=
  {| n_id := next_pk (map n_id ns); n_user := u_id user; n_message := "";
     n_notice_type := nt_id notice_type; n_added := added;
     n_unseen := true; n_archived := false; n_on_site := on_site;
     n_context := option_map ac_id context |}.

(** What one turn of the loop of [send_now] does to the tables, the
    messages apart, and whether it ends without an exception. *)
Definition turn (html : bool) (user : User) (notice_type : NoticeType) (on_site : bool)
    (context : option ActivityContext) (store : option (list LanguageRow)) (added : Z)
    (rows : list NoticeSetting) (ns : list Notice)
    : list NoticeSetting * list Notice * bool :=
  match lang_lookup store user with
  | inl _ => (rows, ns, false)
  | inr _ =>
      if html
      then
        let ns1 := (ns ++ [new_notice user notice_type on_site context added ns])%list in
        match resolve user notice_type "1" rows with
        | inl _ => (rows, ns1, false)
        | inr (_, rows1) =>
            match resolve user notice_type "2" rows1 with
            | inl _ => (rows1, ns1, false)
            | inr (_, rows2) => (rows2, ns1, true)
            end
        end
      else (rows, ns, false)
  end.

(** With these formats the message of the notice is there to be stored:
    lazily, or as the rendering of [notice.html]. *)
Definition has_html (settings : Settings) (on_site : bool) (formats : list string) : bool :=
  LAZY_RENDERING settings && on_site
  || existsb (String.eqb "notice.html") formats.

(** Rows were appended, none changed or removed. *)
Definition extends {A} (old new : list A) : Prop := exists l, new = (old ++ l)%list.

(** Whether the loop of [send_now] reaches the facebook branch with the
    setting on, for this user and these rows. *)
Definition social_on (user : User) (notice_type : NoticeType)
    (rows : list NoticeSetting) : bool :=
  match resolve user notice_type "1" rows with
  | inr (_, rows1) =>
      match resolve user notice_type "2" rows1 with
      | inr (s2, _) => ns_send s2
      | inl _ => false
      end
  | inl _ => false
  end.

(** The loop of [send_now] on the tables. *)
Fixpoint turns (html : bool) (users : list User) (notice_type : NoticeType)
    (on_site : bool) (context : option ActivityContext)
    (store : option (list LanguageRow)) (added : Z)
    (rows : list NoticeSetting) (ns : list Notice)
    : list NoticeSetting * list Notice * bool :=
  match users with
  | [] => (rows, ns, true)
  | user :: users' =>
      let '(rows', ns', ok) :=
        turn html user notice_type on_site context store added rows ns in
      if ok
      then turns html users' notice_type on_site context store added rows' ns'
      else (rows', ns', false)
  end.

(** [get_or_create] on the table of activity contexts. *)
Definition get_or_create (content_type : string) (object_id : Z)
    (rows : list ActivityContext) : Exception + (ActivityContext * list ActivityContext) :=
  match objects_get MActivityContext
          (fun c => bool_decide (ac_content_type c = content_type)
                    && bool_decide (ac_object_id c = object_id)) rows with
  | inr c => inr (c, rows)
  | inl (DoesNotExist MActivityContext) =>
      let c := {| ac_id := next_pk (map ac_id rows);
                  ac_content_type := content_type;
                  ac_object_id := object_id |} in
      inr (c, (rows ++ [c])%list)
  | inl e => inl e
  end.

(** What [send_now] does before its loop: the activity context and the
    notice type it goes on with, and the table of activity contexts it
    leaves. *)
Definition prelude (context : option Entity) (label : string)
    (acs : list ActivityContext) (nts : list NoticeType)
    : Exception + (option ActivityContext * NoticeType * list ActivityContext) :=
  match match context with
        | Some c =>
            match get_or_create (e_content_type c) (e_pk c) acs with
            | inr (a, acs') => inr (Some a, acs')
            | inl e => inl e
            end
        | None => inr (None, acs)
        end with
  | inr (a, acs') =>
      match objects_get MNoticeType (fun t => bool_decide (nt_label t = label)) nts with
      | inr nt => inr (a, nt, acs')
      | inl e => inl e
      end
  | inl e => inl e
  end.

(** What [should_send] answers on these rows, [false] when it raises. *)
Definition would_send (user : User) (notice_type : NoticeType) (medium : string)
    (rows : list NoticeSetting) : bool :=
  match resolve user notice_type medium rows with
  | inr (s, _) => ns_send s
  | inl _ => false
  end.

(** [has_html] for the formats of [send_now]. *)
Definition html_of (settings : Settings) (on_site : bool) : bool :=
  has_html settings on_site (notice_formats settings on_site).

(** [User.objects.get(pk=user.pk)] finds a user. *)
Definition stored (w : World) (user : User) : Prop :=
  exists u', objects_get MUser (fun u => bool_decide (u_id u = u_id user)) (users w) = inr u'.

(** [unique_together = ("user", "notice_type", "medium")] *)
Definition settings_unique (rows : list NoticeSetting) : Prop :=
  forall user nt medium,
    (length (List.filter (setting_filter user nt medium) rows) <= 1)%nat.

(** A notice as [send_now] creates it. *)
Definition fresh_notice (nt : NoticeType) (on_site : bool) (n : Notice) : Prop :=
  n_unseen n = true /\ n_archived n = false
  /\ n_notice_type n = nt_id nt /\ n_on_site n = on_site.

(** * More of the code: the notice manager, [archive], and the views that
      change notices and settings *)

(** [ordering = ["-added"]] of [Notice]: newest first, rows of equal date in
    table order. *)
Fixpoint insert_notice_by_added (x : Notice) (l : list Notice) : list Notice :=
  match l with
  | [] => [x]
  | y :: l' =>
      if n_added y <=? n_added x then x :: y :: l' else y :: insert_notice_by_added x l'
  end.

Definition order_notices_by_added_desc (l : list Notice) : list Notice :=
  fold_right insert_notice_by_added [] l.

(** The filter [context__content_type=..., context__object_id=...], a join
    with the activity contexts: a notice comes once for each activity
    context of its key that matches. *)
Definition context_filter (context : Entity) (acs : list ActivityContext) (n : Notice)
    : list Notice :=
  match n_context n with
  | Some c =>
      map (fun _ => n)
        (List.filter
           (fun a => bool_decide (ac_id a = c)
                     && bool_decide (ac_content_type a = e_content_type context)
                     && bool_decide (ac_object_id a = e_pk context))
           acs)
  | None => []
  end.

(** [Notice.objects.notices_for(user, archived, unseen, on_site, context)],
    evaluated. *)
Definition notices_for (user : User) (archived : bool) (unseen on_site : option bool)
    (context : option Entity) : M (list Notice) :=
  let* w := get_world in
  let qs :=
    if archived
    then List.filter (fun n => bool_decide (n_user n = u_id user)) (notices w)
    else List.filter (fun n => bool_decide (n_user n = u_id user)
                               && bool_decide (n_archived n = archived)) (notices w) in
  let qs :=
    match unseen with
    | Some unseen => List.filter (fun n => bool_decide (n_unseen n = unseen)) qs
    | None => qs
    end in
  let qs :=
    match on_site with
    | Some on_site => List.filter (fun n => bool_decide (n_on_site n = on_site)) qs
    | None => qs
    end in
  let qs :=
    match context with
    | Some context => flat_map (context_filter context (activity_contexts w)) qs
    | None => qs
    end in
  ret (order_notices_by_added_desc qs).

(** [Notice.objects.unseen_count_for(user, **kwargs)] *)
Definition unseen_count_for (user : User) (archived : bool) (on_site : option bool)
    (context : option Entity) : M nat :=
  let* qs := notices_for user archived (Some true) on_site context in
  ret (length qs).

Definition set_archived (v : bool) (self : Notice) : Notice :=
  {| n_id := n_id self; n_user := n_user self; n_message := n_message self;
     n_notice_type := n_notice_type self; n_added := n_added self;
     n_unseen := n_unseen self; n_archived := v; n_on_site := n_on_site self;
     n_context := n_context self |}.

(** [Notice.archive]: the result is the instance after the call. *)
Definition archive (self : Notice) : M Notice :=
  let self := set_archived true self in
  Notice_save self ;;
  ret self.

(** ** [views.py] *)

(** The media and their display names. *)
Definition NOTICE_MEDIA : list (string * string) :=
  [("1", "Email"); ("2", "Facebook")].

(** What the views read of the request. *)
Record Request := {
  req_method : string;
  req_POST : gmap string string;
  req_user : User;
}.

(** What the template of [notices] is given. *)
Record NoticesPage := {
  np_notices : list Notice;
  np_notice_types : list NoticeType;
  np_column_headers : list string;
  np_rows : list (NoticeType * list (string * bool));
}.

Inductive HttpResponse :=
| HttpResponseRedirect (url : string)
| RenderNotices (page : NoticesPage).

Definition set_send (v : bool) (self : NoticeSetting) : NoticeSetting :=
  {| ns_id := ns_id self; ns_user := ns_user self;
     ns_notice_type := ns_notice_type self; ns_medium := ns_medium self;
     ns_send := v |}.

Definition NoticeSetting_save (self : NoticeSetting) : M unit :=
  modify (fun w => set_notice_settings (save_row ns_id self (notice_settings w)) w).

(** [for x in xs], collecting what each turn appends. *)
Fixpoint for_each_collect {A B} (xs : list A) (body : A -> M B) : M (list B) :=
  match xs with
  | [] => ret []
  | x :: xs' =>
      let* y := body x in
      let* ys := for_each_collect xs' body in
      ret (y :: ys)
  end.

Module views.

Section views.
Context (reverse : string -> string).

(** One cell of the settings table of [notices]. *)
Definition notices_cell (request : Request) (notice_type : NoticeType)
    (medium : string * string) : M (string * bool) :=
  let '(medium_id, medium_display) := medium in
  let form_label := nt_label notice_type ++ "_" ++ medium_id in
  let* setting := get_notification_setting (req_user request) notice_type medium_id in
  let* setting :=
    if bool_decide (req_method request = "POST")
    then (let setting :=
            if bool_decide (req_POST request !! form_label = Some "on")
            then set_send true setting
            else set_send false setting in
          NoticeSetting_save setting ;;
          ret setting)
    else ret setting in
  ret (form_label, ns_send setting).

(** The view [notices]. *)
Definition notices (request : Request) : M HttpResponse :=
  let* w := get_world in
  let* settings_table :=
    for_each_collect (notice_types w)
      (fun notice_type =>
         let* settings_row :=
           for_each_collect NOTICE_MEDIA (notices_cell request notice_type) in
         ret (notice_type, settings_row)) in
  let* w := get_world in
  let* notices := notices_for (req_user request) false None (Some true) None in
  ret (RenderNotices
         {| np_notices := notices;
            np_notice_types := notice_types w;
            np_column_headers := map snd NOTICE_MEDIA;
            np_rows := settings_table |}).

(** The view [mark_all_seen]. *)
Definition mark_all_seen (request : Request) : M HttpResponse :=
  let* unseen := notices_for (req_user request) false (Some true) None None in
  for_each unseen (fun notice => Notice_save (set_unseen false notice)) ;;
  ret (HttpResponseRedirect (reverse "notification_notices")).

End views.

End views.

(** ** The dict of the caller *)




(** ** The vocabulary of the further properties *)

(** The filters of [notices_for], the one on the context apart. *)
Definition notice_filter (user : User) (archived : bool) (unseen on_site : option bool)
    (n : Notice) : bool :=
  bool_decide (n_user n = u_id user)
  && (archived || negb (n_archived n))
  && match unseen with Some b => bool_decide (n_unseen n = b) | None => true end
  && match on_site with Some b => bool_decide (n_on_site n = b) | None => true end.

(** Newest first. *)
Definition newer_first (a b : Notice) : Prop := n_added b <= n_added a.

(** What [mark_all_seen] does to a row. *)
Definition seen_by (user : User) (n : Notice) : Notice :=
  if notice_filter user false (Some true) None n then set_unseen false n else n.

(** The filter [content_type=..., object_id=...] of [get_or_create]. *)
Definition activity_filter (c : Entity) (a : ActivityContext) : bool :=
  bool_decide (ac_content_type a = e_content_type c)
  && bool_decide (ac_object_id a = e_pk c).

(** The context of a call, if any, has at most one activity context. *)
Definition context_unique (context : option Entity) (acs : list ActivityContext) : Prop :=
  forall c, context = Some c -> (length (List.filter (activity_filter c) acs) <= 1)%nat.

(** Newest first. *)
Definition added_first (a b : ObservedItem) : Prop := oi_added b <= oi_added a.

(** What one format of [get_formatted_messages] is rendered to. *)
Definition rendered_format (ext : Collaborators) (language label format : string)
    (context : TemplateContext) : string :=
  render ext language
    ["notification/" ++ label ++ "/" ++ format; "notification/" ++ format]
    {| tc_dict := tc_dict context;
       tc_autoescape := negb (endswith format ".txt") |}.

(** The box of the form of [notices] for a notice type and a medium. *)
Definition posted (request : Request) (notice_type : NoticeType) (medium : string)
    : bool :=
  bool_decide (req_POST request !! (nt_label notice_type ++ "_" ++ medium) = Some "on").

(** What the settings table of [notices] shows. *)
Definition shown (request : Request) (rows : list NoticeSetting)
    (notice_type : NoticeType) (medium : string) : bool :=
  if bool_decide (req_method request = "POST")
  then posted request notice_type medium
  else would_send (req_user request) notice_type medium rows.

(** A row of the settings table of [notices]. *)
Definition settings_row (request : Request) (rows : list NoticeSetting)
    (notice_type : NoticeType) : NoticeType * list (string * bool) :=
  (notice_type,
   map (fun medium =>
          (nt_label notice_type ++ "_" ++ medium.1,
           shown request rows notice_type medium.1)) NOTICE_MEDIA).

(** The loop body of [notices] for one notice type. *)
Definition notices_row (request : Request) (notice_type : NoticeType)
    : M (NoticeType * list (string * bool)) :=
  let* settings_row :=
    for_each_collect NOTICE_MEDIA (views.notices_cell request notice_type) in
  ret (notice_type, settings_row).

(** A call of [send_mail]. *)
Definition is_mail (e : Event) : bool :=
  match e with
  | SendMail _ _ _ _ => true
  | _ => false
  end.

(** The mail among the events. *)
Definition mails (t : list Event) : list Event := List.filter is_mail t.

(** The string has a character at which [splitlines] splits. *)
Definition has_linebreak (s : string) : bool :=
  existsb is_linebreak (list_ascii_of_string s).

(** A call of [send_mail] for one recipient of [send_now]. *)
Definition mail_to (from_email : string) (user : User) (e : Event) : Prop :=
  match e with
  | SendMail subject _ from recipients =>
      has_linebreak subject = false
      /\ from = from_email
      /\ (recipients = [] \/ (recipients = [u_email user] /\ u_email user <> ""))
  | _ => False
  end.

(** A computation that sends no mail. *)
Definition no_mail {A} (m : M A) : Prop :=
  forall w, mails (trace (fst (m w))) = mails (trace w).

(** * Properties *)

(** ** Lookups, and running one step *)

Lemma objects_get_none {A} (m : Model) (p : A -> bool) rows :
  List.filter p rows = [] -> objects_get m p rows = inl (DoesNotExist m).
Proof. intros H. unfold objects_get. now rewrite H. Qed.

Lemma objects_get_one {A} (m : Model) (p : A -> bool) rows x :
  List.filter p rows = [x] -> objects_get m p rows = inr x.
Proof. intros H. unfold objects_get. now rewrite H. Qed.

Lemma bind_run {A B} (m : M A) (k : A -> M B) w w' a :
  m w = (w', inr a) -> bind m k w = k a w'.
Proof. intros H. unfold bind. now rewrite H. Qed.

Lemma bind_fail {A B} (m : M A) (k : A -> M B) w w' e :
  m w = (w', inl e) -> bind m k w = (w', inl e).
Proof. intros H. unfold bind. now rewrite H. Qed.

Lemma objects_get_model {A} (m : Model) (p : A -> bool) rows e :
  objects_get m p rows = inl e -> e = DoesNotExist m \/ e = MultipleObjectsReturned m.
Proof.
  unfold objects_get. destruct (List.filter p rows) as [|x [|y l]]; intros H;
    inversion H; auto.
Qed.

Lemma get_notification_language_run (user : User) (w : World) :
  try_except (let* l := get_notification_language user in ret (Some l))
    (fun e => match e with
              | LanguageStoreNotAvailable => Some (ret None)
              | _ => None
              end) w
  = (w, lang_lookup (language_store w) user).
Proof.
  unfold try_except, get_notification_language, bind, get_world, lang_lookup, lift,
    ret, raise.
  destruct (language_store w) as [rows|]; [|reflexivity].
  destruct (objects_get _ _ rows) as [e|r] eqn:E.
  - destruct (objects_get_model _ _ _ _ E) as [-> | ->]; reflexivity.
  - destruct (lr_language r); reflexivity.
Qed.

Lemma get_notification_setting_run (user : User) (notice_type : NoticeType)
    (medium : string) (w : World) :
  get_notification_setting user notice_type medium w
  = match resolve user notice_type medium (notice_settings w) with
    | inl e => (w, inl e)
    | inr (s, rows) => (set_notice_settings rows w, inr s)
    end.
Proof.
  unfold get_notification_setting, try_except, NoticeSetting_objects_get, bind,
    get_world, lift, resolve, modify, ret, raise.
  destruct (objects_get _ _ _) as [e|s] eqn:E.
  - destruct (objects_get_model _ _ _ _ E) as [-> | ->]; [|reflexivity].
    destruct (NOTICE_MEDIA_DEFAULTS !! medium); reflexivity.
  - now destruct w.
Qed.

Lemma should_send_run (user : User) (notice_type : NoticeType) (medium : string)
    (w : World) :
  should_send user notice_type medium w
  = match resolve user notice_type medium (notice_settings w) with
    | inl e => (w, inl e)
    | inr (s, rows) => (set_notice_settings rows w, inr (ns_send s))
    end.
Proof.
  unfold should_send, bind. rewrite get_notification_setting_run.
  now destruct (resolve _ _ _ _) as [e|[s rows]].
Qed.

Section rendering.
Context (settings : Settings) (ext : Collaborators).

Lemma get_formatted_messages_from_run (formats : list string) :
  forall (acc : gmap string string) (label : string) (c : TemplateContext) (w : World),
  exists m c',
    get_formatted_messages_from ext acc formats label c w = (w, inr (m, c'))
    /\ tc_dict c' = tc_dict c
    /\ forall k, m !! k = None <-> acc !! k = None /\ ~ In k formats.
Proof.
  induction formats as [|f formats IH]; intros acc label c w.
  - exists acc, c. simpl. repeat split; tauto.
  - simpl. unfold bind, render_to_string.
    edestruct IH as (m & c' & -> & Hc & Hm).
    exists m, c'. split; [reflexivity|]. split.
    + rewrite Hc. now destruct (endswith f ".txt").
    + intros k. rewrite Hm. rewrite lookup_insert_None. tauto.
Qed.
End rendering.

(** ** What the facebook daemon leaves alone *)

Lemma keeps_db_bind {A B} (m : M A) (k : A -> M B) :
  keeps_db m -> (forall a, keeps_db (k a)) -> keeps_db (bind m k).
Proof.
  intros Hm Hk w. unfold bind. specialize (Hm w).
  destruct (m w) as [w' [e|a]]; [exact Hm|].
  rewrite Hk. exact Hm.
Qed.

Lemma keeps_db_ret {A} (a : A) : keeps_db (ret a).
Proof. now intros w. Qed.

Lemma keeps_db_raise {A} (e : Exception) : keeps_db (@raise A e).
Proof. now intros w. Qed.

Lemma keeps_db_read_dict l : keeps_db (read_dict l).
Proof. now intros w. Qed.

Lemma keeps_db_write_dict l d : keeps_db (write_dict l d).
Proof. now intros w. Qed.

Lemma keeps_db_emit e : keeps_db (emit e).
Proof. now intros w. Qed.

Section daemon_frame.
Context (settings : Settings) (ext : Collaborators).

Lemma keeps_db_send_to_facebook_body user context :
  keeps_db (send_to_facebook_body settings user context).
Proof.
  unfold send_to_facebook_body.
  repeat first
    [ apply keeps_db_bind; [|intros ?]
    | apply keeps_db_read_dict | apply keeps_db_write_dict
    | apply keeps_db_emit | apply keeps_db_ret | apply keeps_db_raise
    | match goal with |- keeps_db (match ?x with _ => _ end) => destruct x end ].
Qed.

Lemma send_to_facebook_run user context w :
  exists w', send_to_facebook settings user context w = (w', inr tt)
             /\ db_of w' = db_of w.
Proof.
  unfold send_to_facebook, daemonize.
  pose proof (keeps_db_send_to_facebook_body user context w) as H.
  destruct (daemon_mode settings); eexists; (split; [reflexivity|]).
  - reflexivity.
  - exact H.
Qed.
End daemon_frame.

(** ** The dict of [extra_context] *)

Section heap.
Context (settings : Settings).

Lemma dict_kept_refl d : dict_kept settings d d.
Proof. split; auto. Qed.

Lemma dict_kept_trans d1 d2 d3 :
  dict_kept settings d1 d2 -> dict_kept settings d2 d3 -> dict_kept settings d1 d3.
Proof. intros [A1 B1] [A2 B2]. split; auto. Qed.

Lemma heap_kept_refl l w : heap_kept settings l w w.
Proof. split; [reflexivity | apply dict_kept_refl]. Qed.

Lemma heap_kept_trans l w1 w2 w3 :
  heap_kept settings l w1 w2 -> heap_kept settings l w2 w3 ->
  heap_kept settings l w1 w3.
Proof.
  intros [L1 K1] [L2 K2]. split; [congruence|].
  eapply dict_kept_trans; eassumption.
Qed.

Lemma heap_kept_same l w w' : heap w' = heap w -> heap_kept settings l w w'.
Proof.
  intros H. unfold heap_kept, dict_at. rewrite H.
  split; [reflexivity | apply dict_kept_refl].
Qed.

(** Writing a dict that keeps what the one in place has. *)
Lemma heap_kept_write l d w :
  (l < length (heap w))%nat ->
  dict_kept settings (dict_at l w) d ->
  heap_kept settings l w (set_heap (<[l := d]> (heap w)) w).
Proof.
  intros Hl Hk. unfold heap_kept, dict_at in *. simpl.
  rewrite length_insert. split; [reflexivity|].
  now rewrite list_lookup_insert_eq by assumption.
Qed.

Lemma write_out_of_range l (d : Dict) w :
  ~ (l < length (heap w))%nat -> <[l := d]> (heap w) = heap w.
Proof. intros H. apply list_insert_ge. lia. Qed.

Lemma heap_kept_write_any l d w :
  dict_kept settings (dict_at l w) d ->
  heap_kept settings l w (set_heap (<[l := d]> (heap w)) w).
Proof.
  intros Hk. destruct (decide (l < length (heap w))%nat) as [Hl|Hl].
  - now apply heap_kept_write.
  - apply heap_kept_same. simpl. now apply write_out_of_range.
Qed.

Lemma dict_at_write l d w :
  (l < length (heap w))%nat ->
  dict_at l (set_heap (<[l := d]> (heap w)) w) = d.
Proof.
  intros H. unfold dict_at. simpl. now rewrite list_lookup_insert_eq by assumption.
Qed.

Lemma dict_kept_filter (d : Dict) :
  dict_kept settings d (filter (fun kv => kv.1 ∈ facebook_attrs) d).
Proof.
  split.
  - intros k Hk [v Hv]. exists v. apply map_lookup_filter_Some. split; [assumption|].
    simpl. now apply list_elem_of_In.
  - intros _ H. apply map_lookup_filter_None. left. exact H.
Qed.

Lemma dict_kept_link (d : Dict) (v : Value) :
  dict_kept settings d (<["link" := v]> d).
Proof.
  split.
  - intros k Hk [x Hx]. destruct (decide (k = "link")) as [->|Hne].
    + rewrite lookup_insert_eq. eauto.
    + rewrite lookup_insert_ne by congruence. eauto.
  - intros _ H. now rewrite lookup_insert_ne by discriminate.
Qed.

Lemma dict_kept_guess subject url (d : Dict) :
  dict_kept settings d (guess_facebook_attrs settings subject url d).
Proof.
  unfold guess_facebook_attrs. split.
  - intros k Hk Hs.
    repeat match goal with
           | |- context [if ?b then _ else _] => destruct b
           | |- context [match ?x with Some _ => _ | None => _ end] => destruct x
           end;
      repeat match goal with
             | |- is_Some (<[?i := _]> _ !! k) =>
                 destruct (decide (i = k)) as [<-|?];
                 [rewrite lookup_insert_eq; eauto | rewrite lookup_insert_ne by assumption]
             end; assumption.
  - intros Hnone H. rewrite Hnone.
    repeat match goal with
           | |- context [if ?b then _ else _] => destruct b
           end;
      rewrite ?lookup_insert_ne by discriminate; assumption.
Qed.

Lemma guessed_guess subject url (d : Dict) :
  guessed settings (guess_facebook_attrs settings subject url d).
Proof.
  unfold guess_facebook_attrs, guessed.
  assert (Hins : forall (m : Dict) i j v, is_Some (m !! j) -> is_Some (<[i := v]> m !! j)).
  { intros m i j v H. destruct (decide (i = j)) as [<-|?].
    - rewrite lookup_insert_eq. eauto.
    - now rewrite lookup_insert_ne. }
  set (d1 := if negb (bool_decide (is_Some (d !! "name"))) then _ else d).
  assert (H1 : is_Some (d1 !! "name")).
  { subst d1. case_bool_decide; simpl; [assumption|]. rewrite lookup_insert_eq. eauto. }
  set (d2 := if negb (bool_decide (is_Some (d1 !! "description"))) then _ else d1).
  assert (H2 : is_Some (d2 !! "name") /\ is_Some (d2 !! "description")).
  { subst d2. case_bool_decide; simpl; [tauto|]. split; [now apply Hins|].
    rewrite lookup_insert_eq. eauto. }
  set (d3 := if negb (bool_decide (is_Some (d2 !! "link"))) then _ else d2).
  assert (H3 : is_Some (d3 !! "name") /\ is_Some (d3 !! "description")
               /\ is_Some (d3 !! "link")).
  { subst d3. case_bool_decide; simpl; [tauto|]. destruct H2.
    repeat split; try (now apply Hins). rewrite lookup_insert_eq. eauto. }
  clearbody d3. destruct H3 as (A & B & C).
  destruct (NOTIFICATION_SITE_PICTURE settings) as [p|].
  - case_bool_decide; simpl; [tauto|].
    repeat split; try (now apply Hins). intros _. rewrite lookup_insert_eq. eauto.
  - repeat split; try assumption. intros [x Hx]. discriminate.
Qed.

Lemma guessed_kept d d' :
  dict_kept settings d d' -> guessed settings d -> guessed settings d'.
Proof.
  intros [K _] (A & B & C & D). unfold facebook_attrs in K.
  repeat split; try (apply K; [simpl; tauto | assumption]).
  intros H. apply K; [simpl; tauto | auto].
Qed.
End heap.

Section daemon.
Context (settings : Settings).

Lemma send_to_facebook_body_heap user l w :
  heap_kept settings l w (fst (send_to_facebook_body settings user l w)).
Proof.
  unfold send_to_facebook_body.
  erewrite bind_run by reflexivity.
  set (d0 := default ∅ (heap w !! l)).
  set (d1 := filter (fun kv => kv.1 ∈ facebook_attrs) d0).
  set (w1 := set_heap (<[l := d1]> (heap w)) w).
  assert (K1 : heap_kept settings l w w1).
  { apply heap_kept_write_any. apply dict_kept_filter. }
  assert (Hd1 : dict_at l w1 = d1).
  { destruct (decide (l < length (heap w))%nat) as [Hl|Hl].
    - now apply dict_at_write.
    - unfold dict_at, w1. simpl. rewrite write_out_of_range by assumption.
      subst d1 d0. rewrite (lookup_ge_None_2 (heap w) l) by lia. simpl.
      symmetry. apply map_filter_empty. }
  assert (Hw1 : write_dict l d1 w = (w1, inr tt)) by reflexivity.
  rewrite (bind_run _ _ _ _ _ Hw1).
  assert (Hr1 : read_dict l w1 = (w1, inr d1)).
  { unfold read_dict. fold (dict_at l w1). now rewrite Hd1. }
  rewrite (bind_run _ _ _ _ _ Hr1).
  assert (Hlink : (exists link,
                      match d1 !! "link" with
                      | None => ret ""
                      | Some (VStr s) => ret s
                      | Some _ => raise TypeError
                      end w1 = (w1, inr link))
                  \/ match d1 !! "link" with
                     | None => ret ""
                     | Some (VStr s) => ret s
                     | Some _ => raise TypeError
                     end w1 = (w1, inl TypeError)).
  { destruct (d1 !! "link") as [[]|]; eauto. }
  destruct Hlink as [[link Hlink]|Hlink].
  2:{ rewrite (bind_fail _ _ _ _ _ Hlink). exact K1. }
  rewrite (bind_run _ _ _ _ _ Hlink).
  set (v := VStr _).
  assert (Hw2 : exists w2,
             (if negb (contains "http://" link)
              then write_dict l (<["link" := v]> d1)
              else ret tt) w1 = (w2, inr tt)
             /\ heap_kept settings l w1 w2).
  { destruct (negb _).
    - eexists. split; [reflexivity|]. apply heap_kept_write_any.
      rewrite Hd1. apply dict_kept_link.
    - exists w1. split; [reflexivity | apply heap_kept_refl]. }
  destruct Hw2 as (w2 & Hw2 & K2).
  rewrite (bind_run _ _ _ _ _ Hw2).
  assert (K : heap_kept settings l w w2) by (eapply heap_kept_trans; eassumption).
  destruct (u_profile user) as [profile|]; [|exact K].
  erewrite bind_run by reflexivity.
  erewrite bind_run by reflexivity.
  destruct (option_map _ _) as [token|]; [|exact K].
  destruct (_ && _); [|exact K].
  eapply heap_kept_trans; [exact K|]. now apply heap_kept_same.
Qed.

Lemma send_to_facebook_heap user l w :
  heap_kept settings l w (fst (send_to_facebook settings user l w)).
Proof.
  unfold send_to_facebook, daemonize.
  destruct (daemon_mode settings); simpl.
  - now apply heap_kept_same.
  - apply send_to_facebook_body_heap.
Qed.
End daemon.

(** ** [send] and [is_observing] *)

Lemma filter_nil_existsb {A} (p : A -> bool) rows :
  List.filter p rows = [] <-> existsb p rows = false.
Proof.
  induction rows as [|r rows IH]; simpl; [tauto|].
  destruct (p r); simpl; [split; discriminate | exact IH].
Qed.

Section routing.
Context (settings : Settings) (ext : Collaborators).

(** Claim C5. [send] called with both [queue] and [now] fails on its
    assertion, whatever the state, and changes nothing; with [queue] alone it
    is [queue], with [now] alone it is [send_now], and with neither it is
    [queue] when [NOTIFICATION_QUEUE_ALL] is set and [send_now] otherwise. *)
Theorem send_routing (users : list User) (label : string) (extra_context : option nat)
    (on_site : bool) (context : option Entity) :
  (forall w,
      send settings ext users label extra_context on_site context true true w
      = (w, inl (AssertionError "'queue' and 'now' cannot both be True.")))
  /\ send settings ext users label extra_context on_site context true false
     = queue users label extra_context on_site context
  /\ send settings ext users label extra_context on_site context false true
     = send_now settings ext users label extra_context on_site context
  /\ send settings ext users label extra_context on_site context false false
     = if QUEUE_ALL settings
       then queue users label extra_context on_site context
       else send_now settings ext users label extra_context on_site context.
Proof. repeat split. Qed.

(** Claim C8. [is_observing] answers [False] for an anonymous observer
    whatever the observed items are; for a user it answers whether at least
    one observed item matches the object, the user and the signal, so it is
    [True] as well when several do. It changes nothing. *)
Theorem is_observing_anonymous_or_subscribed (observed : Entity) (signal : string)
    (w : World) :
  is_observing observed AnonymousUser signal w = (w, inr false)
  /\ forall u : User,
      is_observing observed (AuthUser u) signal w
      = (w, inr (existsb (observer_filter observed u signal) (observed_items w))).
Proof.
  split; [reflexivity|]. intros u.
  unfold is_observing, try_except, get_for, bind, get_world, lift, ret, objects_get.
  destruct (List.filter _ _) as [|x [|y l]] eqn:E.
  - apply filter_nil_existsb in E. now rewrite E.
  - destruct (existsb _ _) eqn:E'; [reflexivity|].
    apply filter_nil_existsb in E'. congruence.
  - destruct (existsb _ _) eqn:E'; [reflexivity|].
    apply filter_nil_existsb in E'. congruence.
Qed.
End routing.

(** ** [is_unseen] and the settings *)

Lemma save_row_spec {A} (pk : A -> Z) (row : A) (rows : list A) :
  In row (save_row pk row rows)
  /\ Forall (fun r => pk r = pk row -> r = row) (save_row pk row rows).
Proof.
  unfold save_row. destruct (existsb _ rows) eqn:E.
  - split.
    + apply existsb_exists in E as (r & Hr & Hpk).
      apply in_map_iff. exists r. now rewrite Hpk.
    + apply List.Forall_forall. intros r Hr. apply in_map_iff in Hr as (r0 & <- & _).
      case_bool_decide; [reflexivity | tauto].
  - split; [apply in_or_app; right; now left|].
    apply Forall_app. split; [|now repeat constructor].
    apply List.Forall_forall. intros r Hr Hpk.
    assert (existsb (fun r => bool_decide (pk r = pk row)) rows = true); [|congruence].
    apply existsb_exists. exists r. split; [assumption|]. now apply bool_decide_eq_true.
Qed.

Lemma is_unseen_seen (self : Notice) (w : World) :
  n_unseen self = false -> is_unseen self w = (w, inr (self, false)).
Proof. intros H. unfold is_unseen. now rewrite H. Qed.

Lemma read_for_display_seen (k : nat) (self : Notice) (w : World) :
  n_unseen self = false ->
  read_for_display k self w = (w, inr (self, repeat false k)).
Proof.
  intros H. induction k as [|k IH]; [reflexivity|].
  simpl. unfold bind. rewrite is_unseen_seen by assumption. now rewrite IH.
Qed.

(** Claim C7. For a notice that is unseen, the first [is_unseen] returns
    [True], leaves the instance seen and saves it, so that every stored row of
    its key is seen; any later [is_unseen] returns [False] and changes
    neither the instance nor the state. [S k] reads in a row return [True]
    once and then [False] [k] times. *)
Theorem is_unseen_one_shot (self : Notice) (w : World) (k : nat) :
  n_unseen self = true ->
  let seen := set_unseen false self in
  let w1 := set_notices (save_row n_id seen (notices w)) w in
  is_unseen self w = (w1, inr (seen, true))
  /\ In seen (notices w1)
  /\ Forall (fun r => n_id r = n_id self -> n_unseen r = false) (notices w1)
  /\ (forall w', is_unseen seen w' = (w', inr (seen, false)))
  /\ read_for_display (S k) self w = (w1, inr (seen, true :: repeat false k)).
Proof.
  intros H seen w1.
  assert (E : is_unseen self w = (w1, inr (seen, true))).
  { unfold is_unseen. now rewrite H. }
  destruct (save_row_spec n_id seen (notices w)) as [Hin Hall].
  split; [|split; [|split; [|split]]].
  - exact E.
  - exact Hin.
  - eapply List.Forall_impl; [|exact Hall]. simpl. intros r Hr Hid.
    now rewrite (Hr Hid).
  - intros w'. now apply is_unseen_seen.
  - simpl. unfold bind. rewrite E.
    now rewrite read_for_display_seen.
Qed.

(** Three reads of a fresh notice: [True], [False], [False]. *)
Lemma is_unseen_one_shot_witness :
  n_unseen Example.notice1 = true
  /\ read_for_display 3 Example.notice1 Example.world
     = (set_notices [set_unseen false Example.notice1] Example.world,
        inr (set_unseen false Example.notice1, [true; false; false])).
Proof.
  split; [reflexivity|].
  exact (proj2 (proj2 (proj2 (proj2
           (is_unseen_one_shot Example.notice1 Example.world 2 eq_refl))))).
Defined.

(** Claim C3. For a user, notice type and medium with no stored setting,
    the medium being email (sensitivity 2) or facebook (sensitivity 3),
    [get_notification_setting] stores exactly one setting, whose [send] is
    [sensitivity <= notice_type.default], and returns it; called again it
    returns the same setting and stores nothing more. *)
Theorem get_notification_setting_default (user : User) (notice_type : NoticeType)
    (medium : string) (sensitivity : Z) (w : World) :
  (medium = "1" /\ sensitivity = 2 \/ medium = "2" /\ sensitivity = 3) ->
  List.filter (setting_filter user notice_type medium) (notice_settings w) = [] ->
  exists (setting : NoticeSetting) (w1 : World),
    get_notification_setting user notice_type medium w = (w1, inr setting)
    /\ ns_send setting = (sensitivity <=? nt_default notice_type)
    /\ notice_settings w1 = (notice_settings w ++ [setting])%list
    /\ List.filter (setting_filter user notice_type medium) (notice_settings w1) = [setting]
    /\ get_notification_setting user notice_type medium w1 = (w1, inr setting).
Proof.
  intros Hm Hnone.
  assert (Hs : NOTICE_MEDIA_DEFAULTS !! medium = Some sensitivity).
  { destruct Hm as [[-> ->]|[-> ->]]; reflexivity. }
  eexists. eexists.
  assert (E : forall s, setting_filter user notice_type medium
     {| ns_id := s; ns_user := u_id user; ns_notice_type := nt_id notice_type;
        ns_medium := medium; ns_send := sensitivity <=? nt_default notice_type |} = true).
  { intros s. unfold setting_filter. simpl. now rewrite !bool_decide_eq_true_2. }
  split; [|split; [|split; [|split]]].
  - unfold get_notification_setting, try_except, NoticeSetting_objects_get, bind,
      get_world, lift. rewrite (objects_get_none _ _ _ Hnone). rewrite Hs.
    reflexivity.
  - reflexivity.
  - reflexivity.
  - simpl. rewrite List.filter_app, Hnone. simpl. now rewrite E.
  - unfold get_notification_setting, try_except, NoticeSetting_objects_get, bind,
      get_world, lift. simpl.
    erewrite objects_get_one; [reflexivity|].
    rewrite List.filter_app, Hnone. simpl. now rewrite E.
Qed.

(** Alice, the welcome notice and email: the setting is created on. *)
Lemma get_notification_setting_default_witness :
  exists setting w1,
    get_notification_setting Example.alice Example.welcome "1" Example.world
    = (w1, inr setting)
    /\ ns_send setting = true
    /\ notice_settings w1 = [setting].
Proof.
  destruct (get_notification_setting_default Example.alice Example.welcome "1" 2
              Example.world (or_introl (conj eq_refl eq_refl)) eq_refl)
    as (setting & w1 & H1 & H2 & H3 & _).
  exists setting, w1. repeat split; assumption.
Defined.

(** ** [create_notice_type] *)

Lemma map_replace_absent {A} (pk : A -> Z) (row : A) (rows : list A) :
  ~ In (pk row) (map pk rows) ->
  map (fun r => if bool_decide (pk r = pk row) then row else r) rows = rows.
Proof.
  induction rows as [|r rows IH]; simpl; [reflexivity|]. intros H.
  case_bool_decide as E; [exfalso; apply H; now left|].
  f_equal. apply IH. tauto.
Qed.

Lemma filter_replace_one {A} (pk : A -> Z) (p : A -> bool) (old new : A) (rows : list A) :
  List.NoDup (map pk rows) ->
  List.filter p rows = [old] ->
  pk new = pk old -> p new = true ->
  save_row pk new rows
  = map (fun r => if bool_decide (pk r = pk new) then new else r) rows
  /\ List.filter p (save_row pk new rows) = [new].
Proof.
  intros Hnd Hf Hpk Hp.
  assert (Hin : In old rows).
  { eapply (proj1 (filter_In p old rows)). rewrite Hf. now left. }
  assert (Hex : existsb (fun r => bool_decide (pk r = pk new)) rows = true).
  { apply existsb_exists. exists old. split; [assumption|].
    now apply bool_decide_eq_true. }
  unfold save_row. rewrite Hex. split; [reflexivity|].
  clear Hex. induction rows as [|r rows IH]; [contradiction|].
  simpl in *. apply List.NoDup_cons_iff in Hnd as [Hnotin Hnd].
  case_bool_decide as E.
  - assert (r = old) as ->.
    { destruct Hin as [|Hin]; [assumption|]. exfalso. apply Hnotin.
      rewrite E, Hpk. now apply in_map. }
    rewrite Hp. f_equal.
    rewrite <- Hpk in Hnotin. rewrite (map_replace_absent pk new rows Hnotin).
    destruct (p old); [now inversion Hf|].
    exfalso. apply Hnotin. rewrite Hpk. apply in_map.
    eapply (proj1 (filter_In p old rows)). rewrite Hf. now left.
  - destruct Hin as [->|Hin]; [congruence|].
    destruct (p r) eqn:Hr.
    + exfalso. inversion Hf; subst. congruence.
    + now apply IH.
Qed.

(** Claim C9, amended. When primary keys are unique and at most one notice
    type has the label, [create_notice_type] returns nothing and leaves
    exactly one notice type of that label, with the given display,
    description and default; a second call with the same arguments changes
    nothing. What it reports is a printed line, and only under a verbosity
    above 1: "Created" for a new notice type, "Updated" for one it changed,
    nothing for one that already had the values. *)
Theorem create_notice_type_upsert (label display description : string)
    (default verbosity : Z) (w : World) :
  List.NoDup (map nt_id (notice_types w)) ->
  (length (List.filter (fun t => bool_decide (nt_label t = label)) (notice_types w)) <= 1)%nat ->
  exists (t : NoticeType) (w1 : World),
    create_notice_type label display description default verbosity w = (w1, inr tt)
    /\ List.filter (fun t => bool_decide (nt_label t = label)) (notice_types w1) = [t]
    /\ nt_label t = label /\ nt_display t = display
    /\ nt_description t = description /\ nt_default t = default
    /\ create_notice_type label display description default verbosity w1 = (w1, inr tt)
    /\ trace w1
       = (trace w ++
          if 1 <? verbosity
          then match List.filter (fun t => bool_decide (nt_label t = label)) (notice_types w) with
               | [] => [Print ("Created " ++ label ++ " NoticeType")]
               | t0 :: _ =>
                   if has_fields display description default t0
                   then []
                   else [Print ("Updated " ++ label ++ " NoticeType")]
               end
          else [])%list.
Proof.
  intros Hnd Hlen.
  set (new id := {| nt_id := id; nt_label := label; nt_display := display;
                    nt_description := description; nt_default := default |}).
  assert (Hsecond : forall w1 id,
             List.filter (fun t => bool_decide (nt_label t = label)) (notice_types w1)
             = [new id] ->
             create_notice_type label display description default verbosity w1
             = (w1, inr tt)).
  { intros w1 id H.
    unfold create_notice_type, try_except, NoticeType_objects_get_label, bind,
      get_world, lift.
    rewrite (objects_get_one _ _ _ _ H). simpl.
    rewrite !bool_decide_eq_false_2 by (intros E; now apply E). reflexivity. }
  destruct (List.filter _ (notice_types w)) as [|t0 [|t1 l]] eqn:Hf;
    [| |simpl in Hlen; lia].
  - (* no NoticeType has the label: one is created *)
    exists (new (next_pk (map nt_id (notice_types w)))).
    destruct (1 <? verbosity) eqn:Hv; eexists;
      (split; [|split; [|split; [|split; [|split; [|split; [|split]]]]]]);
      try reflexivity.
    all: try (unfold create_notice_type, try_except, NoticeType_objects_get_label,
                bind, get_world, lift; rewrite (objects_get_none _ _ _ Hf);
              unfold print_if; rewrite Hv; reflexivity).
    all: try (eapply Hsecond).
    all: try (simpl; rewrite List.filter_app, Hf; simpl;
              now rewrite bool_decide_eq_true_2).
    all: simpl; try reflexivity; now rewrite app_nil_r.
  - (* one NoticeType has the label: it is brought up to date *)
    assert (Hl0 : nt_label t0 = label).
    { assert (Hin : In t0 (List.filter (fun t => bool_decide (nt_label t = label))
                             (notice_types w))) by (rewrite Hf; now left).
      apply filter_In in Hin as [_ Hin]. now apply bool_decide_eq_true in Hin. }
    exists (new (nt_id t0)).
    destruct (has_fields display description default t0) eqn:Hhas.
    + (* nothing to change *)
      unfold has_fields in Hhas.
      apply andb_true_iff in Hhas as [Hhas H3]. apply andb_true_iff in Hhas as [H1 H2].
      apply bool_decide_eq_true in H1, H2, H3.
      assert (Ht0 : t0 = new (nt_id t0)).
      { destruct t0; simpl in *; subst; reflexivity. }
      exists w. rewrite <- Ht0.
      assert (E : create_notice_type label display description default verbosity w
                  = (w, inr tt)).
      { eapply Hsecond. rewrite Hf. now rewrite Ht0 at 1. }
      repeat split; try assumption.
      destruct (1 <? verbosity); now rewrite app_nil_r.
    + (* at least one field differs *)
      destruct (filter_replace_one nt_id (fun t => bool_decide (nt_label t = label))
                  t0 (new (nt_id t0)) (notice_types w) Hnd Hf eq_refl)
        as [Hsave Hfilter].
      { simpl. now apply bool_decide_eq_true. }
      assert (E : create_notice_type label display description default verbosity w
                  = (print_if (1 <? verbosity) ("Updated " ++ label ++ " NoticeType")
                       (set_notice_types
                          (save_row nt_id (new (nt_id t0)) (notice_types w)) w))).
      { unfold create_notice_type, try_except, NoticeType_objects_get_label, bind,
          get_world, lift. rewrite (objects_get_one _ _ _ _ Hf).
        unfold has_fields in Hhas. rewrite <- Hl0. unfold new.
        destruct t0 as [i l d1 d2 d3]; simpl in *.
        unfold NoticeType_save, print_if, emit, modify.
        destruct (1 <? verbosity);
          repeat case_bool_decide; subst; simpl in *;
          try discriminate; try congruence; reflexivity. }
      rewrite E. unfold print_if.
      destruct (1 <? verbosity) eqn:Hv; eexists;
        (split; [|split; [|split; [|split; [|split; [|split; [|split]]]]]]);
        try reflexivity.
      all: try exact Hfilter.
      all: try (eapply Hsecond; exact Hfilter).
      all: simpl; try reflexivity; now rewrite app_nil_r.
Qed.

Lemma extends_refl {A} (l : list A) : extends l l.
Proof. exists []. now rewrite app_nil_r. Qed.

Lemma extends_app {A} (l k : list A) : extends l (l ++ k).
Proof. now exists k. Qed.

Lemma extends_trans {A} (l1 l2 l3 : list A) :
  extends l1 l2 -> extends l2 l3 -> extends l1 l3.
Proof. intros [k1 ->] [k2 ->]. exists (k1 ++ k2)%list. now rewrite app_assoc. Qed.

Lemma map_n_id_blank ns : map n_id (map blank ns) = map n_id ns.
Proof. rewrite map_map. reflexivity. Qed.

(** ** One turn of the loop of [send_now] *)

Section body.
Context (settings : Settings) (ext : Collaborators).

Lemma facebook_block_run (b : bool) user extra_context subject notices_url w :
  exists w',
    (if b
     then (let* ec := read_dict extra_context in
           write_dict extra_context
             (guess_facebook_attrs settings subject notices_url ec) ;;
           send_to_facebook settings user extra_context)
     else ret tt) w = (w', inr tt)
    /\ db_of w' = db_of w
    /\ heap_kept settings extra_context w w'
    /\ (b = true -> (extra_context < length (heap w))%nat ->
        guessed settings (dict_at extra_context w')).
Proof.
  destruct b.
  2:{ exists w. split_and!; try reflexivity; [apply heap_kept_refl | discriminate]. }
  erewrite bind_run by reflexivity.
  erewrite bind_run by reflexivity.
  set (d := guess_facebook_attrs _ _ _ _).
  set (w1 := set_heap (<[extra_context := d]> (heap w)) w).
  assert (K1 : heap_kept settings extra_context w w1).
  { apply heap_kept_write_any. apply dict_kept_guess. }
  destruct (send_to_facebook_run settings user extra_context w1) as (w' & Hrun & Hdb).
  pose proof (send_to_facebook_heap settings user extra_context w1) as K2.
  rewrite Hrun in K2. simpl in K2.
  exists w'. split_and!.
  - exact Hrun.
  - exact Hdb.
  - eapply heap_kept_trans; eassumption.
  - intros _ Hl. destruct K2 as [_ K2]. eapply guessed_kept; [exact K2|].
    unfold w1. rewrite dict_at_write by assumption. apply guessed_guess.
Qed.

Lemma has_html_spec on_site formats (m : gmap string string) :
  (forall k, m !! k = None <-> (∅ : gmap string string) !! k = None /\ ~ In k formats) ->
  has_html settings on_site formats
  = LAZY_RENDERING settings && on_site || bool_decide (is_Some (m !! "notice.html")).
Proof.
  intros Hdom. unfold has_html. f_equal.
  destruct (existsb _ formats) eqn:E.
  - apply existsb_exists in E as (k & Hin & Hk). apply String.eqb_eq in Hk. subst k.
    symmetry. apply bool_decide_eq_true.
    destruct (m !! "notice.html") eqn:E'; [eauto|].
    apply Hdom in E'. tauto.
  - symmetry. apply bool_decide_eq_false. intros [x Hx].
    assert (m !! "notice.html" = None); [|congruence].
    apply Hdom. split; [apply lookup_empty|]. intros Hin.
    assert (existsb (String.eqb "notice.html") formats = true); [|congruence].
    apply existsb_exists. exists "notice.html". split; [assumption|].
    apply String.eqb_refl.
Qed.

(** One turn of the loop: what it leaves alone, the language it leaves, the
    dict of [extra_context], and the tables it leaves after [turn]. *)
Lemma send_now_user_run (label : string) (extra_context : nat) (on_site : bool)
    (context : option ActivityContext) (notice_type : NoticeType)
    (notices_url : string) (formats : list string) (user : User) (w : World) :
  In "short.txt" formats -> In "full.txt" formats ->
  exists w' r,
    send_now_user settings ext label extra_context on_site context
      notice_type notices_url formats user w = (w', r)
    /\ users w' = users w
    /\ language_store w' = language_store w
    /\ notice_types w' = notice_types w
    /\ activity_contexts w' = activity_contexts w
    /\ queue_batches w' = queue_batches w
    /\ observed_items w' = observed_items w
    /\ now w' = now w
    /\ extends (notices w) (notices w')
    /\ language w'
       = match lang_lookup (language_store w) user with
         | inr (Some l) => l
         | _ => language w
         end
    /\ heap_kept settings extra_context w w'
    /\ (is_ok r = true -> PROFILES_ACTIVATED settings = true ->
        social_on user notice_type (notice_settings w) = true ->
        (extra_context < length (heap w))%nat ->
        guessed settings (dict_at extra_context w'))
    /\ (notice_settings w', map blank (notices w'), is_ok r)
       = turn (has_html settings on_site formats) user notice_type on_site context
           (language_store w) (now w) (notice_settings w) (map blank (notices w)).
Proof.
  intros Hshort Hfull.
  unfold send_now_user, turn, social_on.
  pose proof (get_notification_language_run user w) as Hl.
  destruct (lang_lookup (language_store w) user) as [e|lang] eqn:El.
  { rewrite (bind_fail _ _ _ _ _ Hl). exists w, (inl e).
    split_and!;
      first [reflexivity | discriminate | apply extends_refl | apply heap_kept_refl]. }
  rewrite (bind_run _ _ _ _ _ Hl). clear Hl.
  set (wl := match lang with Some l => set_language l w | None => w end).
  assert (Hact : (match lang with Some l => activate l | None => ret tt end) w
                 = (wl, inr tt)) by (now destruct lang).
  rewrite (bind_run _ _ _ _ _ Hact). clear Hact.
  assert (Hwl : db_of wl = (users w, language_store w, notice_types w,
                            notice_settings w, notices w, activity_contexts w,
                            queue_batches w, observed_items w,
                            match lang with Some l => l | None => language w end,
                            now w)) by (now destruct lang).
  assert (Hheap : heap wl = heap w) by (now destruct lang).
  clearbody wl.
  unfold db_of in Hwl. injection Hwl as H1 H2 H3 H4 H5 H6 H7 H8 H9 H10.
  rewrite <- H1, <- H2, <- H3, <- H4, <- H5, <- H6, <- H7, <- H8, <- H10.
  replace (match lang with Some l => l | None => language w end) with (language wl).
  replace (length (heap w)) with (length (heap wl)) by (now rewrite Hheap).
  assert (Hkept : forall w', heap w' = heap wl -> heap_kept settings extra_context w w').
  { intros w' Hw'. apply heap_kept_same. congruence. }
  assert (Hkept' : forall w', heap_kept settings extra_context wl w' ->
                              heap_kept settings extra_context w w').
  { intros w' Hw'. eapply heap_kept_trans; [|exact Hw']. now apply heap_kept_same. }
  clear H1 H2 H3 H4 H5 H6 H7 H8 H9 H10 Hheap El.
  erewrite bind_run by reflexivity.
  erewrite bind_run by reflexivity.
  unfold get_formatted_messages.
  edestruct (get_formatted_messages_from_run ext formats ∅ label) as (m & c' & Hm & _ & Hdom).
  erewrite bind_run by exact Hm. clear Hm.
  rewrite (has_html_spec on_site formats m Hdom).
  destruct (m !! "short.txt") as [short|] eqn:Es;
    [|exfalso; apply Hdom in Es; tauto].
  destruct (m !! "full.txt") as [full|] eqn:Ef;
    [|exfalso; apply Hdom in Ef; tauto].
  erewrite bind_run by (unfold getitem; rewrite Es; reflexivity).
  erewrite bind_run by reflexivity.
  erewrite bind_run by (unfold getitem; rewrite Ef; reflexivity).
  erewrite bind_run by reflexivity.
  (* the notice *)
  set (create msg := Notice_objects_create user msg notice_type on_site context).
  set (notice msg :=
         {| n_id := next_pk (map n_id (notices wl));
            n_user := u_id user; n_message := msg;
            n_notice_type := nt_id notice_type; n_added := now wl;
            n_unseen := true; n_archived := false; n_on_site := on_site;
            n_context := option_map ac_id context |}).
  assert (Hcreate : forall msg,
             create msg wl
             = (set_notices (notices wl ++ [notice msg]) wl, inr (notice msg)))
    by reflexivity.
  assert (Hnotice :
            (exists msg,
                (if LAZY_RENDERING settings && on_site
                 then (let* d := builtin_context settings ext user notice_type notices_url in
                       let* ec := read_dict extra_context in
                       create (pickle_context ext (Context_update d ec)))
                 else (let* html := getitem m "notice.html" in create html)) wl
                = create msg wl
                /\ LAZY_RENDERING settings && on_site
                   || bool_decide (is_Some (m !! "notice.html")) = true)
            \/ (if LAZY_RENDERING settings && on_site
                then (let* d := builtin_context settings ext user notice_type notices_url in
                      let* ec := read_dict extra_context in
                      create (pickle_context ext (Context_update d ec)))
                else (let* html := getitem m "notice.html" in create html)) wl
               = (wl, inl (KeyError "notice.html"))
               /\ LAZY_RENDERING settings && on_site
                  || bool_decide (is_Some (m !! "notice.html")) = false).
  { destruct (LAZY_RENDERING settings && on_site).
    - left. eexists. split; [|reflexivity].
      erewrite bind_run by reflexivity. erewrite bind_run by reflexivity.
      reflexivity.
    - unfold getitem. destruct (m !! "notice.html") as [html|] eqn:Eh.
      + left. exists html. split; [reflexivity|].
        simpl. first [reflexivity | apply bool_decide_eq_true; eauto].
      + right. split; [reflexivity|].
        simpl. first [reflexivity
                     | apply bool_decide_eq_false; intros [x Hx]; discriminate]. }
  fold create.
  destruct Hnotice as [(msg & Hn & ->)|[Hn ->]].
  2:{ rewrite (bind_fail _ _ _ _ _ Hn). exists wl, (inl (KeyError "notice.html")).
      split_and!;
        first [reflexivity | discriminate | apply extends_refl | now apply Hkept]. }
  rewrite Hcreate in Hn. rewrite (bind_run _ _ _ _ _ Hn). clear Hn Hcreate.
  assert (Hblank : forall msg',
             map blank (notices wl ++ [notice msg'])
             = (map blank (notices wl) ++
                [new_notice user notice_type on_site context (now wl)
                   (map blank (notices wl))])%list).
  { intros msg'. rewrite map_app. unfold new_notice. now rewrite map_n_id_blank. }
  unfold bind at 1. rewrite should_send_run. simpl notice_settings.
  destruct (resolve user notice_type "1" (notice_settings wl)) as [e1|[s1 rows1]].
  { eexists. eexists. split; [reflexivity|]. simpl. rewrite Hblank.
    split_and!;
      first [reflexivity | discriminate | apply extends_app | now apply Hkept]. }
  unfold bind at 1. rewrite should_send_run. simpl notice_settings.
  destruct (resolve user notice_type "2" rows1) as [e2|[s2 rows2]].
  { eexists. eexists. split; [reflexivity|]. simpl. rewrite Hblank.
    split_and!;
      first [reflexivity | discriminate | apply extends_app | now apply Hkept]. }
  match goal with
  | |- context [bind (if ?b then _ else _) _ ?w0] =>
      edestruct (facebook_block_run b user extra_context) as (wf & Hf & Hdb & Kf & Gf);
      rewrite (bind_run _ _ w0 _ _ Hf)
  end.
  unfold send_mail, emit, modify.
  eexists. eexists. split; [reflexivity|].
  unfold db_of in Hdb. simpl in Hdb.
  injection Hdb as G1 G2 G3 G4 G5 G6 G7 G8 G9 G10.
  simpl. rewrite G5, Hblank.
  split_and!;
    first [ congruence
          | apply extends_app
          | apply heap_kept_trans with wf; [|now apply heap_kept_same];
            apply Hkept'; exact Kf
          | intros _ Hp Hs Hlen; unfold dict_at; simpl; apply Gf; [|exact Hlen];
            now rewrite Hs, Hp ].
Qed.
End body.

Lemma filter_one_In {A} (p : A -> bool) rows x :
  List.filter p rows = [x] -> p x = true.
Proof.
  intros H. assert (Hin : In x (List.filter p rows)) by (rewrite H; now left).
  now apply filter_In in Hin.
Qed.

Lemma objects_get_sat {A} (m : Model) (p : A -> bool) rows x :
  objects_get m p rows = inr x -> List.filter p rows = [x].
Proof.
  unfold objects_get. destruct (List.filter p rows) as [|y [|z l]]; intros H;
    inversion H; reflexivity.
Qed.

Lemma get_or_create_stable ct oid acs a acs' :
  get_or_create ct oid acs = inr (a, acs') ->
  get_or_create ct oid acs' = inr (a, acs').
Proof.
  unfold get_or_create.
  destruct (objects_get _ _ acs) as [e|c] eqn:E.
  - destruct e as [[]| | | | |]; try discriminate.
    intros H. inversion H; subst. clear H.
    assert (Hf : List.filter (fun c => bool_decide (ac_content_type c = ct)
                                       && bool_decide (ac_object_id c = oid)) acs = []).
    { unfold objects_get in E. destruct (List.filter _ acs) as [|y [|z l]];
        [reflexivity|discriminate|discriminate]. }
    erewrite objects_get_one; [reflexivity|].
    rewrite List.filter_app, Hf. simpl. now rewrite !bool_decide_eq_true_2.
  - intros H. inversion H; subst. now rewrite E.
Qed.

Lemma prelude_stable context label acs nts a nt acs' :
  prelude context label acs nts = inr (a, nt, acs') ->
  prelude context label acs' nts = inr (a, nt, acs').
Proof.
  unfold prelude. destruct context as [c|].
  - destruct (get_or_create _ _ acs) as [e|[a0 acs0]] eqn:E; [discriminate|].
    destruct (objects_get _ _ nts) as [e|nt0]; [discriminate|].
    intros H. inversion H; subst.
    now rewrite (get_or_create_stable _ _ _ _ _ E).
  - destruct (objects_get _ _ nts) as [e|nt0]; [discriminate|].
    intros H. inversion H; subst. reflexivity.
Qed.

(** ** The loop, and [send_now] as a whole *)

Lemma resolve_cases user nt medium rows :
  (exists s, List.filter (setting_filter user nt medium) rows = [s]
             /\ resolve user nt medium rows = inr (s, rows))
  \/ (List.filter (setting_filter user nt medium) rows = []
      /\ resolve user nt medium rows
         = match NOTICE_MEDIA_DEFAULTS !! medium with
           | Some sensitivity =>
               let s := {| ns_id := next_pk (map ns_id rows);
                           ns_user := u_id user;
                           ns_notice_type := nt_id nt;
                           ns_medium := medium;
                           ns_send := sensitivity <=? nt_default nt |} in
               inr (s, (rows ++ [s])%list)
           | None => inl (KeyError medium)
           end)
  \/ (exists x y l, List.filter (setting_filter user nt medium) rows = x :: y :: l
                    /\ resolve user nt medium rows
                       = inl (MultipleObjectsReturned MNoticeSetting)).
Proof.
  unfold resolve, objects_get.
  destruct (List.filter _ rows) as [|x [|y l]]; eauto 10.
Qed.

Lemma would_send_resolve user nt medium user' medium' rows s' rows' :
  would_send user nt medium rows = true ->
  resolve user' nt medium' rows = inr (s', rows') ->
  would_send user nt medium rows' = true.
Proof.
  intros Hw Hr.
  destruct (resolve_cases user' nt medium' rows) as [(s & Hf & E)|[[Hf E]|(x & y & l & Hf & E)]];
    rewrite E in Hr; [congruence| |discriminate].
  destruct (NOTICE_MEDIA_DEFAULTS !! medium') as [sens'|] eqn:Em'; [|discriminate].
  simpl in Hr. injection Hr as <- <-.
  set (s' := {| ns_id := _; ns_user := _; ns_notice_type := _; ns_medium := _;
                ns_send := _ |}).
  unfold would_send in *.
  destruct (setting_filter user nt medium s') eqn:Hmatch.
  - (* the new row is one of this user: it holds the default *)
    unfold setting_filter in Hmatch. simpl in Hmatch.
    apply andb_true_iff in Hmatch as [Hmatch M3].
    apply andb_true_iff in Hmatch as [M1 M2].
    apply bool_decide_eq_true in M1, M3. subst medium'.
    assert (Hsame : List.filter (setting_filter user nt medium) rows = []).
    { rewrite <- Hf. apply filter_ext. intros r. unfold setting_filter. now rewrite M1. }
    destruct (resolve_cases user nt medium rows) as [(s & Hf1 & E1)|[[Hf1 E1]|(x & y & l & Hf1 & E1)]];
      [congruence| |congruence].
    rewrite E1, Em' in Hw. simpl in Hw.
    destruct (resolve_cases user nt medium (rows ++ [s'])) as [(s & Hf2 & E2)|[[Hf2 E2]|(x & y & l & Hf2 & E2)]];
      rewrite List.filter_app, Hsame in Hf2; simpl in Hf2;
      unfold setting_filter in Hf2; simpl in Hf2;
      rewrite M1 in Hf2; rewrite !bool_decide_eq_true_2 in Hf2 by reflexivity;
      simpl in Hf2; try discriminate.
    rewrite E2. injection Hf2 as <-. exact Hw.
  - (* the new row is of another triple *)
    unfold resolve in *. unfold objects_get in *.
    rewrite List.filter_app. simpl. rewrite Hmatch. rewrite app_nil_r.
    destruct (List.filter (setting_filter user nt medium) rows) as [|x [|y l]];
      [|exact Hw|discriminate].
    destruct (NOTICE_MEDIA_DEFAULTS !! medium); [exact Hw|discriminate].
Qed.

Lemma turn_ok_inv html user nt on_site c store added rows ns rows' ns' :
  turn html user nt on_site c store added rows ns = (rows', ns', true) ->
  exists s1 rows1 s2,
    resolve user nt "1" rows = inr (s1, rows1)
    /\ resolve user nt "2" rows1 = inr (s2, rows').
Proof.
  unfold turn. destruct (lang_lookup store user); [discriminate|].
  destruct html; [|discriminate].
  destruct (resolve user nt "1" rows) as [|[s1 rows1]]; [discriminate|].
  destruct (resolve user nt "2" rows1) as [|[s2 rows2]] eqn:E; [discriminate|].
  intros H. injection H as <- _. eauto.
Qed.

Section loop.
Context (settings : Settings) (ext : Collaborators).

Lemma for_each_send_now_user_run (label : string) (extra_context : nat)
    (on_site : bool) (context : option ActivityContext) (notice_type : NoticeType)
    (notices_url : string) (formats : list string) (users0 : list User) :
  In "short.txt" formats -> In "full.txt" formats ->
  forall w : World,
  exists w' r,
    for_each users0
      (send_now_user settings ext label extra_context on_site context
         notice_type notices_url formats) w = (w', r)
    /\ users w' = users w
    /\ language_store w' = language_store w
    /\ notice_types w' = notice_types w
    /\ activity_contexts w' = activity_contexts w
    /\ queue_batches w' = queue_batches w
    /\ observed_items w' = observed_items w
    /\ now w' = now w
    /\ extends (notices w) (notices w')
    /\ heap_kept settings extra_context w w'
    /\ (is_ok r = true -> PROFILES_ACTIVATED settings = true ->
        (extra_context < length (heap w))%nat ->
        guessed settings (dict_at extra_context w)
        \/ Exists (fun u => would_send u notice_type "2" (notice_settings w) = true)
             users0 ->
        guessed settings (dict_at extra_context w'))
    /\ (notice_settings w', map blank (notices w'), is_ok r)
       = turns (has_html settings on_site formats) users0 notice_type on_site
           context (language_store w) (now w) (notice_settings w)
           (map blank (notices w)).
Proof.
  intros Hshort Hfull. induction users0 as [|user users0 IH]; intros w.
  - exists w, (inr tt).
    split_and!; try first [reflexivity | apply extends_refl | apply heap_kept_refl].
    intros _ _ _ [H|H]; [exact H | inversion H].
  - destruct (send_now_user_run settings ext label extra_context on_site context
                notice_type notices_url formats user w Hshort Hfull)
      as (w1 & r1 & Hrun & U & L & T & A & Q & O & N & X & _ & K & G & Hturn).
    simpl. rewrite <- Hturn.
    destruct r1 as [e|[]]; simpl.
    + rewrite (bind_fail _ _ _ _ _ Hrun). exists w1, (inl e).
      split_and!; first [assumption | reflexivity | discriminate].
    + rewrite (bind_run _ _ _ _ _ Hrun).
      destruct (IH w1) as (w' & r & Hrun' & U' & L' & T' & A' & Q' & O' & N' & X'
                           & K' & G' & Hturns).
      exists w', r. rewrite L, N in Hturns.
      split_and!; try congruence.
      * eapply extends_trans; eassumption.
      * eapply heap_kept_trans; eassumption.
      * intros Hok Hp Hlen Hsome. apply G'; try assumption.
        { destruct K as [-> _]. exact Hlen. }
        symmetry in Hturn. simpl in Hturn.
        destruct (turn_ok_inv _ _ _ _ _ _ _ _ _ _ _ Hturn) as (s1 & rows1 & s2 & R1 & R2).
        destruct Hsome as [Hg|Hex].
        { left. destruct K as [_ K]. eapply guessed_kept; eassumption. }
        apply Exists_cons in Hex as [Hu|Hex].
        { left. apply G; try assumption; try reflexivity.
          unfold social_on. rewrite R1, R2.
          pose proof (would_send_resolve _ _ _ _ _ _ _ _ Hu R1) as Hw1.
          unfold would_send in Hw1. now rewrite R2 in Hw1. }
        right. eapply Exists_impl; [exact Hex|]. simpl. intros u Hu.
        eapply would_send_resolve; [|exact R2].
        eapply would_send_resolve; [exact Hu|exact R1].
Qed.
End loop.

Lemma get_or_create_run (ct : string) (oid : Z) (w : World) :
  ActivityContext_objects_get_or_create ct oid w
  = match get_or_create ct oid (activity_contexts w) with
    | inl e => (w, inl e)
    | inr (a, acs') => (set_activity_contexts acs' w, inr a)
    end.
Proof.
  unfold ActivityContext_objects_get_or_create, try_except, bind, get_world, lift,
    get_or_create, modify, ret.
  destruct (objects_get _ _ _) as [e|a] eqn:E.
  - destruct (objects_get_model _ _ _ _ E) as [-> | ->]; reflexivity.
  - now destruct w.
Qed.

Lemma formats_of_short settings on_site : In "short.txt" (notice_formats settings on_site).
Proof. unfold notice_formats. destruct (_ && _); simpl; auto. Qed.

Lemma formats_of_full settings on_site : In "full.txt" (notice_formats settings on_site).
Proof. unfold notice_formats. destruct (_ && _); simpl; auto. Qed.

Section send_now.
Context (settings : Settings) (ext : Collaborators).

Lemma html_of_on_site (on_site : bool) : html_of settings on_site = on_site.
Proof.
  unfold html_of, has_html, notice_formats.
  destruct (LAZY_RENDERING settings), on_site; reflexivity.
Qed.

Lemma send_now_run (users0 : list User) (label : string)
    (extra_context : option nat) (on_site : bool) (context : option Entity)
    (w : World) :
  match prelude context label (activity_contexts w) (notice_types w) with
  | inl e =>
      exists w',
        send_now settings ext users0 label extra_context on_site context w
        = (w', inl e)
        /\ users w' = users w
        /\ language_store w' = language_store w
        /\ notice_types w' = notice_types w
        /\ notice_settings w' = notice_settings w
        /\ notices w' = notices w
        /\ queue_batches w' = queue_batches w
        /\ observed_items w' = observed_items w
        /\ language w' = language w
        /\ now w' = now w
  | inr (c, nt, acs') =>
      exists w' r,
        send_now settings ext users0 label extra_context on_site context w
        = (w', r)
        /\ users w' = users w
        /\ language_store w' = language_store w
        /\ notice_types w' = notice_types w
        /\ activity_contexts w' = acs'
        /\ queue_batches w' = queue_batches w
        /\ observed_items w' = observed_items w
        /\ now w' = now w
        /\ extends (notices w) (notices w')
        /\ (is_ok r = true -> language w' = language w)
        /\ (forall l, extra_context = Some l ->
            heap_kept settings l w w'
            /\ (is_ok r = true -> PROFILES_ACTIVATED settings = true ->
                (l < length (heap w))%nat ->
                Exists (fun u => would_send u nt "2" (notice_settings w) = true)
                  users0 ->
                guessed settings (dict_at l w')))
        /\ (notice_settings w', map blank (notices w'), is_ok r)
           = turns (html_of settings on_site) users0 nt on_site c (language_store w)
               (now w) (notice_settings w) (map blank (notices w))
  end.
Proof.
  unfold send_now.
  set (alloc := match extra_context with None => new_dict ∅ | Some l => ret l end).
  assert (Halloc : exists wa l, alloc w = (wa, inr l)
                                /\ db_of wa = db_of w
                                /\ (forall l0, extra_context = Some l0 ->
                                    l = l0 /\ heap wa = heap w)).
  { destruct extra_context; eexists; eexists; (split; [reflexivity|]);
      (split; [reflexivity|]); intros l0 H0; now inversion H0. }
  destruct Halloc as (wa & l & Ha & Hdb & Hsame).
  rewrite (bind_run _ _ _ _ _ Ha). clear Ha alloc.
  unfold db_of in Hdb. injection Hdb as H1 H2 H3 H4 H5 H6 H7 H8 H9 H10.
  rewrite <- H3, <- H6.
  unfold prelude.
  set (getctx := match context with
                 | Some c =>
                     let* a := ActivityContext_objects_get_or_create
                                 (e_content_type c) (e_pk c) in
                     ret (Some a)
                 | None => ret None
                 end).
  assert (Hctx :
            getctx wa
            = match match context with
                    | Some c =>
                        match get_or_create (e_content_type c) (e_pk c)
                                (activity_contexts wa) with
                        | inr (a, acs') => inr (Some a, acs')
                        | inl e => inl e
                        end
                    | None => inr (None, activity_contexts wa)
                    end with
              | inl e => (wa, inl e)
              | inr (a, acs') => (set_activity_contexts acs' wa, inr a)
              end).
  { subst getctx. destruct context as [c|].
    - unfold bind. rewrite get_or_create_run.
      now destruct (get_or_create _ _ _) as [e|[a acs']].
    - now destruct wa. }
  destruct (match context with Some c => _ | None => _ end) as [e|[a acs']].
  { rewrite (bind_fail _ _ _ _ _ Hctx). exists wa. repeat split; congruence. }
  rewrite (bind_run _ _ _ _ _ Hctx). clear Hctx getctx.
  assert (Hnt : NoticeType_objects_get_label label (set_activity_contexts acs' wa)
                = (set_activity_contexts acs' wa,
                   objects_get MNoticeType
                     (fun t => bool_decide (nt_label t = label)) (notice_types wa)))
    by reflexivity.
  destruct (objects_get MNoticeType _ (notice_types wa)) as [e|nt].
  { rewrite (bind_fail _ _ _ _ _ Hnt). eexists. split; [reflexivity|].
    simpl. repeat split; congruence. }
  rewrite (bind_run _ _ _ _ _ Hnt). clear Hnt.
  erewrite bind_run by reflexivity.
  match goal with
  | |- context [for_each users0 ?body] =>
      match body with
      | send_now_user _ _ ?lb ?ec ?os ?cx ?nt0 ?url ?fm =>
          destruct (for_each_send_now_user_run settings ext lb ec os cx nt0 url fm
                      users0 (formats_of_short _ _) (formats_of_full _ _)
                      (set_activity_contexts acs' wa))
            as (w' & r & Hrun & U & L & T & A & Q & O & N & X & K & G & Hturns)
      end
  end.
  simpl in U, L, T, A, Q, O, N, X, Hturns.
  assert (HK : forall l0, extra_context = Some l0 -> heap_kept settings l0 w w').
  { intros l0 H0. destruct (Hsame l0 H0) as [<- Hh].
    eapply heap_kept_trans; [|exact K]. now apply heap_kept_same. }
  destruct r as [e|[]].
  - rewrite (bind_fail _ _ _ _ _ Hrun). exists w', (inl e).
    split; [reflexivity|]. rewrite Hturns. unfold html_of.
    rewrite H2, H4, H5, H10. rewrite H5 in X.
    simpl. split_and!; try congruence.
    intros l0 H0. split; [now apply HK | discriminate].
  - rewrite (bind_run _ _ _ _ _ Hrun). eexists. eexists.
    split; [reflexivity|]. simpl. simpl in Hturns. rewrite Hturns.
    unfold html_of.
    rewrite H2, H4, H5, H10. rewrite H5 in X.
    split_and!; try congruence.
    intros l0 H0. destruct (Hsame l0 H0) as [<- Hh].
    split.
    + eapply heap_kept_trans; [apply (HK l H0)|]. now apply heap_kept_same.
    + intros _ Hp Hlen Hex. unfold dict_at. simpl. apply G; try assumption.
      * reflexivity.
      * simpl. now rewrite Hh.
      * right. simpl. now rewrite H4.
Qed.
End send_now.

(** ** The queue *)

Lemma turn_ext html u u' nt on_site c store added rows ns :
  u_id u = u_id u' ->
  turn html u nt on_site c store added rows ns
  = turn html u' nt on_site c store added rows ns.
Proof.
  intros H. unfold turn, lang_lookup, resolve, setting_filter, new_notice.
  now rewrite H.
Qed.

Section drain.
Context (settings : Settings) (ext : Collaborators).

Lemma replays_run (label : string) (ec : Dict) (on_site : bool)
    (context : option Entity) (c : option ActivityContext) (nt : NoticeType)
    (acs' : list ActivityContext) (users0 : list User) :
  forall w : World,
    Forall (stored w) users0 ->
    prelude context label (activity_contexts w) (notice_types w) = inr (c, nt, acs') ->
    exists w' r,
      for_each
        (map (fun user =>
                {| qn_user := user; qn_label := label; qn_extra_context := ec;
                   qn_on_site := on_site; qn_context := context |})
           (map u_id users0))
        (replay settings ext) w = (w', r)
      /\ queue_batches w' = queue_batches w
      /\ (notice_settings w', map blank (notices w'), is_ok r)
         = turns (html_of settings on_site) users0 nt on_site c (language_store w)
             (now w) (notice_settings w) (map blank (notices w)).
Proof.
  induction users0 as [|user users0 IH]; intros w Hst Hpre.
  - exists w, (inr tt). repeat split.
  - apply Forall_cons in Hst as [[u' Hu'] Hst].
    simpl map. simpl for_each. unfold replay at 1. simpl.
    assert (Hid : u_id u' = u_id user).
    { apply objects_get_sat, filter_one_In in Hu'. now apply bool_decide_eq_true in Hu'. }
    assert (Hget : User_objects_get_pk (u_id user) w = (w, inr u')).
    { unfold User_objects_get_pk, bind, get_world, lift. now rewrite Hu'. }
    unfold bind at 1. unfold bind at 1. rewrite Hget. unfold bind at 1.
    unfold new_dict at 1.
    pose proof (send_now_run settings ext [u'] label (Some (length (heap w))) on_site
                  context (set_heap (heap w ++ [ec]) w)) as Hrun.
    simpl activity_contexts in Hrun. simpl notice_types in Hrun.
    rewrite Hpre in Hrun.
    destruct Hrun as (w1 & r1 & Hrun & U & L & T & A & Q & O & N & X & _ & _ & Hturns).
    rewrite Hrun. simpl in U, L, T, A, Q, O, N, Hturns.
    rewrite (turn_ext _ u' user) in Hturns by assumption.
    simpl turns.
    destruct (turn (html_of settings on_site) user nt on_site c (language_store w)
                (now w) (notice_settings w) (map blank (notices w)))
      as [[rows1 ns1] ok1] eqn:Eturn.
    destruct ok1.
    + destruct r1 as [e|[]]; [discriminate|].
      injection Hturns as Hs Hn.
      destruct (IH w1) as (w' & r & Hrun' & Q' & Hturns').
      { eapply Forall_impl; [exact Hst|]. intros u [u0 Hu0]. exists u0. now rewrite U. }
      { rewrite A, T. eapply prelude_stable. exact Hpre. }
      exists w', r. split; [exact Hrun'|]. split; [congruence|].
      rewrite Hturns'. now rewrite L, N, Hs, Hn.
    + destruct r1 as [e|[]]; [|discriminate].
      injection Hturns as Hs Hn.
      exists w1, (inl e). split; [reflexivity|]. split; [assumption|].
      simpl. now rewrite Hs, Hn.
Qed.
End drain.

(** The turns of the loop at another time: the same settings, the same
    outcome, and the same notices but for their dates. *)
Lemma turn_undated html user nt on_site c store a1 a2 rows ns1 ns2 :
  map undated ns1 = map undated ns2 ->
  fst (fst (turn html user nt on_site c store a1 rows ns1))
  = fst (fst (turn html user nt on_site c store a2 rows ns2))
  /\ snd (turn html user nt on_site c store a1 rows ns1)
     = snd (turn html user nt on_site c store a2 rows ns2)
  /\ map undated (snd (fst (turn html user nt on_site c store a1 rows ns1)))
     = map undated (snd (fst (turn html user nt on_site c store a2 rows ns2))).
Proof.
  intros H.
  assert (Hid : map n_id ns1 = map n_id ns2).
  { apply (f_equal (map n_id)) in H. rewrite !map_map in H. exact H. }
  assert (Hnew : map undated (ns1 ++ [new_notice user nt on_site c a1 ns1])
                 = map undated (ns2 ++ [new_notice user nt on_site c a2 ns2])).
  { rewrite !map_app, H. unfold new_notice, undated. simpl. now rewrite Hid. }
  unfold turn.
  destruct (lang_lookup store user); [now split_and!|].
  destruct html; [|now split_and!].
  destruct (resolve user nt "1" rows) as [e|[s1 rows1]]; [now split_and!|].
  destruct (resolve user nt "2" rows1) as [e|[s2 rows2]]; now split_and!.
Qed.

Lemma turns_undated html users0 nt on_site c store a1 a2 :
  forall rows ns1 ns2,
    map undated ns1 = map undated ns2 ->
    fst (fst (turns html users0 nt on_site c store a1 rows ns1))
    = fst (fst (turns html users0 nt on_site c store a2 rows ns2))
    /\ snd (turns html users0 nt on_site c store a1 rows ns1)
       = snd (turns html users0 nt on_site c store a2 rows ns2)
    /\ map undated (snd (fst (turns html users0 nt on_site c store a1 rows ns1)))
       = map undated (snd (fst (turns html users0 nt on_site c store a2 rows ns2))).
Proof.
  induction users0 as [|user users0 IH]; intros rows ns1 ns2 H.
  - simpl. now split_and!.
  - simpl.
    destruct (turn_undated html user nt on_site c store a1 a2 rows ns1 ns2 H)
      as (Hr & Hok & Hn).
    destruct (turn html user nt on_site c store a1 rows ns1) as [[r1 n1] ok1].
    destruct (turn html user nt on_site c store a2 rows ns2) as [[r2 n2] ok2].
    simpl in Hr, Hok, Hn. subst r2 ok2.
    destruct ok1; [now apply IH | now split_and!].
Qed.

Section equivalence.
Context (settings : Settings) (ext : Collaborators).

(** Claim C1. With an empty queue and recipients that are stored users,
    [queue] followed, at whatever later time, by [drain] leaves the same
    notices as [send_now] called with the same arguments: as many, for the
    same recipients in the same order, and equal in every field but the
    rendered message and the date of creation (which is the time of the
    worker on the queued path), whether or not the calls raise. *)
Theorem queue_then_drain_same_notices (users0 : list User) (label : string)
    (extra_context : option nat) (on_site : bool) (context : option Entity)
    (w : World) (later : Z) :
  queue_batches w = [] ->
  Forall (stored w) users0 ->
  let direct :=
    fst (send_now settings ext users0 label extra_context on_site context w) in
  let queued :=
    fst (drain settings ext
           (set_now later
              (fst (queue users0 label extra_context on_site context w)))) in
  length (notices queued) = length (notices direct)
  /\ map n_user (notices queued) = map n_user (notices direct)
  /\ map undated (notices queued) = map undated (notices direct).
Proof.
  intros Hq Hst direct queued.
  assert (Hsame : map undated (notices queued) = map undated (notices direct)).
  2:{ split; [|split; [|exact Hsame]].
      - apply (f_equal (@length _)) in Hsame. now rewrite !length_map in Hsame.
      - apply (f_equal (map n_user)) in Hsame. now rewrite !map_map in Hsame. }
  subst direct queued.
  (* the queued path up to the replay of the batch *)
  set (alloc := match extra_context with None => new_dict ∅ | Some l => ret l end).
  assert (Halloc : exists wa l, alloc w = (wa, inr l) /\ db_of wa = db_of w).
  { destruct extra_context; eexists; eexists; split; reflexivity. }
  destruct Halloc as (wa & l & Ha & Hdb).
  unfold db_of in Hdb. injection Hdb as H1 H2 H3 H4 H5 H6 H7 H8 H9 H10.
  unfold queue. fold alloc.
  unfold bind at 1. rewrite Ha.
  unfold bind at 1. unfold read_dict at 1.
  unfold bind at 1. unfold get_world at 1. unfold modify at 1.
  rewrite H7, Hq. simpl app. cbn [fst].
  unfold drain. unfold bind at 1. unfold get_world at 1.
  simpl queue_batches. simpl for_each.
  set (wq := set_now later (set_queue_batches _ wa)).
  set (ec := default ∅ (heap wa !! l)).
  pose proof (send_now_run settings ext users0 label extra_context on_site context w)
    as Hdirect.
  destruct (prelude context label (activity_contexts w) (notice_types w))
    as [e|[[c nt] acs']] eqn:Hpre.
  - (* [send_now] fails before its loop, on either path *)
    destruct Hdirect as (wd & -> & _ & _ & _ & _ & Hn & _). simpl fst. rewrite Hn.
    destruct users0 as [|user users0].
    + simpl. now rewrite H5.
    + apply Forall_cons in Hst as [[u' Hu'] _].
      assert (Hget : User_objects_get_pk (u_id user) wq = (wq, inr u')).
      { unfold User_objects_get_pk, bind, get_world, lift. simpl. now rewrite H1, Hu'. }
      pose proof (send_now_run settings ext [u'] label (Some (length (heap wq))) on_site
                    context (set_heap (heap wq ++ [ec]) wq)) as Hrun.
      simpl activity_contexts in Hrun. simpl notice_types in Hrun.
      rewrite H6, H3, Hpre in Hrun.
      destruct Hrun as (w1 & Hrun & _ & _ & _ & _ & Hn1 & _).
      assert (Hreplay :
                replay settings ext
                  {| qn_user := u_id user; qn_label := label; qn_extra_context := ec;
                     qn_on_site := on_site; qn_context := context |} wq
                = (w1, inl e)).
      { unfold replay. simpl. rewrite (bind_run _ _ _ _ _ Hget).
        erewrite bind_run by reflexivity. exact Hrun. }
      simpl map. simpl for_each.
      rewrite (bind_fail _ _ wq w1 e); [simpl; rewrite Hn1; simpl; now rewrite H5|].
      apply bind_fail. apply bind_fail. exact Hreplay.
  - destruct Hdirect as (wd & rd & -> & _ & _ & _ & _ & _ & _ & _ & _ & _ & _ & Hturns).
    simpl fst.
    destruct (replays_run settings ext label ec on_site context c nt acs' users0 wq)
      as (w' & r & Hrun & _ & Hturns').
    { eapply Forall_impl; [exact Hst|]. intros u [u0 Hu0]. exists u0.
      simpl. now rewrite H1. }
    { simpl. now rewrite H6, H3. }
    simpl in Hturns'. rewrite H2, H4, H5 in Hturns'.
    assert (Hn : map undated (notices w') = map undated (notices wd)).
    { destruct (turns_undated (html_of settings on_site) users0 nt on_site c
                  (language_store w) later (now w) (notice_settings w)
                  (map blank (notices w)) (map blank (notices w)) eq_refl)
        as (_ & _ & Hu).
      rewrite <- Hturns, <- Hturns' in Hu. simpl in Hu.
      rewrite !map_map in Hu. exact Hu. }
    destruct r as [e|[]].
    + rewrite (bind_fail _ _ wq w' e); [exact Hn|]. apply bind_fail. exact Hrun.
    + erewrite bind_run; [|erewrite bind_run; [reflexivity|exact Hrun]].
      simpl. exact Hn.
Qed.
End equivalence.

(** ** Off site *)

Lemma blank_extends_eq (old new : list Notice) :
  extends old new -> map blank new = map blank old -> new = old.
Proof.
  intros [l ->] H. rewrite map_app in H.
  rewrite <- (app_nil_r (map blank old)) in H at 2.
  apply app_inv_head in H. destruct l; [now rewrite app_nil_r | discriminate].
Qed.

Section off_site.
Context (settings : Settings) (ext : Collaborators).

Lemma turns_off_site user users0 nt on_site c store added rows ns :
  turns false (user :: users0) nt on_site c store added rows ns = (rows, ns, false).
Proof. simpl. unfold turn. now destruct (lang_lookup store user). Qed.

(** Off site, [send_now] raises for its first recipient and creates no
    notice, whatever the label and the tables. *)
Lemma send_now_off_site_creates_nothing (users0 : list User) (label : string)
    (extra_context : option nat) (context : option Entity) (w : World) :
  users0 <> [] ->
  is_ok (snd (send_now settings ext users0 label extra_context false context w)) = false
  /\ notices (fst (send_now settings ext users0 label extra_context false context w))
     = notices w.
Proof.
  intros Hne. destruct users0 as [|user users0]; [congruence|].
  pose proof (send_now_run settings ext (user :: users0) label extra_context false
                context w) as Hrun.
  destruct (prelude _ _ _ _) as [e|[[c nt] acs']].
  - destruct Hrun as (w' & -> & _ & _ & _ & _ & Hn & _). now split.
  - destruct Hrun as (w' & r & -> & _ & _ & _ & _ & _ & _ & _ & X & _ & _ & Hturns).
    rewrite html_of_on_site, turns_off_site in Hturns.
    injection Hturns as _ Hb Hr. simpl. split; [exact Hr|].
    now apply blank_extends_eq.
Qed.
End off_site.

(** Claim C2, where the code fails it. With [on_site=False], [send_now]
    for one recipient and a registered label raises [KeyError] on
    ['notice.html'] and creates no notice, where the claim has one notice
    for the recipient. *)
Theorem send_now_off_site_raises :
  let out := send_now Example.settings Example.ext [Example.alice] "welcome" None
               false None Example.world in
  snd out = inl (KeyError "notice.html") /\ notices (fst out) = [].
Proof. vm_compute. split; reflexivity. Qed.

(** ** The language *)


Section language.
Context (settings : Settings) (ext : Collaborators).

End language.


(** ** What [send_now] does to the dict of its caller *)


Section only.
Context (settings : Settings) (ext : Collaborators).













End only.

(** ** The guessed facebook attributes *)


Section guesses.
Context (settings : Settings) (ext : Collaborators).


End guesses.


(** ** On site *)

Lemma resolve_unique user nt medium rows :
  settings_unique rows ->
  is_Some (NOTICE_MEDIA_DEFAULTS !! medium) ->
  exists s rows', resolve user nt medium rows = inr (s, rows')
                  /\ settings_unique rows'.
Proof.
  intros Hu [sens Hs].
  destruct (resolve_cases user nt medium rows) as [(s & Hf & E)|[[Hf E]|(x & y & l & Hf & E)]].
  - eauto.
  - rewrite Hs in E. simpl in E. eexists. eexists. split; [exact E|].
    intros u1 nt1 m1. rewrite List.filter_app, length_app. simpl.
    destruct (setting_filter u1 nt1 m1 _) eqn:Hm; simpl.
    + unfold setting_filter in Hm. simpl in Hm.
      apply andb_true_iff in Hm as [Hm M3]. apply andb_true_iff in Hm as [M1 M2].
      apply bool_decide_eq_true in M1, M2, M3.
      assert (Hsame : List.filter (setting_filter u1 nt1 m1) rows = []).
      { rewrite <- Hf. apply filter_ext. intros r. unfold setting_filter.
        now rewrite M1, M2, M3. }
      rewrite Hsame. simpl. lia.
    + specialize (Hu u1 nt1 m1). lia.
  - specialize (Hu user nt medium). rewrite Hf in Hu. simpl in Hu. lia.
Qed.

Lemma turns_ok users0 nt on_site c store added :
  forall rows ns,
    settings_unique rows ->
    Forall (fun u => is_ok (lang_lookup store u) = true) users0 ->
    exists rows' news,
      turns true users0 nt on_site c store added rows ns = (rows', (ns ++ news)%list, true)
      /\ settings_unique rows'
      /\ map n_user news = map u_id users0
      /\ Forall (fresh_notice nt on_site) news.
Proof.
  induction users0 as [|user users0 IH]; intros rows ns Hu Hl.
  - exists rows, []. rewrite app_nil_r. repeat split; [assumption|constructor].
  - apply Forall_cons in Hl as [Hl1 Hl].
    simpl. unfold turn. destruct (lang_lookup store user) as [e|lang]; [discriminate|].
    destruct (resolve_unique user nt "1" rows Hu) as (s1 & rows1 & -> & Hu1);
      [now eexists|].
    destruct (resolve_unique user nt "2" rows1 Hu1) as (s2 & rows2 & -> & Hu2);
      [now eexists|].
    destruct (IH rows2 (ns ++ [new_notice user nt on_site c added ns])%list Hu2 Hl)
      as (rows' & news & -> & Hu' & Hn & Hf).
    exists rows', (new_notice user nt on_site c added ns :: news).
    rewrite <- app_assoc. simpl.
    repeat split; try assumption; [now rewrite Hn|].
    constructor; [|assumption]. repeat split.
Qed.

Section on_site.
Context (settings : Settings) (ext : Collaborators).

(** On site, for a label registered once, users whose language lookup does
    not raise and a table of settings that honours its uniqueness
    constraint, [send_now] returns and creates one notice per user, in
    order, unseen and not archived. *)
Lemma send_now_on_site_creates_notices (users0 : list User) (label : string)
    (extra_context : option nat) (context : option Entity) (w : World) :
  is_ok (prelude context label (activity_contexts w) (notice_types w)) = true ->
  settings_unique (notice_settings w) ->
  Forall (fun u => is_ok (lang_lookup (language_store w) u) = true) users0 ->
  exists w' news nt,
    send_now settings ext users0 label extra_context true context w = (w', inr tt)
    /\ objects_get MNoticeType (fun t => bool_decide (nt_label t = label))
         (notice_types w) = inr nt
    /\ notices w' = (notices w ++ news)%list
    /\ map n_user news = map u_id users0
    /\ Forall (fresh_notice nt true) news
    /\ settings_unique (notice_settings w')
    /\ users w' = users w
    /\ language_store w' = language_store w
    /\ notice_types w' = notice_types w
    /\ queue_batches w' = queue_batches w
    /\ observed_items w' = observed_items w
    /\ language w' = language w.
Proof.
  intros Hpre Hu Hl.
  pose proof (send_now_run settings ext users0 label extra_context true context w)
    as Hrun.
  destruct (prelude _ _ _ _) as [e|[[c nt] acs']] eqn:Ep; [discriminate|].
  destruct Hrun as (w' & r & Hrun & U & L & T & _ & Q & O & _ & [l X] & Hlang & _ & Hturns).
  rewrite html_of_on_site in Hturns.
  destruct (turns_ok users0 nt true c (language_store w) (now w) (notice_settings w)
              (map blank (notices w)) Hu Hl) as (rows' & news & E & Hu' & Hn & Hf).
  rewrite E in Hturns. injection Hturns as Hs Hb Hr.
  destruct r as [e|[]]; [discriminate|].
  rewrite X, map_app in Hb. apply app_inv_head in Hb.
  exists w', l, nt. split_and!; try assumption.
  - unfold prelude in Ep.
    destruct (match context with Some _ => _ | None => _ end) as [e|[a acs0]];
      [discriminate|].
    destruct (objects_get _ _ _) as [e|nt0]; [discriminate|].
    now injection Ep as _ <- _.
  - rewrite <- Hn, <- Hb, map_map. reflexivity.
  - rewrite <- Hb in Hf. clear -Hf. induction l as [|n l IH]; [constructor|].
    apply Forall_cons in Hf as [H Hf]. constructor; [exact H | now apply IH].
  - now rewrite Hs.
  - now apply Hlang.
Qed.
End on_site.

(** ** Observers *)

Lemma next_pk_above (ids : list Z) : Forall (fun x => x < next_pk ids) ids.
Proof.
  unfold next_pk. induction ids as [|i ids IH]; simpl; constructor.
  - lia.
  - eapply Forall_impl; [exact IH|]. simpl. intros x Hx. lia.
Qed.

Lemma delete_row_last {A} (pk : A -> Z) (rows : list A) (row : A) :
  pk row = next_pk (map pk rows) ->
  delete_row pk row (rows ++ [row]) = rows.
Proof.
  intros Hpk. unfold delete_row. rewrite List.filter_app. simpl.
  rewrite bool_decide_eq_true_2 by reflexivity. simpl. rewrite app_nil_r.
  pose proof (next_pk_above (map pk rows)) as H. rewrite <- Hpk in H.
  clear Hpk. induction rows as [|r rows IH]; [reflexivity|].
  simpl in *. apply Forall_cons in H as [Hr H].
  rewrite bool_decide_eq_false_2 by lia. simpl. f_equal. now apply IH.
Qed.

Lemma observer_filter_none observed observer signal items :
  List.filter (observed_filter observed signal) items = [] ->
  List.filter (observer_filter observed observer signal) items = [].
Proof.
  intros H. induction items as [|i items IH]; [reflexivity|].
  simpl in *. unfold observer_filter at 1.
  destruct (observed_filter observed signal i); [discriminate|].
  simpl. now apply IH.
Qed.

Section observers.
Context (settings : Settings) (ext : Collaborators).

(** Claim C6. For a label registered once, an observer who is a stored
    user whose settings and language can be looked up, and an object nobody
    observes yet: [observe] stores an observed item;
    [send_observation_notices_for] then makes one call of [send] for the
    observer, which creates one notice for them, or queues one request for
    them when [NOTIFICATION_QUEUE_ALL] is set; [stop_observing] removes the
    item, and a further [send_observation_notices_for] finds no item and
    changes nothing. *)
Theorem observe_notify_stop (observed : Entity) (observer : User) (label : string)
    (nt : NoticeType) (w : World) :
  objects_get MNoticeType (fun t => bool_decide (nt_label t = label))
    (notice_types w) = inr nt ->
  objects_get MNoticeType (fun t => bool_decide (nt_id t = nt_id nt))
    (notice_types w) = inr nt ->
  objects_get MUser (fun u => bool_decide (u_id u = u_id observer)) (users w)
  = inr observer ->
  is_ok (lang_lookup (language_store w) observer) = true ->
  settings_unique (notice_settings w) ->
  List.filter (observed_filter observed "post_save") (observed_items w) = [] ->
  exists (item : ObservedItem) (w1 w2 w3 : World),
    observe observed observer label "post_save" w = (w1, inr item)
    /\ send_observation_notices_for settings ext observed "post_save" w1
       = (w2, inr [item])
    /\ (if QUEUE_ALL settings
        then notices w2 = notices w1
             /\ exists b, queue_batches w2 = (queue_batches w1 ++ [b])%list
                          /\ map (fun r => (qn_user r, qn_label r)) (qb_pickled_data b)
                             = [(u_id observer, label)]
        else queue_batches w2 = queue_batches w1
             /\ exists n, notices w2 = (notices w1 ++ [n])%list
                          /\ n_user n = u_id observer
                          /\ n_notice_type n = nt_id nt)
    /\ stop_observing observed observer "post_save" w2 = (w3, inr tt)
    /\ List.filter (observed_filter observed "post_save") (observed_items w3) = []
    /\ send_observation_notices_for settings ext observed "post_save" w3
       = (w3, inr []).
Proof.
  intros Hlabel Hpk Huser Hlang Hu Hnone.
  set (item := {| oi_id := next_pk (map oi_id (observed_items w));
                  oi_user := u_id observer;
                  oi_content_type := e_content_type observed;
                  oi_object_id := e_pk observed;
                  oi_notice_type := nt_id nt;
                  oi_added := now w;
                  oi_signal := "post_save" |}).
  set (w1 := set_observed_items (observed_items w ++ [item]) w).
  assert (Hobserve : observe observed observer label "post_save" w = (w1, inr item)).
  { unfold observe, NoticeType_objects_get_label, bind, get_world, lift.
    now rewrite Hlabel. }
  assert (Hmatch : observed_filter observed "post_save" item = true).
  { unfold observed_filter. simpl. now rewrite !bool_decide_eq_true_2. }
  assert (Hall : all_for observed "post_save" w1 = (w1, inr [item])).
  { unfold all_for, bind, get_world, ret. simpl.
    rewrite List.filter_app, Hnone. simpl. now rewrite Hmatch. }
  assert (Hnl : nt_label nt = label).
  { apply objects_get_sat, filter_one_In in Hlabel.
    now apply bool_decide_eq_true in Hlabel. }
  set (d := ({[ "observed" := VEntity {| e_content_type := oi_content_type item;
                                         e_pk := oi_object_id item |} ]} : Dict)).
  set (w1a := set_heap (heap w1 ++ [d]) w1).
  assert (Hsend : forall w2,
             send settings ext [observer] label (Some (length (heap w1))) true None
               false false w1a = (w2, inr tt) ->
             send_observation_notices_for settings ext observed "post_save" w1
             = (w2, inr [item])).
  { intros w2 H. unfold send_observation_notices_for.
    rewrite (bind_run _ _ _ _ _ Hall).
    assert (Hn : send_notice settings ext item w1 = (w2, inr tt)).
    { unfold send_notice.
      erewrite bind_run
        by (unfold User_objects_get_pk, bind, get_world, lift; simpl;
            rewrite Huser; reflexivity).
      erewrite bind_run
        by (unfold NoticeType_objects_get_pk, bind, get_world, lift; simpl;
            rewrite Hpk; reflexivity).
      erewrite bind_run by reflexivity.
      rewrite Hnl. exact H. }
    simpl for_each. erewrite bind_run; [reflexivity|].
    erewrite bind_run; [reflexivity | exact Hn]. }
  assert (Hstop : forall w2,
             observed_items w2 = observed_items w1 ->
             stop_observing observed observer "post_save" w2
             = (set_observed_items (observed_items w) w2, inr tt)
             /\ send_observation_notices_for settings ext observed "post_save"
                  (set_observed_items (observed_items w) w2)
                = (set_observed_items (observed_items w) w2, inr [])).
  { intros w2 Hitems. split.
    - unfold stop_observing, get_for, bind, get_world, lift, modify.
      rewrite Hitems. simpl.
      erewrite objects_get_one.
      2:{ rewrite List.filter_app, (observer_filter_none _ _ _ _ Hnone). simpl.
          unfold observer_filter. rewrite Hmatch. simpl.
          now rewrite bool_decide_eq_true_2. }
      now rewrite delete_row_last.
    - unfold send_observation_notices_for, all_for, bind, get_world, ret. simpl.
      now rewrite Hnone. }
  exists item, w1.
  unfold send in Hsend. simpl in Hsend.
  destruct (QUEUE_ALL settings).
  - (* the notification is queued *)
    assert (Hq : exists wq b,
               queue [observer] label (Some (length (heap w))) true None w1a
               = (wq, inr tt)
               /\ notices wq = notices w1
               /\ observed_items wq = observed_items w1
               /\ queue_batches wq = (queue_batches w1 ++ [b])%list
               /\ map (fun r => (qn_user r, qn_label r)) (qb_pickled_data b)
                  = [(u_id observer, label)]).
    { eexists. eexists. split; [|split; [|split; [|split]]].
      - unfold queue, bind, ret, read_dict, get_world, modify. simpl. reflexivity.
      - reflexivity.
      - reflexivity.
      - reflexivity.
      - reflexivity. }
    destruct Hq as (wq & b & Hq & Qn & Qo & Qb & Qr).
    destruct (Hstop wq Qo) as [S1 S2].
    exists wq. eexists. split; [exact Hobserve|].
    split; [now apply Hsend|].
    split; [split; [exact Qn|]|].
    { exists b. split; assumption. }
    split; [exact S1|]. split; [exact Hnone|]. exact S2.
  - (* the notification is sent now *)
    destruct (send_now_on_site_creates_notices settings ext [observer] label
                (Some (length (heap w1))) None w1a)
      as (w2 & news & nt' & Hrun & Hnt' & Hn & Hus & Hf & _ & _ & _ & _ & Q & O & _).
    { unfold prelude. simpl. now rewrite Hlabel. }
    { exact Hu. }
    { constructor; [exact Hlang | constructor]. }
    simpl in Hnt'. rewrite Hlabel in Hnt'. injection Hnt' as <-.
    destruct news as [|n [|n' news]]; try discriminate.
    apply Forall_cons in Hf as [(_ & _ & Hty & _) _].
    injection Hus as Hus.
    destruct (Hstop w2 O) as [S1 S2].
    exists w2. eexists. split; [exact Hobserve|].
    split; [now apply Hsend|].
    split; [split; [exact Q|]|].
    { exists n. repeat split; assumption. }
    split; [exact S1|]. split; [exact Hnone|]. exact S2.
Qed.
End observers.

(** ** At the example installation *)

(** Queued, and drained an hour later, or sent now: the same recipients. *)
Lemma queue_then_drain_same_notices_witness :
  map n_user
    (notices
       (fst (drain Example.settings Example.ext
               (set_now 3600
                  (fst (queue [Example.alice; Example.bob] "welcome" None true None
                          Example.world))))))
  = map n_user
      (notices (fst (send_now Example.settings Example.ext [Example.alice; Example.bob]
                       "welcome" None true None Example.world))).
Proof.
  refine (proj1 (proj2 (queue_then_drain_same_notices Example.settings Example.ext
                          [Example.alice; Example.bob] "welcome" None true None
                          Example.world 3600 eq_refl _))).
  repeat constructor; eexists; reflexivity.
Defined.

(** Alice observes a project, is notified once, and stops observing. *)
Lemma observe_notify_stop_witness :
  exists item w1 w2 w3,
    observe Example.project Example.alice "welcome" "post_save" Example.world
    = (w1, inr item)
    /\ send_observation_notices_for Example.settings Example.ext Example.project
         "post_save" w1 = (w2, inr [item])
    /\ (exists n, notices w2 = (notices w1 ++ [n])%list /\ n_user n = 1)
    /\ stop_observing Example.project Example.alice "post_save" w2 = (w3, inr tt)
    /\ send_observation_notices_for Example.settings Example.ext Example.project
         "post_save" w3 = (w3, inr []).
Proof.
  destruct (observe_notify_stop Example.settings Example.ext Example.project
              Example.alice "welcome" Example.welcome Example.world
              eq_refl eq_refl eq_refl eq_refl
              ltac:(intros ? ? ?; simpl; lia) eq_refl)
    as (item & w1 & w2 & w3 & H1 & H2 & H3 & H4 & _ & H6).
  exists item, w1, w2, w3. simpl in H3. destruct H3 as [_ (n & Hn & Hu & _)].
  repeat split; try assumption. exists n. split; assumption.
Defined.

(** Claim C9 as stated fails. Called as the other apps call it, with the
    default verbosity, [create_notice_type] returns the same and prints
    nothing, whether it created the notice type or updated it. *)
Lemma create_notice_type_reports_nothing :
  let w0 := set_notice_types [] Example.world in
  let created := create_notice_type "welcome" "Welcome" "Sent on sign-up" 2 1 w0 in
  let updated :=
    create_notice_type "welcome" "Hello" "Sent on sign-up" 2 1 (fst created) in
  notice_types (fst created)
  = [{| nt_id := 1; nt_label := "welcome"; nt_display := "Welcome";
        nt_description := "Sent on sign-up"; nt_default := 2 |}]
  /\ notice_types (fst updated)
     = [{| nt_id := 1; nt_label := "welcome"; nt_display := "Hello";
           nt_description := "Sent on sign-up"; nt_default := 2 |}]
  /\ snd created = inr tt /\ snd updated = inr tt
  /\ trace (fst created) = trace w0 /\ trace (fst updated) = trace w0.
Proof. vm_compute. repeat split; reflexivity. Qed.

(** Under verbosity 2 the update of the welcome notice type is printed. *)
Lemma create_notice_type_upsert_witness :
  exists t w1,
    create_notice_type "welcome" "Hello" "Sent on sign-up" 2 2 Example.world
    = (w1, inr tt)
    /\ List.filter (fun t => bool_decide (nt_label t = "welcome")) (notice_types w1) = [t]
    /\ nt_display t = "Hello"
    /\ trace w1 = [Print "Updated welcome NoticeType"].
Proof.
  destruct (create_notice_type_upsert "welcome" "Hello" "Sent on sign-up" 2 2
              Example.world)
    as (t & w1 & H1 & H2 & _ & H4 & _ & _ & _ & H8).
  - simpl. repeat constructor; simpl; intuition discriminate.
  - simpl. lia.
  - exists t, w1. repeat split; assumption.
Defined.

(** * Further properties of the code *)

(** ** The settings keep their uniqueness *)

Lemma resolve_keeps_unique user nt medium rows :
  settings_unique rows ->
  match resolve user nt medium rows with
  | inr (s, rows') =>
      settings_unique rows' /\ extends rows rows'
      /\ (length rows' <= S (length rows))%nat
      /\ List.filter (setting_filter user nt medium) rows' = [s]
  | inl _ => True
  end.
Proof.
  intros Hu.
  destruct (resolve_cases user nt medium rows)
    as [(s & Hf & E)|[[Hf E]|(x & y & l & Hf & E)]]; rewrite E; [| |exact I].
  - split_and!; [assumption | apply extends_refl | lia | assumption].
  - destruct (NOTICE_MEDIA_DEFAULTS !! medium) as [sens|] eqn:Hs; [|exact I].
    simpl. destruct (resolve_unique user nt medium rows Hu) as (s & rows' & E' & Hu');
      [rewrite Hs; eauto|].
    rewrite E in E'. simpl in E'. injection E' as <- <-.
    split_and!; [assumption | apply extends_app | rewrite length_app; simpl; lia |].
    rewrite List.filter_app, Hf. simpl.
    unfold setting_filter. simpl. now rewrite !bool_decide_eq_true_2.
Qed.

(** Property X1. [get_notification_setting] keeps the settings table
    unique per (user, notice type, medium): from a table that has at most
    one row for every triple it leaves such a table, only ever appends (at
    most one row), and the setting it returns is the one row of its triple;
    when it raises, the table is as it was. *)
Theorem get_notification_setting_keeps_unique (user : User) (notice_type : NoticeType)
    (medium : string) (w : World) :
  settings_unique (notice_settings w) ->
  let out := get_notification_setting user notice_type medium w in
  settings_unique (notice_settings (fst out))
  /\ extends (notice_settings w) (notice_settings (fst out))
  /\ (length (notice_settings (fst out)) <= S (length (notice_settings w)))%nat
  /\ match snd out with
     | inr s =>
         List.filter (setting_filter user notice_type medium) (notice_settings (fst out))
         = [s]
     | inl _ => notice_settings (fst out) = notice_settings w
     end.
Proof.
  intros Hu out. subst out. rewrite get_notification_setting_run.
  pose proof (resolve_keeps_unique user notice_type medium _ Hu) as H.
  destruct (resolve _ _ _ _) as [e|[s rows']]; simpl.
  - split_and!; [assumption | apply extends_refl | lia | reflexivity].
  - exact H.
Qed.

(** Alice has no setting for facebook yet: the lookup stores one and the
    table stays unique. *)
Lemma get_notification_setting_keeps_unique_witness :
  settings_unique
    (notice_settings
       (fst (get_notification_setting Example.alice Example.welcome "2" Example.world))).
Proof.
  refine (proj1 (get_notification_setting_keeps_unique Example.alice Example.welcome "2"
                   Example.world _)).
  intros ? ? ?. simpl. lia.
Defined.

(** ** [archive] *)

Lemma map_replace_same {A} (pk : A -> Z) (row : A) (l : list A) :
  Forall (fun r => pk r = pk row -> r = row) l ->
  map (fun r => if bool_decide (pk r = pk row) then row else r) l = l.
Proof.
  induction l as [|r l IH]; intros H; [reflexivity|].
  apply List.Forall_cons_iff in H as [Hr H]. simpl.
  rewrite (IH H). f_equal.
  case_bool_decide; [symmetry; auto | reflexivity].
Qed.

Lemma save_row_idem {A} (pk : A -> Z) (row : A) (rows : list A) :
  save_row pk row (save_row pk row rows) = save_row pk row rows.
Proof.
  assert (Hex : existsb (fun r => bool_decide (pk r = pk row)) (save_row pk row rows) = true).
  { apply existsb_exists. exists row. split; [apply save_row_spec|].
    now apply bool_decide_eq_true. }
  unfold save_row at 1. rewrite Hex.
  apply map_replace_same. apply save_row_spec.
Qed.

(** Property X2. [Notice.archive] returns the instance with [archived]
    set, the saved row is in the table and every row of its key equals it;
    archiving the result again changes nothing. *)
Theorem archive_idempotent (self : Notice) (w : World) :
  let archived := set_archived true self in
  let w1 := fst (archive self w) in
  snd (archive self w) = inr archived
  /\ In archived (notices w1)
  /\ Forall (fun r => n_id r = n_id self -> r = archived) (notices w1)
  /\ archive archived w1 = (w1, inr archived).
Proof.
  intros archived w1. subst w1. unfold archive, Notice_save, bind, modify, ret.
  simpl. fold archived.
  destruct (save_row_spec n_id archived (notices w)) as [Hin Hall].
  split_and!; [reflexivity | assumption | assumption |].
  now rewrite save_row_idem.
Qed.

(** ** [notices_for] and [unseen_count_for] *)

Lemma insert_notice_perm x l : Permutation (insert_notice_by_added x l) (x :: l).
Proof.
  induction l as [|y l IH]; simpl; [reflexivity|].
  destruct (n_added y <=? n_added x); [reflexivity|].
  rewrite IH. apply perm_swap.
Qed.

Lemma order_notices_perm l : Permutation (order_notices_by_added_desc l) l.
Proof.
  unfold order_notices_by_added_desc. induction l as [|x l IH]; simpl; [reflexivity|].
  rewrite insert_notice_perm. now constructor.
Qed.

Lemma insert_notice_sorted x l :
  Sorted newer_first l -> Sorted newer_first (insert_notice_by_added x l).
Proof.
  induction l as [|y l IH]; intros H; simpl; [repeat constructor|].
  destruct (n_added y <=? n_added x) eqn:E.
  - constructor; [assumption|]. constructor. unfold newer_first. lia.
  - apply Sorted_inv in H as [Hs Hr]. constructor; [now apply IH|].
    destruct l as [|z l]; simpl.
    + constructor. unfold newer_first. lia.
    + destruct (n_added z <=? n_added x); constructor.
      * unfold newer_first. lia.
      * now apply HdRel_inv in Hr.
Qed.

Lemma order_notices_sorted l : StronglySorted newer_first (order_notices_by_added_desc l).
Proof.
  apply Sorted_StronglySorted.
  - intros a b c. unfold newer_first. lia.
  - unfold order_notices_by_added_desc. induction l as [|x l IH]; simpl; [constructor|].
    now apply insert_notice_sorted.
Qed.

Lemma filter_filter_and {A} (p q : A -> bool) (l : list A) :
  List.filter p (List.filter q l) = List.filter (fun x => q x && p x) l.
Proof.
  induction l as [|x l IH]; [reflexivity|]. simpl.
  destruct (q x); simpl; [|exact IH]. destruct (p x); now rewrite IH.
Qed.

Lemma notices_for_filter user archived unseen on_site w :
  notices_for user archived unseen on_site None w
  = (w, inr (order_notices_by_added_desc
               (List.filter (notice_filter user archived unseen on_site) (notices w)))).
Proof.
  unfold notices_for, bind, get_world, ret. do 2 f_equal. f_equal.
  assert (H1 : (if archived
                then List.filter (fun n => bool_decide (n_user n = u_id user)) (notices w)
                else List.filter (fun n => bool_decide (n_user n = u_id user)
                                           && bool_decide (n_archived n = archived))
                       (notices w))
               = List.filter (fun n => bool_decide (n_user n = u_id user)
                                       && (archived || negb (n_archived n))) (notices w)).
  { destruct archived; apply filter_ext; intros n; simpl.
    - now rewrite andb_true_r.
    - f_equal. now destruct (n_archived n). }
  rewrite H1. clear H1.
  assert (H2 : match unseen with
               | Some b =>
                   List.filter (fun n => bool_decide (n_unseen n = b))
                     (List.filter (fun n => bool_decide (n_user n = u_id user)
                                            && (archived || negb (n_archived n)))
                        (notices w))
               | None =>
                   List.filter (fun n => bool_decide (n_user n = u_id user)
                                         && (archived || negb (n_archived n)))
                     (notices w)
               end
               = List.filter
                   (fun n => bool_decide (n_user n = u_id user)
                             && (archived || negb (n_archived n))
                             && match unseen with
                                | Some b => bool_decide (n_unseen n = b)
                                | None => true
                                end) (notices w)).
  { destruct unseen as [b|]; [apply filter_filter_and|].
    apply filter_ext. intros n. now rewrite andb_true_r. }
  rewrite H2. clear H2. unfold notice_filter.
  destruct on_site as [b|]; [apply filter_filter_and|].
  apply filter_ext. intros n. now rewrite andb_true_r.
Qed.

(** Property X3. [Notice.objects.notices_for] without a context never
    raises and leaves the state alone; its result is ordered newest first and
    holds, as often as the table does, exactly the notices of the user that
    pass the filters given: not archived unless [archived] is true, and with
    the [unseen] and [on_site] values asked for. *)
Theorem notices_for_sorted_filter (user : User) (archived : bool)
    (unseen on_site : option bool) (w : World) :
  exists l,
    notices_for user archived unseen on_site None w = (w, inr l)
    /\ StronglySorted newer_first l
    /\ Permutation l
         (List.filter (notice_filter user archived unseen on_site) (notices w))
    /\ forall n,
        In n l <->
        In n (notices w) /\ n_user n = u_id user
        /\ (archived = false -> n_archived n = false)
        /\ (forall b, unseen = Some b -> n_unseen n = b)
        /\ (forall b, on_site = Some b -> n_on_site n = b).
Proof.
  eexists. split; [apply notices_for_filter|]. split; [apply order_notices_sorted|].
  split; [apply order_notices_perm|].
  intros n. rewrite (Permutation_in' (eq_refl n) (order_notices_perm _)).
  rewrite filter_In. unfold notice_filter.
  rewrite !andb_true_iff, bool_decide_eq_true.
  split.
  - intros (Hin & ((Hu & Ha) & Hs) & Ho). split_and!; try assumption.
    + intros ->. simpl in Ha. now destruct (n_archived n).
    + intros b ->. now apply bool_decide_eq_true in Hs.
    + intros b ->. now apply bool_decide_eq_true in Ho.
  - intros (Hin & Hu & Ha & Hs & Ho). split_and!; try assumption.
    + destruct archived; [reflexivity|]. now rewrite Ha.
    + destruct unseen as [b|]; [|reflexivity]. apply bool_decide_eq_true. now apply Hs.
    + destruct on_site as [b|]; [|reflexivity]. apply bool_decide_eq_true. now apply Ho.
Qed.

Lemma unseen_count_for_filter user archived on_site w :
  unseen_count_for user archived on_site None w
  = (w, inr (length (List.filter (notice_filter user archived (Some true) on_site)
                       (notices w)))).
Proof.
  unfold unseen_count_for, bind. rewrite notices_for_filter. unfold ret.
  do 2 f_equal. apply Permutation_length, order_notices_perm.
Qed.

(** ** Reading a notice and the unseen count *)

Lemma save_row_present {A} (pk : A -> Z) (row old : A) (rows : list A) :
  In old rows -> pk old = pk row ->
  save_row pk row rows
  = map (fun r => if bool_decide (pk r = pk row) then row else r) rows.
Proof.
  intros Hin Hpk. unfold save_row.
  assert (existsb (fun r => bool_decide (pk r = pk row)) rows = true) as ->;
    [|reflexivity].
  apply existsb_exists. exists old. split; [assumption|]. now apply bool_decide_eq_true.
Qed.

Lemma nodup_pk_eq {A} (pk : A -> Z) (rows : list A) (x y : A) :
  List.NoDup (map pk rows) -> In x rows -> In y rows -> pk x = pk y -> x = y.
Proof.
  induction rows as [|r rows IH]; intros Hnd Hx Hy Hpk; [contradiction|].
  simpl in Hnd. apply List.NoDup_cons_iff in Hnd as [Hnotin Hnd].
  destruct Hx as [<-|Hx], Hy as [<-|Hy]; try reflexivity.
  - exfalso. apply Hnotin. rewrite Hpk. now apply in_map.
  - exfalso. apply Hnotin. rewrite <- Hpk. now apply in_map.
  - now apply IH.
Qed.

(** Replacing one row by a row that the filter rejects. *)
Lemma filter_replace_count {A} (pk : A -> Z) (p : A -> bool) (old new : A) (rows : list A) :
  List.NoDup (map pk rows) -> In old rows ->
  pk new = pk old -> p old = true -> p new = false ->
  length (List.filter p rows)
  = S (length (List.filter p
                 (map (fun r => if bool_decide (pk r = pk new) then new else r) rows))).
Proof.
  intros Hnd Hin Hpk Hold Hnew.
  induction rows as [|r rows IH]; [contradiction|].
  simpl in Hnd. apply List.NoDup_cons_iff in Hnd as [Hnotin Hnd]. simpl.
  case_bool_decide as E.
  - assert (r = old) as ->.
    { destruct Hin as [|Hin]; [assumption|]. exfalso. apply Hnotin.
      rewrite E, Hpk. now apply in_map. }
    rewrite Hold, Hnew. simpl. f_equal.
    rewrite <- Hpk in Hnotin. now rewrite (map_replace_absent pk new rows Hnotin).
  - destruct Hin as [->|Hin]; [congruence|].
    destruct (p r); simpl; rewrite (IH Hnd Hin); reflexivity.
Qed.

(** Replacing one row by a row that the filter treats the same. *)
Lemma filter_replace_same {A} (pk : A -> Z) (p : A -> bool) (old new : A) (rows : list A) :
  List.NoDup (map pk rows) -> In old rows ->
  pk new = pk old -> p new = p old ->
  length (List.filter p
            (map (fun r => if bool_decide (pk r = pk new) then new else r) rows))
  = length (List.filter p rows).
Proof.
  intros Hnd Hin Hpk Hp.
  induction rows as [|r rows IH]; [contradiction|].
  simpl in Hnd. apply List.NoDup_cons_iff in Hnd as [Hnotin Hnd]. simpl.
  case_bool_decide as E.
  - assert (r = old) as ->.
    { destruct Hin as [|Hin]; [assumption|]. exfalso. apply Hnotin.
      rewrite E, Hpk. now apply in_map. }
    rewrite Hp. rewrite <- Hpk in Hnotin.
    rewrite (map_replace_absent pk new rows Hnotin). now destruct (p old).
  - destruct Hin as [->|Hin]; [congruence|].
    destruct (p r); simpl; rewrite (IH Hnd Hin); reflexivity.
Qed.

(** Property X4. With notice keys unique, [is_unseen] on a stored unseen
    notice takes exactly one off [unseen_count_for] of its owner when the
    notice is not archived, and leaves the count of every other user as it
    was. *)
Theorem is_unseen_takes_one_off_the_count (self : Notice) (user : User) (w : World) :
  List.NoDup (map n_id (notices w)) ->
  In self (notices w) ->
  n_unseen self = true ->
  let w1 := fst (is_unseen self w) in
  (n_user self = u_id user -> n_archived self = false ->
   forall k, snd (unseen_count_for user false None None w1) = inr k ->
             snd (unseen_count_for user false None None w) = inr (S k))
  /\ (n_user self <> u_id user ->
      snd (unseen_count_for user false None None w1)
      = snd (unseen_count_for user false None None w)).
Proof.
  intros Hnd Hin Hun w1. subst w1.
  rewrite !unseen_count_for_filter.
  unfold is_unseen. rewrite Hun. unfold Notice_save, bind, modify, ret.
  cbn [fst snd notices set_notices].
  rewrite (save_row_present n_id (set_unseen false self) self) by (assumption || reflexivity).
  split.
  - intros Hu Ha k Hk. injection Hk as <-. f_equal.
    apply (filter_replace_count n_id) with (old := self) (new := set_unseen false self);
      try assumption; try reflexivity.
    + unfold notice_filter. rewrite Hu, Ha, Hun. simpl.
      now rewrite !bool_decide_eq_true_2.
    + unfold notice_filter. simpl. rewrite andb_true_r.
      apply andb_false_iff. now right.
  - intros Hu. f_equal.
    apply (filter_replace_same n_id) with (old := self) (new := set_unseen false self);
      try assumption; try reflexivity.
    unfold notice_filter. simpl.
    rewrite !(bool_decide_eq_false_2 (n_user self = u_id user)) by assumption.
    reflexivity.
Qed.

(** Alice's one unseen notice: the count is one before it is read, none
    after. *)
Lemma is_unseen_takes_one_off_the_count_witness :
  snd (unseen_count_for Example.alice false None None
         (set_notices [Example.notice1] Example.world)) = inr 1%nat.
Proof.
  refine (proj1 (is_unseen_takes_one_off_the_count Example.notice1 Example.alice
                   (set_notices [Example.notice1] Example.world) _ _ eq_refl)
            eq_refl eq_refl 0%nat eq_refl).
  - simpl. repeat constructor. simpl. tauto.
  - simpl. now left.
Defined.

(** ** The view [mark_all_seen] *)

Lemma saves_seen_run (l : list Notice) :
  forall w : World,
    List.NoDup (map n_id (notices w)) ->
    (forall x, In x l -> In x (notices w)) ->
    List.NoDup (map n_id l) ->
    exists w',
      for_each l (fun notice => Notice_save (set_unseen false notice)) w = (w', inr tt)
      /\ notices w'
         = map (fun r => if existsb (fun x => bool_decide (n_id x = n_id r)) l
                         then set_unseen false r else r) (notices w)
      /\ set_notices [] w' = set_notices [] w.
Proof.
  induction l as [|x l IH]; intros w Hnd Hsub Hl.
  - exists w. split; [reflexivity|]. split; [|reflexivity].
    simpl. now rewrite map_id.
  - simpl in Hl. apply List.NoDup_cons_iff in Hl as [Hx Hl].
    set (rows1 := map (fun r => if bool_decide (n_id r = n_id x)
                                then set_unseen false r else r) (notices w)).
    assert (Hsave : Notice_save (set_unseen false x) w = (set_notices rows1 w, inr tt)).
    { unfold Notice_save, modify. do 2 f_equal.
      rewrite (save_row_present n_id (set_unseen false x) x)
        by (auto using in_eq || reflexivity).
      apply map_ext_in. intros r Hr. simpl. case_bool_decide as E; [|reflexivity].
      f_equal. symmetry. apply (nodup_pk_eq n_id (notices w)); auto using in_eq. }
    assert (Hids : map n_id rows1 = map n_id (notices w)).
    { unfold rows1. rewrite map_map. apply map_ext. intros r.
      now case_bool_decide. }
    destruct (IH (set_notices rows1 w)) as (w' & Hrun & Hn & Hframe).
    + simpl. now rewrite Hids.
    + intros y Hy. simpl. unfold rows1. apply in_map_iff. exists y.
      split; [|apply Hsub; now right].
      case_bool_decide as E; [|reflexivity].
      exfalso. apply Hx. rewrite <- E. now apply in_map.
    + assumption.
    + exists w'. simpl for_each. rewrite (bind_run _ _ _ _ _ Hsave).
      split; [exact Hrun|]. split; [|exact Hframe].
      rewrite Hn. simpl. unfold rows1. rewrite map_map. apply map_ext. intros r.
      simpl. case_bool_decide as E; simpl.
      * rewrite (bool_decide_eq_true_2 (n_id x = n_id r)) by congruence. simpl.
        now destruct (existsb _ l).
      * rewrite (bool_decide_eq_false_2 (n_id x = n_id r)) by congruence.
        reflexivity.
Qed.

Section mark.
Context (reverse : string -> string).

(** Property X5. With notice keys unique, the view [mark_all_seen]
    redirects to the notices page, marks seen exactly the notices of the
    requesting user that are unseen and not archived, and changes nothing
    else; afterwards [unseen_count_for] of the user is zero. Notices of other
    users, and archived notices (which stay unseen), are left in the table as
    they were. *)
Theorem mark_all_seen_marks_the_unarchived (request : Request) (w : World) :
  List.NoDup (map n_id (notices w)) ->
  exists w',
    views.mark_all_seen reverse request w
    = (w', inr (HttpResponseRedirect (reverse "notification_notices")))
    /\ notices w' = map (seen_by (req_user request)) (notices w)
    /\ set_notices [] w' = set_notices [] w
    /\ snd (unseen_count_for (req_user request) false None None w') = inr 0%nat
    /\ (forall n, In n (notices w) ->
                  n_user n <> u_id (req_user request) \/ n_archived n = true ->
                  In n (notices w')).
Proof.
  intros Hnd. unfold views.mark_all_seen.
  rewrite (bind_run _ _ _ _ _ (notices_for_filter _ _ _ _ _)).
  set (Q := notice_filter (req_user request) false (Some true) None).
  set (l := order_notices_by_added_desc (List.filter Q (notices w))).
  assert (Hperm : Permutation l (List.filter Q (notices w))) by apply order_notices_perm.
  destruct (saves_seen_run l w Hnd) as (w' & Hrun & Hn & Hframe).
  { intros x Hx. apply (Permutation_in _ Hperm) in Hx. now apply filter_In in Hx. }
  { apply (Permutation_NoDup (Permutation_map n_id (Permutation_sym Hperm))).
    clear -Hnd. induction (notices w) as [|r rows IH]; [constructor|].
    simpl in *. apply List.NoDup_cons_iff in Hnd as [Hr Hnd].
    destruct (Q r); simpl; [|now apply IH].
    constructor; [|now apply IH]. intros Hin. apply Hr.
    apply in_map_iff in Hin as (y & Hy & Hin). apply filter_In in Hin as [Hin _].
    rewrite <- Hy. now apply in_map. }
  assert (Hseen : notices w' = map (seen_by (req_user request)) (notices w)).
  { rewrite Hn. apply map_ext_in. intros r Hr. unfold seen_by. fold Q.
    destruct (Q r) eqn:EQ.
    - assert (existsb (fun x => bool_decide (n_id x = n_id r)) l = true) as ->;
        [|reflexivity].
      apply existsb_exists. exists r. split; [|now apply bool_decide_eq_true].
      apply (Permutation_in _ (Permutation_sym Hperm)). now apply filter_In.
    - assert (existsb (fun x => bool_decide (n_id x = n_id r)) l = false) as ->;
        [|reflexivity].
      apply not_true_is_false. intros H. apply existsb_exists in H as (x & Hx & E).
      apply bool_decide_eq_true in E. apply (Permutation_in _ Hperm) in Hx.
      apply filter_In in Hx as [Hx HQ].
      assert (x = r) by (apply (nodup_pk_eq n_id (notices w)); assumption).
      congruence. }
  exists w'. rewrite (bind_run _ _ _ _ _ Hrun).
  split; [reflexivity|]. split; [exact Hseen|]. split; [exact Hframe|]. split.
  - rewrite unseen_count_for_filter. simpl. do 2 f_equal.
    rewrite Hseen. fold Q. clear. induction (notices w) as [|r rows IH]; [reflexivity|].
    simpl. unfold seen_by at 1. fold Q. destruct (Q r) eqn:EQ.
    + assert (Q (set_unseen false r) = false) as ->; [|exact IH].
      unfold Q, notice_filter. simpl. rewrite andb_true_r. apply andb_false_iff.
      now right.
    + rewrite EQ. exact IH.
  - intros n Hin Hor. rewrite Hseen. apply in_map_iff. exists n. split; [|assumption].
    unfold seen_by, notice_filter.
    destruct Hor as [Hu|Ha].
    + now rewrite (bool_decide_eq_false_2 _ Hu).
    + rewrite Ha. simpl. now rewrite andb_false_r.
Qed.
End mark.

(** Alice's unseen notice is seen after the request. *)
Lemma mark_all_seen_marks_the_unarchived_witness :
  exists w',
    views.mark_all_seen (fun name => "/" ++ name ++ "/")
      {| req_method := "GET"; req_POST := ∅; req_user := Example.alice |}
      (set_notices [Example.notice1] Example.world)
    = (w', inr (HttpResponseRedirect "/notification_notices/"))
    /\ notices w' = [set_unseen false Example.notice1].
Proof.
  destruct (mark_all_seen_marks_the_unarchived (fun name => "/" ++ name ++ "/")
              {| req_method := "GET"; req_POST := ∅; req_user := Example.alice |}
              (set_notices [Example.notice1] Example.world))
    as (w' & H1 & H2 & _).
  - simpl. repeat constructor. simpl. tauto.
  - exists w'. split; [exact H1 | exact H2].
Defined.

(** ** [send_now] on site *)

Lemma prelude_ok context label acs nts nt :
  objects_get MNoticeType (fun t => bool_decide (nt_label t = label)) nts = inr nt ->
  context_unique context acs ->
  is_ok (prelude context label acs nts) = true.
Proof.
  intros Hnt Hc. unfold prelude. rewrite Hnt.
  destruct context as [c|]; [|reflexivity].
  specialize (Hc c eq_refl). unfold get_or_create, objects_get.
  unfold activity_filter in Hc.
  destruct (List.filter _ acs) as [|x [|y l]]; try reflexivity.
  simpl in Hc. lia.
Qed.

Section dispatch.
Context (settings : Settings) (ext : Collaborators).

(** Property X6. With [on_site=True], a label registered once, at most one
    activity context for the context object, a unique settings table and a
    language lookup that succeeds for every recipient, [send_now] returns
    and appends one notice per recipient, in the order of the recipients,
    each unseen, not archived, of the notice type and on site; the settings
    table stays unique. *)
Theorem send_now_one_notice_per_recipient (users0 : list User) (label : string)
    (extra_context : option nat) (context : option Entity) (nt : NoticeType)
    (w : World) :
  objects_get MNoticeType (fun t => bool_decide (nt_label t = label)) (notice_types w)
  = inr nt ->
  context_unique context (activity_contexts w) ->
  settings_unique (notice_settings w) ->
  Forall (fun u => is_ok (lang_lookup (language_store w) u) = true) users0 ->
  exists w' news,
    send_now settings ext users0 label extra_context true context w = (w', inr tt)
    /\ notices w' = (notices w ++ news)%list
    /\ map n_user news = map u_id users0
    /\ Forall (fun n => n_unseen n = true /\ n_archived n = false
                        /\ n_notice_type n = nt_id nt /\ n_on_site n = true) news
    /\ settings_unique (notice_settings w').
Proof.
  intros Hnt Hc Hu Hl.
  destruct (send_now_on_site_creates_notices settings ext users0 label extra_context
              context w (prelude_ok _ _ _ _ _ Hnt Hc) Hu Hl)
    as (w' & news & nt' & Hrun & Hnt' & Hn & Hus & Hf & Hu' & _).
  rewrite Hnt in Hnt'. injection Hnt' as <-.
  exists w', news. split_and!; assumption.
Qed.

(** Property X7. Under the same conditions, [unseen_count_for] of a user
    after [send_now] is the count before plus the number of times the user
    occurs among the recipients. *)
Theorem send_now_adds_to_the_unseen_count (users0 : list User) (label : string)
    (extra_context : option nat) (context : option Entity) (nt : NoticeType)
    (user : User) (w : World) :
  objects_get MNoticeType (fun t => bool_decide (nt_label t = label)) (notice_types w)
  = inr nt ->
  context_unique context (activity_contexts w) ->
  settings_unique (notice_settings w) ->
  Forall (fun u => is_ok (lang_lookup (language_store w) u) = true) users0 ->
  forall k,
    snd (unseen_count_for user false None None w) = inr k ->
    snd (unseen_count_for user false None None
           (fst (send_now settings ext users0 label extra_context true context w)))
    = inr (k + length (List.filter (fun u => bool_decide (u_id u = u_id user)) users0))%nat.
Proof.
  intros Hnt Hc Hu Hl k Hk.
  destruct (send_now_on_site_creates_notices settings ext users0 label extra_context
              context w (prelude_ok _ _ _ _ _ Hnt Hc) Hu Hl)
    as (w' & news & nt' & Hrun & _ & Hn & Hus & Hf & _).
  rewrite Hrun. simpl fst. rewrite unseen_count_for_filter in *. simpl in *.
  injection Hk as <-. f_equal.
  rewrite Hn, List.filter_app, length_app. f_equal.
  clear -Hus Hf. revert users0 Hus.
  induction news as [|n news IH]; intros [|u users0] Hus; try discriminate;
    [reflexivity|].
  simpl in Hus. injection Hus as Hn Hus.
  apply Forall_cons in Hf as [(Hs & Ha & _) Hf]. simpl.
  unfold notice_filter at 1. rewrite Hn, Hs, Ha. simpl. rewrite ?andb_true_r.
  destruct (bool_decide (u_id u = u_id user)); simpl; now rewrite (IH Hf users0 Hus).
Qed.
End dispatch.

(** A welcome to Alice and Bob about a project: one notice each. *)
Lemma send_now_one_notice_per_recipient_witness :
  exists w' news,
    send_now Example.settings Example.ext [Example.alice; Example.bob] "welcome" None
      true (Some Example.project) Example.world = (w', inr tt)
    /\ notices w' = news /\ map n_user news = [1; 2].
Proof.
  destruct (send_now_one_notice_per_recipient Example.settings Example.ext
              [Example.alice; Example.bob] "welcome" None (Some Example.project)
              Example.welcome Example.world eq_refl)
    as (w' & news & H1 & H2 & H3 & _).
  - intros c _. simpl. lia.
  - intros ? ? ?. simpl. lia.
  - repeat constructor.
  - exists w', news. split; [exact H1|]. split; [exact H2 | exact H3].
Defined.

(** Alice is named twice among three recipients: two unseen notices. *)
Lemma send_now_adds_to_the_unseen_count_witness :
  snd (unseen_count_for Example.alice false None None
         (fst (send_now Example.settings Example.ext
                 [Example.alice; Example.bob; Example.alice] "welcome" None true None
                 Example.world)))
  = inr 2%nat.
Proof.
  refine (send_now_adds_to_the_unseen_count Example.settings Example.ext
            [Example.alice; Example.bob; Example.alice] "welcome" None None
            Example.welcome Example.alice Example.world eq_refl _ _ _ 0%nat eq_refl).
  - intros c H. discriminate.
  - intros ? ? ?. simpl. lia.
  - repeat constructor.
Defined.

(** ** [send_now] and [queue] with any label *)

Section unknown.
Context (settings : Settings) (ext : Collaborators).

(** Property X8. [send_now] with a label that no notice type has fails
    for every list of recipients, the empty one too: the exception is
    [NoticeType.DoesNotExist] when the context object has at most one
    activity context, and no notice, no setting and no outgoing message is
    produced and the active language is not changed. *)
Theorem send_now_unknown_label (users0 : list User) (label : string)
    (extra_context : option nat) (on_site : bool) (context : option Entity)
    (w : World) :
  List.filter (fun t => bool_decide (nt_label t = label)) (notice_types w) = [] ->
  let out := send_now settings ext users0 label extra_context on_site context w in
  is_ok (snd out) = false
  /\ (context_unique context (activity_contexts w) ->
      snd out = inl (DoesNotExist MNoticeType))
  /\ notices (fst out) = notices w
  /\ notice_settings (fst out) = notice_settings w
  /\ trace (fst out) = trace w
  /\ language (fst out) = language w.
Proof.
  intros Hnone out. subst out. unfold send_now.
  set (alloc := match extra_context with None => new_dict ∅ | Some l => ret l end).
  assert (Halloc : exists wa l, alloc w = (wa, inr l)
                                /\ db_of wa = db_of w /\ trace wa = trace w).
  { destruct extra_context; eexists; eexists; split_and!; reflexivity. }
  destruct Halloc as (wa & l & Ha & Hdb & Ht).
  rewrite (bind_run _ _ _ _ _ Ha). clear Ha alloc.
  unfold db_of in Hdb. injection Hdb as H1 H2 H3 H4 H5 H6 H7 H8 H9 H10.
  set (getctx := match context with
                 | Some c =>
                     let* a := ActivityContext_objects_get_or_create
                                 (e_content_type c) (e_pk c) in
                     ret (Some a)
                 | None => ret None
                 end).
  assert (Hctx : (exists e, getctx wa = (wa, inl e)
                            /\ ~ context_unique context (activity_contexts w))
                 \/ (exists a acs', getctx wa = (set_activity_contexts acs' wa, inr a))).
  { subst getctx. destruct context as [c|].
    - unfold bind. rewrite get_or_create_run.
      destruct (get_or_create _ _ _) as [e|[a acs']] eqn:E.
      + left. exists e. split; [reflexivity|]. intros Hc.
        specialize (Hc c eq_refl). unfold get_or_create, objects_get in E.
        unfold activity_filter in Hc. rewrite <- H6 in Hc.
        destruct (List.filter _ (activity_contexts wa)) as [|x [|y l0]];
          try discriminate. simpl in Hc. lia.
      + right. eauto.
    - right. exists None, (activity_contexts wa). now destruct wa. }
  destruct Hctx as [(e & Hctx & Hnot)|(a & acs' & Hctx)].
  - rewrite (bind_fail _ _ _ _ _ Hctx). simpl.
    split_and!; try assumption; try reflexivity. intros Hc. contradiction.
  - rewrite (bind_run _ _ _ _ _ Hctx).
    erewrite bind_fail.
    2:{ unfold NoticeType_objects_get_label, bind, get_world, lift. simpl.
        rewrite H3, (objects_get_none _ _ _ Hnone). reflexivity. }
    simpl. split_and!; try assumption; reflexivity.
Qed.
End unknown.

(** No notice type is labelled goodbye. *)
Lemma send_now_unknown_label_witness :
  snd (send_now Example.settings Example.ext [] "goodbye" None true None Example.world)
  = inl (DoesNotExist MNoticeType).
Proof.
  refine (proj1 (proj2 (send_now_unknown_label Example.settings Example.ext []
                          "goodbye" None true None Example.world eq_refl)) _).
  intros c H. discriminate.
Defined.

(** Property X9. [queue] never raises, whatever the label and the
    recipients: it appends exactly one batch, holding one request per
    recipient (by primary key, in order) with the label, the flags and the
    content that [extra_context] has at the time of the call; no other table
    changes and nothing is sent. The label is not looked up. *)
Theorem queue_only_stores_a_batch (users0 : list User) (label : string)
    (extra_context : option nat) (on_site : bool) (context : option Entity)
    (w : World) :
  exists w' b,
    queue users0 label extra_context on_site context w = (w', inr tt)
    /\ queue_batches w' = (queue_batches w ++ [b])%list
    /\ map qn_user (qb_pickled_data b) = map u_id users0
    /\ Forall (fun r => qn_label r = label /\ qn_on_site r = on_site
                        /\ qn_context r = context
                        /\ qn_extra_context r
                           = match extra_context with
                             | Some l => dict_at l w
                             | None => ∅
                             end) (qb_pickled_data b)
    /\ db_of w' = db_of (set_queue_batches (queue_batches w') w)
    /\ trace w' = trace w.
Proof.
  unfold queue.
  destruct extra_context as [l|].
  - eexists. eexists. split; [reflexivity|]. simpl.
    split_and!; try reflexivity.
    + cbn. induction users0 as [|u us IH]; simpl; [reflexivity | now f_equal].
    + apply List.Forall_forall. intros r Hr. apply in_map_iff in Hr as (u & <- & _).
      simpl. repeat split.
  - eexists. eexists. split; [reflexivity|]. simpl.
    split_and!; try reflexivity.
    + cbn. induction users0 as [|u us IH]; simpl; [reflexivity | now f_equal].
    + apply List.Forall_forall. intros r Hr. apply in_map_iff in Hr as (u & <- & _).
      simpl. repeat split.
      rewrite lookup_app_r by reflexivity. now rewrite Nat.sub_diag.
Qed.

(** ** [create_notice_type] and the other notice types *)

Lemma next_pk_not_in (ids : list Z) : ~ In (next_pk ids) ids.
Proof.
  intros H. pose proof (next_pk_above ids) as Ha.
  rewrite List.Forall_forall in Ha. specialize (Ha _ H). lia.
Qed.

Lemma filter_replace_other {A} (pk : A -> Z) (p : A -> bool) (old new : A) (rows : list A) :
  List.NoDup (map pk rows) -> In old rows -> pk new = pk old ->
  p old = false -> p new = false ->
  List.filter p (map (fun r => if bool_decide (pk r = pk new) then new else r) rows)
  = List.filter p rows.
Proof.
  intros Hnd Hin Hpk Hold Hnew.
  induction rows as [|r rows IH]; [reflexivity|].
  simpl in Hnd. apply List.NoDup_cons_iff in Hnd as [Hnotin Hnd]. simpl.
  case_bool_decide as E.
  - assert (r = old) as ->.
    { destruct Hin as [|Hin]; [assumption|]. exfalso. apply Hnotin.
      rewrite E, Hpk. now apply in_map. }
    rewrite Hold, Hnew. rewrite <- Hpk in Hnotin.
    now rewrite (map_replace_absent pk new rows Hnotin).
  - destruct Hin as [->|Hin]; [congruence|].
    destruct (p r); simpl; now rewrite (IH Hnd Hin).
Qed.

(** Property X10. [create_notice_type] keeps the primary keys of the
    notice types unique and leaves the notice types of every other label as
    they were; when more than one notice type has the label already, it
    raises [MultipleObjectsReturned] and changes nothing. *)
Theorem create_notice_type_leaves_the_others (label display description : string)
    (default verbosity : Z) (w : World) :
  List.NoDup (map nt_id (notice_types w)) ->
  let w' := fst (create_notice_type label display description default verbosity w) in
  List.NoDup (map nt_id (notice_types w'))
  /\ (forall other, other <> label ->
        List.filter (fun t => bool_decide (nt_label t = other)) (notice_types w')
        = List.filter (fun t => bool_decide (nt_label t = other)) (notice_types w))
  /\ ((1 < length (List.filter (fun t => bool_decide (nt_label t = label))
                     (notice_types w)))%nat ->
      create_notice_type label display description default verbosity w
      = (w, inl (MultipleObjectsReturned MNoticeType))).
Proof.
  intros Hnd w'. subst w'.
  destruct (List.filter (fun t => bool_decide (nt_label t = label)) (notice_types w))
    as [|t0 [|t1 l]] eqn:Hf.
  - (* created *)
    assert (E : notice_types
                  (fst (create_notice_type label display description default verbosity w))
                = (notice_types w ++
                   [{| nt_id := next_pk (map nt_id (notice_types w)); nt_label := label;
                       nt_display := display; nt_description := description;
                       nt_default := default |}])%list).
    { unfold create_notice_type, try_except, NoticeType_objects_get_label, bind,
        get_world, lift. rewrite (objects_get_none _ _ _ Hf).
      unfold print_if. now destruct (1 <? verbosity). }
    rewrite E. split_and!.
    + rewrite map_app. simpl. apply List.NoDup_app; [assumption| |].
      * constructor; [intros [] | constructor].
      * intros x Hx [<-|[]]. now apply next_pk_not_in in Hx.
    + intros other Hne. rewrite List.filter_app. simpl.
      rewrite bool_decide_eq_false_2 by congruence. now rewrite app_nil_r.
    + simpl. lia.
  - (* brought up to date *)
    set (new := {| nt_id := nt_id t0; nt_label := label; nt_display := display;
                   nt_description := description; nt_default := default |}).
    assert (Hin : In t0 (notice_types w)).
    { eapply (proj1 (filter_In _ t0 (notice_types w))). rewrite Hf. now left. }
    assert (Hl0 : nt_label t0 = label).
    { apply filter_one_In in Hf. now apply bool_decide_eq_true in Hf. }
    assert (E : notice_types
                  (fst (create_notice_type label display description default verbosity w))
                = notice_types w
                  \/ notice_types
                       (fst (create_notice_type label display description default
                               verbosity w))
                     = map (fun r => if bool_decide (nt_id r = nt_id new) then new else r)
                         (notice_types w)).
    { unfold create_notice_type, try_except, NoticeType_objects_get_label, bind,
        get_world, lift. rewrite (objects_get_one _ _ _ _ Hf).
      destruct (has_fields display description default t0) eqn:Hhas.
      - left. unfold has_fields in Hhas.
        apply andb_true_iff in Hhas as [Hhas H3]. apply andb_true_iff in Hhas as [H1 H2].
        apply bool_decide_eq_true in H1, H2, H3.
        rewrite !bool_decide_eq_false_2 by (intros E; now apply E). reflexivity.
      - right. rewrite <- (save_row_present nt_id new t0) by (assumption || reflexivity).
        unfold has_fields in Hhas. unfold new. rewrite <- Hl0.
        destruct t0 as [i l d1 d2 d3]; simpl in *.
        unfold NoticeType_save, print_if, emit, modify.
        destruct (1 <? verbosity);
          repeat case_bool_decide; subst; simpl in *;
          try discriminate; try congruence; reflexivity. }
    destruct E as [E|E]; rewrite E.
    + split_and!; [assumption | reflexivity | simpl; lia].
    + split_and!.
      * rewrite map_map.
        rewrite (map_ext _ nt_id); [assumption|].
        intros r. now case_bool_decide.
      * intros other Hne.
        apply (filter_replace_other nt_id) with (old := t0) (new := new);
          try assumption; try reflexivity.
        -- rewrite Hl0. now apply bool_decide_eq_false_2.
        -- simpl. now apply bool_decide_eq_false_2.
      * simpl. lia.
  - (* the label is not a key any more *)
    assert (E : create_notice_type label display description default verbosity w
                = (w, inl (MultipleObjectsReturned MNoticeType))).
    { unfold create_notice_type, try_except, NoticeType_objects_get_label, bind,
        get_world, lift, objects_get. now rewrite Hf. }
    rewrite E. simpl. split_and!; [assumption | reflexivity | reflexivity].
Qed.

(** Bringing welcome up to date leaves invite alone. *)
Lemma create_notice_type_leaves_the_others_witness :
  List.filter (fun t => bool_decide (nt_label t = "invite"))
    (notice_types (fst (create_notice_type "welcome" "Hello" "Sent on sign-up" 2 1
                          Example.world)))
  = [Example.invite].
Proof.
  refine (proj1 (proj2 (create_notice_type_leaves_the_others "welcome" "Hello"
                          "Sent on sign-up" 2 1 Example.world _)) "invite" _).
  - simpl. repeat constructor; simpl; intuition discriminate.
  - discriminate.
Defined.

(** ** Subscriptions *)

Lemma observe_run observed observer label signal w nt :
  List.filter (fun t => bool_decide (nt_label t = label)) (notice_types w) = [nt] ->
  observe observed observer label signal w
  = (set_observed_items
       (observed_items w ++
          [{| oi_id := next_pk (map oi_id (observed_items w));
              oi_user := u_id observer;
              oi_content_type := e_content_type observed;
              oi_object_id := e_pk observed;
              oi_notice_type := nt_id nt;
              oi_added := now w;
              oi_signal := signal |}]) w,
     inr {| oi_id := next_pk (map oi_id (observed_items w));
            oi_user := u_id observer;
            oi_content_type := e_content_type observed;
            oi_object_id := e_pk observed;
            oi_notice_type := nt_id nt;
            oi_added := now w;
            oi_signal := signal |}).
Proof.
  intros H. unfold observe, NoticeType_objects_get_label, bind, get_world, lift.
  now rewrite (objects_get_one _ _ _ _ H).
Qed.

Lemma observer_filter_new observed observer signal i :
  oi_user i = u_id observer -> oi_content_type i = e_content_type observed ->
  oi_object_id i = e_pk observed -> oi_signal i = signal ->
  observer_filter observed observer signal i = true.
Proof.
  intros H1 H2 H3 H4. unfold observer_filter, observed_filter.
  now rewrite !bool_decide_eq_true_2.
Qed.

(** Property X11. [observe] does not look for an existing subscription:
    called twice with the same arguments (for a label registered once) it
    stores two observed items with different keys. After that [is_observing]
    answers [True], while [stop_observing] raises [MultipleObjectsReturned]
    and removes neither. *)
Theorem observe_twice_blocks_stop_observing (observed : Entity) (observer : User)
    (label signal : string) (w : World) (nt : NoticeType) :
  List.filter (fun t => bool_decide (nt_label t = label)) (notice_types w) = [nt] ->
  exists w1 i1 w2 i2,
    observe observed observer label signal w = (w1, inr i1)
    /\ observe observed observer label signal w1 = (w2, inr i2)
    /\ oi_id i1 <> oi_id i2
    /\ observed_items w2 = (observed_items w ++ [i1; i2])%list
    /\ is_observing observed (AuthUser observer) signal w2 = (w2, inr true)
    /\ stop_observing observed observer signal w2
       = (w2, inl (MultipleObjectsReturned MObservedItem)).
Proof.
  intros H.
  pose (mk := fun w0 : World =>
          {| oi_id := next_pk (map oi_id (observed_items w0));
             oi_user := u_id observer;
             oi_content_type := e_content_type observed;
             oi_object_id := e_pk observed;
             oi_notice_type := nt_id nt;
             oi_added := now w0;
             oi_signal := signal |}).
  pose (i1 := mk w).
  pose (w1 := set_observed_items (observed_items w ++ [i1]) w).
  pose (i2 := mk w1).
  exists w1, i1, (set_observed_items (observed_items w1 ++ [i2]) w1), i2.
  split; [apply (observe_run _ _ _ _ _ _ H)|].
  split; [apply observe_run; exact H|].
  assert (Hne : oi_id i1 <> oi_id i2).
  { assert (Hlt : oi_id i1 < oi_id i2); [|lia].
    change (oi_id i2) with (next_pk (map oi_id (observed_items w ++ [i1]))).
    pose proof (next_pk_above (map oi_id (observed_items w ++ [i1]))) as Ha.
    rewrite List.Forall_forall in Ha. apply Ha.
    apply in_map. apply in_app_iff. right. now left. }
  assert (Hitems : observed_items (set_observed_items (observed_items w1 ++ [i2]) w1)
                   = (observed_items w ++ [i1; i2])%list).
  { subst w1. simpl. now rewrite <- app_assoc. }
  assert (Hmany : exists a b l,
             List.filter (observer_filter observed observer signal)
               (observed_items (set_observed_items (observed_items w1 ++ [i2]) w1))
             = a :: b :: l).
  { rewrite Hitems. rewrite List.filter_app. simpl.
    rewrite !observer_filter_new by reflexivity.
    destruct (List.filter _ (observed_items w)) as [|a [|b l]]; simpl; eauto. }
  destruct Hmany as (a & b & l & Hmany).
  split; [exact Hne|]. split; [exact Hitems|]. split.
  - unfold is_observing, try_except, get_for, bind, get_world, lift, objects_get.
    now rewrite Hmany.
  - unfold stop_observing, get_for, bind, get_world, lift, objects_get.
    now rewrite Hmany.
Qed.

(** Bob observing the project twice. *)
Lemma observe_twice_blocks_stop_observing_witness :
  exists w2,
    stop_observing Example.project Example.bob "post_save" w2
    = (w2, inl (MultipleObjectsReturned MObservedItem)).
Proof.
  destruct (observe_twice_blocks_stop_observing Example.project Example.bob "welcome"
              "post_save" Example.world Example.welcome eq_refl)
    as (w1 & i1 & w2 & i2 & _ & _ & _ & _ & _ & H).
  exists w2. exact H.
Defined.

Lemma filter_delete_row_one {A} (pk : A -> Z) (p : A -> bool) (i : A) (rows : list A) :
  List.NoDup (map pk rows) -> List.filter p rows = [i] ->
  delete_row pk i rows = List.filter (fun r => negb (p r)) rows.
Proof.
  intros Hnd Hf. unfold delete_row.
  assert (Hi : In i rows /\ p i = true).
  { apply filter_In. rewrite Hf. now left. }
  destruct Hi as [Hin Hpi].
  apply List.filter_ext_in. intros r Hr.
  case_bool_decide as E.
  - assert (r = i) as -> by (eapply (nodup_pk_eq pk); eassumption).
    now rewrite Hpi.
  - destruct (p r) eqn:Hpr; [|reflexivity].
    exfalso. apply E. f_equal.
    assert (Hin' : In r (List.filter p rows)) by (apply filter_In; now split).
    rewrite Hf in Hin'. destruct Hin' as [<-|[]]. reflexivity.
Qed.

(** Property X12. When the observer has exactly one subscription to the
    object and signal (keys unique), [stop_observing] returns, removes that
    row and no other, [is_observing] of the observer answers [False]
    afterwards, and the subscriptions of every other user to the object are
    the same as before. *)
Theorem stop_observing_removes_only_that_subscription (observed : Entity)
    (observer : User) (signal : string) (w : World) (i : ObservedItem) :
  List.NoDup (map oi_id (observed_items w)) ->
  List.filter (observer_filter observed observer signal) (observed_items w) = [i] ->
  exists w',
    stop_observing observed observer signal w = (w', inr tt)
    /\ w' = set_observed_items (observed_items w') w
    /\ observed_items w'
       = List.filter (fun r => negb (observer_filter observed observer signal r))
           (observed_items w)
    /\ is_observing observed (AuthUser observer) signal w' = (w', inr false)
    /\ (forall other : User, u_id other <> u_id observer ->
          List.filter (observer_filter observed other signal) (observed_items w')
          = List.filter (observer_filter observed other signal) (observed_items w)).
Proof.
  intros Hnd Hf.
  eexists. split.
  { unfold stop_observing, get_for, bind, get_world, lift, modify.
    rewrite (objects_get_one _ _ _ _ Hf). reflexivity. }
  rewrite (filter_delete_row_one oi_id _ i _ Hnd Hf).
  split; [reflexivity|]. split; [reflexivity|]. split.
  - unfold is_observing, try_except, get_for, bind, get_world, lift. simpl.
    rewrite objects_get_none; [reflexivity|].
    rewrite filter_filter_and. clear Hnd Hf.
    induction (observed_items w) as [|r rows IH]; [reflexivity|]. simpl.
    destruct (observer_filter observed observer signal r); simpl; apply IH.
  - intros other Hother. simpl. rewrite filter_filter_and.
    apply List.filter_ext. intros r.
    destruct (observer_filter observed other signal r) eqn:Hq;
      [|now rewrite andb_false_r].
    rewrite andb_true_r. unfold observer_filter in *.
    apply andb_true_iff in Hq as [_ Hq]. apply bool_decide_eq_true in Hq.
    rewrite (bool_decide_eq_false_2 (oi_user r = u_id observer)) by congruence.
    now rewrite andb_false_r.
Qed.

(** Bob subscribes and unsubscribes: the table is as at the start. *)
Lemma stop_observing_removes_only_that_subscription_witness :
  exists w', stop_observing Example.project Example.bob "post_save"
               (fst (observe Example.project Example.bob "welcome" "post_save"
                       Example.world))
             = (w', inr tt)
             /\ observed_items w' = observed_items Example.world.
Proof.
  destruct (stop_observing_removes_only_that_subscription Example.project Example.bob
              "post_save"
              (fst (observe Example.project Example.bob "welcome" "post_save"
                      Example.world))
              {| oi_id := next_pk (map oi_id (observed_items Example.world));
                 oi_user := 2; oi_content_type := "projects.project";
                 oi_object_id := 42; oi_notice_type := 1;
                 oi_added := now Example.world; oi_signal := "post_save" |})
    as (w' & H & _ & Hitems & _).
  - vm_compute. repeat constructor; simpl; intuition discriminate.
  - vm_compute. reflexivity.
  - exists w'. split; [exact H|]. rewrite Hitems. vm_compute. reflexivity.
Defined.

(** ** [all_for] *)

Lemma insert_by_added_perm x l : Permutation (insert_by_added x l) (x :: l).
Proof.
  induction l as [|y l IH]; simpl; [reflexivity|].
  destruct (oi_added y <? oi_added x); [reflexivity|].
  rewrite IH. apply perm_swap.
Qed.

Lemma order_by_added_desc_perm l : Permutation (order_by_added_desc l) l.
Proof.
  induction l as [|x l IH]; simpl; [reflexivity|].
  unfold order_by_added_desc in *. simpl.
  rewrite insert_by_added_perm. now constructor.
Qed.

Lemma insert_by_added_sorted x l :
  Sorted added_first l -> Sorted added_first (insert_by_added x l).
Proof.
  induction l as [|y l IH]; intros Hs; simpl.
  - repeat constructor.
  - destruct (oi_added y <? oi_added x) eqn:E.
    + apply Z.ltb_lt in E. constructor; [assumption|].
      constructor. unfold added_first. lia.
    + apply Z.ltb_ge in E. inversion Hs as [|? ? Hs' Hhd]; subst.
      constructor; [now apply IH|].
      destruct l as [|z l]; simpl.
      * constructor. unfold added_first. lia.
      * destruct (oi_added z <? oi_added x).
        -- constructor. unfold added_first. lia.
        -- inversion Hhd; subst. now constructor.
Qed.

(** Property X13. [ObservedItem.objects.all_for] never raises and leaves
    the state alone; its result is ordered newest first and holds exactly
    the observed items of the object and signal, of every observer. *)
Theorem all_for_sorted_filter (observed : Entity) (signal : string) (w : World) :
  exists l,
    all_for observed signal w = (w, inr l)
    /\ Sorted added_first l
    /\ Permutation l (List.filter (observed_filter observed signal) (observed_items w))
    /\ (forall i, In i l <->
          In i (observed_items w)
          /\ oi_content_type i = e_content_type observed
          /\ oi_object_id i = e_pk observed
          /\ oi_signal i = signal).
Proof.
  eexists. split; [reflexivity|]. split; [|split].
  - unfold order_by_added_desc.
    induction (List.filter _ _) as [|x l IH]; simpl; [constructor|].
    now apply insert_by_added_sorted.
  - apply order_by_added_desc_perm.
  - intros i. split.
    + intros Hin. apply (Permutation_in _ (order_by_added_desc_perm _)) in Hin.
      apply filter_In in Hin as [Hin Hp]. unfold observed_filter in Hp.
      apply andb_true_iff in Hp as [Hp H3]. apply andb_true_iff in Hp as [H1 H2].
      apply bool_decide_eq_true in H1, H2, H3. tauto.
    + intros (Hin & H1 & H2 & H3).
      apply (Permutation_in _ (Permutation_sym (order_by_added_desc_perm _))).
      apply filter_In. split; [assumption|]. unfold observed_filter.
      now rewrite !bool_decide_eq_true_2.
Qed.

(** ** The wall post of [send_to_facebook] *)

Section wall.
Context (settings : Settings).

Lemma contains_prefix (needle rest : string) :
  needle <> "" -> contains needle (needle ++ rest) = true.
Proof.
  intros Hne. unfold contains.
  destruct (index 0 needle (needle ++ rest)) eqn:E; [reflexivity|].
  exfalso.
  destruct needle as [|a needle]; [congruence|].
  simpl in E.
  assert (Hp : forall s r : string, String.prefix s (s ++ r) = true).
  { induction s as [|c s IH]; intros r; simpl; [now destruct r|].
    destruct (Ascii.ascii_dec c c); [apply IH | congruence]. }
  destruct (Ascii.ascii_dec a a); [|congruence].
  rewrite Hp in E. discriminate.
Qed.

(** Property X14. The body of [send_to_facebook] makes at most one wall
    post and nothing else that leaves the process. When it posts, the token
    is the non-empty profile attribute [FACEBOOK_ATTR]; the message is
    always empty, since the key [message] is not among the facebook
    attributes and is removed first; the attachment is the dict as the call
    leaves it, holds facebook attributes only, its link contains [http://],
    and its other attributes are the caller's. *)
Theorem send_to_facebook_body_wall_post (user : User) (l : nat) (w : World) :
  let w' := fst (send_to_facebook_body settings user l w) in
  trace w' = trace w
  \/ exists token link,
       trace w' = (trace w ++ [PutWallPost token "" (dict_at l w')])%list
       /\ token <> ""
       /\ (exists profile, u_profile user = Some profile
                           /\ In (FACEBOOK_ATTR settings, token) profile)
       /\ (forall k, is_Some (dict_at l w' !! k) -> In k facebook_attrs)
       /\ dict_at l w' !! "link" = Some (VStr link)
       /\ contains "http://" link = true
       /\ (forall k, In k facebook_attrs -> k <> "link" ->
             dict_at l w' !! k = dict_at l w !! k).
Proof.
  intros w'. subst w'.
  unfold send_to_facebook_body.
  erewrite bind_run by reflexivity.
  set (d0 := default ∅ (heap w !! l)).
  set (d1 := filter (fun kv => kv.1 ∈ facebook_attrs) d0).
  set (w1 := set_heap (<[l := d1]> (heap w)) w).
  assert (Hw1 : write_dict l d1 w = (w1, inr tt)) by reflexivity.
  rewrite (bind_run _ _ _ _ _ Hw1).
  destruct (decide (l < length (heap w))%nat) as [Hl|Hl].
  2:{ (* no such dict: nothing to post *)
    left.
    assert (Hd0 : d0 = ∅).
    { subst d0. now rewrite (lookup_ge_None_2 (heap w) l) by lia. }
    assert (Hd1 : d1 = ∅) by (subst d1; rewrite Hd0; apply map_filter_empty).
    assert (Hh : forall d (x : World), heap x = heap w ->
                   heap (set_heap (<[l := d]> (heap x)) x) = heap w).
    { intros d x Hx. simpl. rewrite Hx. apply list_insert_ge. lia. }
    assert (Hr : forall x : World, heap x = heap w -> read_dict l x = (x, inr ∅)).
    { intros x Hx. unfold read_dict. rewrite Hx.
      now rewrite (lookup_ge_None_2 (heap w) l) by lia. }
    assert (H1 : heap w1 = heap w) by (apply Hh; reflexivity).
    rewrite (bind_run _ _ _ _ _ (Hr w1 H1)).
    rewrite lookup_empty. erewrite bind_run by reflexivity.
    change (contains "http://" "") with false. simpl negb.
    erewrite bind_run by reflexivity.
    set (w2 := set_heap _ w1).
    assert (H2 : heap w2 = heap w) by (apply Hh; exact H1).
    destruct (u_profile user) as [profile|]; [|reflexivity].
    erewrite bind_run by reflexivity.
    rewrite (bind_run _ _ _ _ _ (Hr w2 H2)).
    destruct (option_map _ _) as [token|]; [|reflexivity].
    rewrite bool_decide_eq_true_2 by reflexivity. reflexivity. }
  assert (Hd1 : dict_at l w1 = d1) by now apply dict_at_write.
  assert (Hr1 : read_dict l w1 = (w1, inr d1)).
  { unfold read_dict. fold (dict_at l w1). now rewrite Hd1. }
  rewrite (bind_run _ _ _ _ _ Hr1).
  assert (Hattrs : forall k, is_Some (d1 !! k) -> In k facebook_attrs).
  { intros k [v Hv]. apply map_lookup_filter_Some in Hv as [_ Hv].
    now apply list_elem_of_In in Hv. }
  assert (Hsame : forall k, In k facebook_attrs -> d1 !! k = dict_at l w !! k).
  { intros k Hk. fold d0. unfold dict_at. fold d0.
    destruct (d0 !! k) as [v|] eqn:E.
    - apply map_lookup_filter_Some. split; [assumption|]. now apply list_elem_of_In.
    - apply map_lookup_filter_None. now left. }
  assert (Hlink : (exists link,
                      match d1 !! "link" with
                      | None => ret ""
                      | Some (VStr s) => ret s
                      | Some _ => raise TypeError
                      end w1 = (w1, inr link)
                      /\ (d1 !! "link" = Some (VStr link) \/ link = ""))
                  \/ match d1 !! "link" with
                     | None => ret ""
                     | Some (VStr s) => ret s
                     | Some _ => raise TypeError
                     end w1 = (w1, inl TypeError)).
  { destruct (d1 !! "link") as [[]|]; eauto. }
  destruct Hlink as [(link & Hlink & Hwas)|Hlink].
  2:{ rewrite (bind_fail _ _ _ _ _ Hlink). now left. }
  rewrite (bind_run _ _ _ _ _ Hlink).
  set (v := VStr _).
  assert (Hw2 : exists w2 link2,
             (if negb (contains "http://" link)
              then write_dict l (<["link" := v]> d1)
              else ret tt) w1 = (w2, inr tt)
             /\ trace w2 = trace w
             /\ (l < length (heap w2))%nat
             /\ dict_at l w2 !! "link" = Some (VStr link2)
             /\ contains "http://" link2 = true
             /\ (forall k, k <> "link" -> dict_at l w2 !! k = d1 !! k)).
  { destruct (contains "http://" link) eqn:Ec; simpl negb; cbv iota.
    - exists w1, link. split; [reflexivity|]. split; [reflexivity|].
      split; [subst w1; simpl; now rewrite length_insert|].
      rewrite Hd1. split; [|split; [assumption | reflexivity]].
      destruct Hwas as [Hwas| ->]; [assumption | discriminate].
    - eexists. eexists. split; [reflexivity|]. split; [reflexivity|].
      assert (Hl1 : (l < length (heap w1))%nat)
        by (subst w1; simpl; now rewrite length_insert).
      split; [simpl; now rewrite length_insert|].
      rewrite dict_at_write by assumption.
      split; [subst v; apply lookup_insert_eq|].
      split; [now apply contains_prefix|].
      intros k Hk. now apply lookup_insert_ne. }
  destruct Hw2 as (w2 & link2 & Hw2 & Ht2 & Hl2 & Hlk & Hc & Hrest).
  rewrite (bind_run _ _ _ _ _ Hw2).
  destruct (u_profile user) as [profile|] eqn:Hprofile; [|now left].
  erewrite bind_run by reflexivity.
  erewrite bind_run by reflexivity.
  fold (dict_at l w2).
  destruct (find _ profile) as [a|] eqn:Hfind; cbn [option_map]; [|now left].
  apply find_some in Hfind as [Hin Hkey]. apply bool_decide_eq_true in Hkey.
  destruct (negb (bool_decide (dict_at l w2 = ∅))); cbn [andb]; [|now left].
  case_bool_decide as Htok; simpl negb; cbv iota; [now left|].
  right. exists a.2, link2.
  assert (Hmsg : dict_at l w2 !! "message" = None).
  { rewrite Hrest by discriminate.
    destruct (d1 !! "message") eqn:E; [|reflexivity].
    exfalso. assert (Hin' : In "message" facebook_attrs) by (apply Hattrs; eauto).
    simpl in Hin'. intuition discriminate. }
  unfold emit, modify. simpl fst.
  assert (Hsame2 : dict_at l (set_trace (trace w2 ++
                      [PutWallPost a.2
                         match dict_at l w2 !! "message" with
                         | Some (VStr s) => s
                         | _ => ""
                         end (dict_at l w2)]) w2) = dict_at l w2) by reflexivity.
  rewrite Hsame2. rewrite Hmsg. simpl trace. rewrite Ht2.
  split; [reflexivity|]. split; [assumption|].
  split; [exists profile; split; [reflexivity|]; now rewrite <- Hkey, <- surjective_pairing|].
  split.
  { intros k Hk. destruct (decide (k = "link")) as [->|Hne].
    - simpl. tauto.
    - rewrite Hrest in Hk by assumption. now apply Hattrs. }
  split; [assumption|]. split; [assumption|].
  intros k Hk Hne. rewrite Hrest by assumption. now apply Hsame.
Qed.
End wall.

(** ** Rendering the formats *)

Section escaping.
Context (ext : Collaborators).

Lemma last_cons_default {A} (l : list A) (a b d d' : A) :
  List.last (b :: l) d = List.last (a :: b :: l) d'.
Proof.
  change (List.last (a :: b :: l) d') with (List.last (b :: l) d').
  revert b. induction l as [|x l IH]; intros b; [reflexivity|].
  change (List.last (x :: l) d = List.last (x :: l) d'). apply IH.
Qed.

Lemma get_formatted_messages_from_lookup (formats : list string) :
  forall (acc : gmap string string) (label : string) (c : TemplateContext) (w : World),
  exists m c',
    get_formatted_messages_from ext acc formats label c w = (w, inr (m, c'))
    /\ tc_dict c' = tc_dict c
    /\ tc_autoescape c'
       = List.last (map (fun f => negb (endswith f ".txt")) formats) (tc_autoescape c)
    /\ (forall f, In f formats ->
          m !! f = Some (rendered_format ext (language w) label f c))
    /\ (forall f, ~ In f formats -> m !! f = acc !! f).
Proof.
  induction formats as [|f formats IH]; intros acc label c w.
  - exists acc, c. simpl. split_and!; try reflexivity; tauto.
  - simpl get_formatted_messages_from. unfold bind, render_to_string.
    set (c0 := if endswith f ".txt" then set_autoescape false c else set_autoescape true c).
    assert (Hd : tc_dict c0 = tc_dict c) by (subst c0; now destruct (endswith f ".txt")).
    assert (Ha : tc_autoescape c0 = negb (endswith f ".txt"))
      by (subst c0; now destruct (endswith f ".txt")).
    set (s := render ext (language w) _ _).
    assert (Hs : s = rendered_format ext (language w) label f c).
    { subst s. unfold rendered_format. rewrite Hd, Ha.
      now rewrite (left_id_L ∅ (∪)). }
    destruct (IH (<[f := s]> acc) label c0 w) as (m & c' & E & Hc & Hauto & Hin & Hout).
    exists m, c'. split; [exact E|]. split; [congruence|]. split.
    + rewrite Hauto. simpl map. destruct formats as [|g formats]; [exact Ha|].
      simpl map. apply last_cons_default.
    + split.
      * intros g [<-|Hg].
        -- destruct (in_dec string_dec f formats) as [Hf|Hf].
           ++ rewrite (Hin f Hf). unfold rendered_format. now rewrite Hd.
           ++ rewrite (Hout f Hf). rewrite lookup_insert_eq. now rewrite Hs.
        -- rewrite (Hin g Hg). unfold rendered_format. now rewrite Hd.
      * intros g Hg. simpl in Hg. rewrite Hout by tauto. apply lookup_insert_ne. tauto.
Qed.

(** Property X15. [get_formatted_messages] never raises and changes no
    state; the dictionary has exactly the formats as keys, each rendered
    under the active language from its two template names with
    autoescaping off precisely for the formats that end in [.txt]. The
    caller's context keeps its variables, and is left with the autoescape
    flag of the last format. *)
Theorem get_formatted_messages_escaping (formats : list string) (label : string)
    (context : TemplateContext) (w : World) :
  exists messages context',
    get_formatted_messages ext formats label context w = (w, inr (messages, context'))
    /\ (forall format, In format formats ->
          messages !! format
          = Some (rendered_format ext (language w) label format context))
    /\ (forall format, ~ In format formats -> messages !! format = None)
    /\ tc_dict context' = tc_dict context
    /\ tc_autoescape context'
       = List.last (map (fun f => negb (endswith f ".txt")) formats) (tc_autoescape context).
Proof.
  destruct (get_formatted_messages_from_lookup formats ∅ label context w)
    as (m & c' & E & Hd & Ha & Hin & Hout).
  exists m, c'. split; [exact E|]. split; [exact Hin|].
  split; [|split; assumption].
  intros f Hf. rewrite (Hout f Hf). apply lookup_empty.
Qed.
End escaping.

(** ** The view [notices] *)

Lemma would_send_filter user t m rows rows' :
  List.filter (setting_filter user t m) rows' = List.filter (setting_filter user t m) rows ->
  would_send user t m rows' = would_send user t m rows.
Proof.
  intros H. unfold would_send, resolve, objects_get. rewrite H.
  destruct (List.filter _ rows) as [|x [|y l]]; simpl; try reflexivity.
  destruct (NOTICE_MEDIA_DEFAULTS !! m); reflexivity.
Qed.

Lemma setting_filter_same_key user t m u' t' m' (s : NoticeSetting) :
  setting_filter user t m s = true -> setting_filter u' t' m' s = true ->
  forall r, setting_filter u' t' m' r = setting_filter user t m r.
Proof.
  unfold setting_filter. intros H H' r.
  apply andb_true_iff in H as [H H3]. apply andb_true_iff in H as [H1 H2].
  apply andb_true_iff in H' as [H' H3']. apply andb_true_iff in H' as [H1' H2'].
  apply bool_decide_eq_true in H1, H2, H3, H1', H2', H3'.
  rewrite <- H1, <- H2, <- H3, <- H1', <- H2', <- H3'. reflexivity.
Qed.

Lemma setting_filter_other user t m u' t' m' (s : NoticeSetting) :
  setting_filter user t m s = true ->
  u_id u' <> u_id user \/ nt_id t' <> nt_id t \/ m' <> m ->
  setting_filter u' t' m' s = false.
Proof.
  unfold setting_filter. intros H Hne.
  apply andb_true_iff in H as [H H3]. apply andb_true_iff in H as [H1 H2].
  apply bool_decide_eq_true in H1, H2, H3.
  destruct Hne as [Hne|[Hne|Hne]].
  - rewrite (bool_decide_eq_false_2 (ns_user s = u_id u')) by congruence. reflexivity.
  - rewrite (bool_decide_eq_false_2 (ns_notice_type s = nt_id t')) by congruence.
    now rewrite andb_false_r.
  - rewrite (bool_decide_eq_false_2 (ns_medium s = m')) by congruence.
    now rewrite andb_false_r.
Qed.

(** The table after [get_notification_setting]. *)
Lemma resolve_frame user t m rows :
  settings_unique rows -> List.NoDup (map ns_id rows) ->
  is_Some (NOTICE_MEDIA_DEFAULTS !! m) ->
  exists s rows',
    resolve user t m rows = inr (s, rows')
    /\ settings_unique rows' /\ List.NoDup (map ns_id rows')
    /\ List.filter (setting_filter user t m) rows' = [s]
    /\ (forall u' t' m', setting_filter u' t' m' s = false ->
          List.filter (setting_filter u' t' m') rows'
          = List.filter (setting_filter u' t' m') rows).
Proof.
  intros Hu Hnd [sens Hs].
  pose proof (resolve_keeps_unique user t m rows Hu) as Hk.
  destruct (resolve_cases user t m rows)
    as [(s & Hf & E)|[[Hf E]|(x & y & l & Hf & E)]].
  - rewrite E in Hk. destruct Hk as (Hu' & _ & _ & Hf').
    exists s, rows. split_and!; auto.
  - rewrite Hs in E. simpl in E. rewrite E in Hk. destruct Hk as (Hu' & _ & _ & Hf').
    eexists. eexists. split; [exact E|]. split_and!; try assumption.
    + rewrite map_app. simpl. apply List.NoDup_app; [assumption| |].
      * constructor; [intros [] | constructor].
      * intros x Hx [<-|[]]. now apply next_pk_not_in in Hx.
    + intros u' t' m' Hne. rewrite List.filter_app. simpl. rewrite Hne.
      apply app_nil_r.
  - exfalso. specialize (Hu user t m). rewrite Hf in Hu. simpl in Hu. lia.
Qed.

(** The table after [setting.save()] of a setting with another [send]. *)
Lemma save_frame user t m v (s : NoticeSetting) rows :
  settings_unique rows -> List.NoDup (map ns_id rows) ->
  List.filter (setting_filter user t m) rows = [s] ->
  let rows' := save_row ns_id (set_send v s) rows in
  settings_unique rows' /\ List.NoDup (map ns_id rows')
  /\ List.filter (setting_filter user t m) rows' = [set_send v s]
  /\ (forall u' t' m', setting_filter u' t' m' s = false ->
        List.filter (setting_filter u' t' m') rows'
        = List.filter (setting_filter u' t' m') rows).
Proof.
  intros Hu Hnd Hf rows'.
  assert (Hin : In s rows /\ setting_filter user t m s = true).
  { apply filter_In. rewrite Hf. now left. }
  destruct Hin as [Hin Hkey].
  destruct (filter_replace_one ns_id (setting_filter user t m) s (set_send v s) rows
              Hnd Hf eq_refl Hkey) as [Hrows Hf'].
  fold rows' in Hrows, Hf'.
  assert (Hframe : forall u' t' m', setting_filter u' t' m' s = false ->
            List.filter (setting_filter u' t' m') rows'
            = List.filter (setting_filter u' t' m') rows).
  { intros u' t' m' Hne. rewrite Hrows.
    apply (filter_replace_other ns_id) with (old := s); auto. }
  split_and!; try assumption.
  - intros u' t' m'.
    destruct (setting_filter u' t' m' s) eqn:Hk.
    + rewrite (List.filter_ext _ _ (setting_filter_same_key user t m u' t' m' s Hkey Hk)).
      rewrite Hf'. simpl. lia.
    + rewrite (Hframe u' t' m' Hk). apply Hu.
  - rewrite Hrows. rewrite map_map.
    rewrite (map_ext _ ns_id); [assumption|].
    intros r. now case_bool_decide.
Qed.

Lemma for_each_collect_cons {A B} (x : A) (xs : list A) (body : A -> M B)
    (w w1 w2 : World) (y : B) (ys : list B) :
  body x w = (w1, inr y) -> for_each_collect xs body w1 = (w2, inr ys) ->
  for_each_collect (x :: xs) body w = (w2, inr (y :: ys)).
Proof. intros H1 H2. simpl. unfold bind. now rewrite H1, H2. Qed.

Section notices_view.
Context (request : Request).

(** One cell of the settings table. *)
Lemma notices_cell_run (t : NoticeType) (m display : string) (w : World) :
  settings_unique (notice_settings w) -> List.NoDup (map ns_id (notice_settings w)) ->
  is_Some (NOTICE_MEDIA_DEFAULTS !! m) ->
  exists rows' s,
    views.notices_cell request t (m, display) w
    = (set_notice_settings rows' w,
       inr (nt_label t ++ "_" ++ m, shown request (notice_settings w) t m))
    /\ settings_unique rows' /\ List.NoDup (map ns_id rows')
    /\ List.filter (setting_filter (req_user request) t m) rows' = [s]
    /\ ns_send s = shown request (notice_settings w) t m
    /\ (forall u' t' m',
          u_id u' <> u_id (req_user request) \/ nt_id t' <> nt_id t \/ m' <> m ->
          List.filter (setting_filter u' t' m') rows'
          = List.filter (setting_filter u' t' m') (notice_settings w)).
Proof.
  intros Hu Hnd Hm.
  destruct (resolve_frame (req_user request) t m _ Hu Hnd Hm) as (s0 & rows1 & E & Hu1 & Hnd1 & Hf1 & Hfr1).
  assert (Hkey : setting_filter (req_user request) t m s0 = true).
  { eapply (proj1 (filter_In _ s0 rows1)). rewrite Hf1. now left. }
  assert (Hget : get_notification_setting (req_user request) t m w
                 = (set_notice_settings rows1 w, inr s0)).
  { rewrite get_notification_setting_run. now rewrite E. }
  unfold views.notices_cell. rewrite (bind_run _ _ _ _ _ Hget).
  unfold shown, would_send. rewrite E.
  case_bool_decide as Hpost.
  - destruct (save_frame (req_user request) t m (posted request t m) s0 rows1 Hu1 Hnd1 Hf1)
      as (Hu2 & Hnd2 & Hf2 & Hfr2).
    exists (save_row ns_id (set_send (posted request t m) s0) rows1),
      (set_send (posted request t m) s0).
    split.
    { unfold posted. case_bool_decide; reflexivity. }
    split_and!; try assumption; try reflexivity.
    intros u' t' m' Hne.
    pose proof (setting_filter_other (req_user request) t m u' t' m' s0 Hkey Hne) as Hk.
    rewrite (Hfr2 u' t' m' Hk). now apply Hfr1.
  - exists rows1, s0. split; [reflexivity|].
    split_and!; try assumption; try reflexivity.
    intros u' t' m' Hne. apply Hfr1.
    now apply (setting_filter_other (req_user request) t m).
Qed.

Lemma notices_row_run (t : NoticeType) (w : World) :
  settings_unique (notice_settings w) -> List.NoDup (map ns_id (notice_settings w)) ->
  exists rows',
    notices_row request t w
    = (set_notice_settings rows' w, inr (settings_row request (notice_settings w) t))
    /\ settings_unique rows' /\ List.NoDup (map ns_id rows')
    /\ (forall m, In m (map fst NOTICE_MEDIA) ->
          exists s, List.filter (setting_filter (req_user request) t m) rows' = [s]
                    /\ ns_send s = shown request (notice_settings w) t m)
    /\ (forall u' t' m',
          u_id u' <> u_id (req_user request) \/ nt_id t' <> nt_id t ->
          List.filter (setting_filter u' t' m') rows'
          = List.filter (setting_filter u' t' m') (notice_settings w)).
Proof.
  intros Hu Hnd.
  destruct (notices_cell_run t "1" "Email" w Hu Hnd)
    as (rows1 & s1 & E1 & Hu1 & Hnd1 & Hf1 & Hs1 & Hfr1); [now eexists|].
  destruct (notices_cell_run t "2" "Facebook" (set_notice_settings rows1 w) Hu1 Hnd1)
    as (rows2 & s2 & E2 & Hu2 & Hnd2 & Hf2 & Hs2 & Hfr2); [now eexists|].
  simpl notice_settings in *.
  assert (Hshown2 : shown request rows1 t "2" = shown request (notice_settings w) t "2").
  { unfold shown. case_bool_decide; [reflexivity|].
    apply would_send_filter. apply Hfr1. right. right. discriminate. }
  rewrite Hshown2 in *.
  exists rows2. split.
  { unfold notices_row, NOTICE_MEDIA.
    erewrite bind_run; [reflexivity|].
    eapply for_each_collect_cons; [exact E1|].
    eapply for_each_collect_cons; [exact E2|]. reflexivity. }
  split; [assumption|]. split; [assumption|]. split.
  - intros m [<-|[<-|[]]].
    + exists s1. split; [|assumption].
      rewrite Hfr2 by (right; right; discriminate). assumption.
    + exists s2. now split.
  - intros u' t' m' Hne.
    rewrite Hfr2 by (destruct Hne; [left | right; left]; assumption).
    apply Hfr1. destruct Hne; [left | right; left]; assumption.
Qed.

(** The loop of [notices] over the notice types. *)
Lemma notices_rows_run (ts : list NoticeType) :
  List.NoDup (map nt_id ts) ->
  forall w : World,
  settings_unique (notice_settings w) -> List.NoDup (map ns_id (notice_settings w)) ->
  exists rows',
    for_each_collect ts (notices_row request) w
    = (set_notice_settings rows' w,
       inr (map (settings_row request (notice_settings w)) ts))
    /\ settings_unique rows' /\ List.NoDup (map ns_id rows')
    /\ (forall t m, In t ts -> In m (map fst NOTICE_MEDIA) ->
          exists s, List.filter (setting_filter (req_user request) t m) rows' = [s]
                    /\ ns_send s = shown request (notice_settings w) t m)
    /\ (forall u' t' m',
          u_id u' <> u_id (req_user request) \/ ~ In (nt_id t') (map nt_id ts) ->
          List.filter (setting_filter u' t' m') rows'
          = List.filter (setting_filter u' t' m') (notice_settings w)).
Proof.
  induction ts as [|t ts IH]; intros Hts w Hu Hnd.
  - exists (notice_settings w). split; [now destruct w|].
    split_and!; try assumption; try reflexivity. intros t m [].
  - simpl in Hts. apply List.NoDup_cons_iff in Hts as [Hnotin Hts].
    destruct (notices_row_run t w Hu Hnd) as (rows1 & E1 & Hu1 & Hnd1 & Hin1 & Hfr1).
    destruct (IH Hts (set_notice_settings rows1 w) Hu1 Hnd1)
      as (rows2 & E2 & Hu2 & Hnd2 & Hin2 & Hfr2).
    simpl notice_settings in *.
    assert (Hshown : forall t' m, In t' ts ->
              shown request rows1 t' m = shown request (notice_settings w) t' m).
    { intros t' m Ht'. unfold shown. case_bool_decide; [reflexivity|].
      apply would_send_filter. apply Hfr1. right.
      intros Heq. apply Hnotin. rewrite <- Heq. now apply in_map. }
    assert (Hrows : map (settings_row request rows1) ts
                    = map (settings_row request (notice_settings w)) ts).
    { apply map_ext_in. intros t' Ht'. unfold settings_row. f_equal.
      apply map_ext. intros m. f_equal. now apply Hshown. }
    exists rows2. split.
    { simpl map. rewrite <- Hrows.
      eapply for_each_collect_cons; [exact E1 | exact E2]. }
    split; [assumption|]. split; [assumption|]. split.
    + intros t' m [<-|Ht'] Hm.
      * destruct (Hin1 m Hm) as (s & Hs & Hsend). exists s. split; [|assumption].
        rewrite Hfr2 by (right; assumption). assumption.
      * destruct (Hin2 t' m Ht' Hm) as (s & Hs & Hsend). exists s.
        split; [assumption|]. rewrite Hsend. now apply Hshown.
    + intros u' t' m' Hne.
      rewrite Hfr2
        by (destruct Hne as [Hne|Hne];
            [left; assumption | right; intros H; apply Hne; right; exact H]).
      apply Hfr1. destruct Hne as [Hne|Hne]; [left; assumption|].
      right. intros H. apply Hne. left. symmetry. exact H.
Qed.

(** Property X16. The view [notices], for a unique settings table and
    unique keys of settings and notice types: it renders one row per notice
    type with one cell per medium. On a POST every cell shows whether its
    box was [on], and that value is stored: [should_send] answers it
    afterwards. On any other method the cell shows what [should_send]
    answered before the request. Only the settings table changes, the
    settings of other users are as before, and the table stays unique. *)
Theorem notices_settings_table (w : World) :
  settings_unique (notice_settings w) ->
  List.NoDup (map ns_id (notice_settings w)) ->
  List.NoDup (map nt_id (notice_types w)) ->
  exists w' page,
    views.notices request w = (w', inr (RenderNotices page))
    /\ w' = set_notice_settings (notice_settings w') w
    /\ np_rows page = map (settings_row request (notice_settings w)) (notice_types w)
    /\ np_column_headers page = ["Email"; "Facebook"]
    /\ np_notice_types page = notice_types w
    /\ notices_for (req_user request) false None (Some true) None w = (w, inr (np_notices page))
    /\ (forall t m, In t (notice_types w) -> In m ["1"; "2"] ->
          should_send (req_user request) t m w'
          = (w', inr (shown request (notice_settings w) t m)))
    /\ (forall u' t' m', u_id u' <> u_id (req_user request) ->
          List.filter (setting_filter u' t' m') (notice_settings w')
          = List.filter (setting_filter u' t' m') (notice_settings w))
    /\ settings_unique (notice_settings w').
Proof.
  intros Hu Hnd Hts.
  destruct (notices_rows_run (notice_types w) Hts w Hu Hnd)
    as (rows' & E & Hu' & Hnd' & Hin & Hfr).
  eexists. eexists. split.
  { unfold views.notices. erewrite bind_run by reflexivity.
    fold (notices_row request). rewrite (bind_run _ _ _ _ _ E).
    erewrite bind_run by reflexivity.
    rewrite (bind_run _ _ _ _ _ (notices_for_filter _ _ _ _ _)). reflexivity. }
  simpl. split_and!; try reflexivity; try assumption;
    try (rewrite notices_for_filter; reflexivity).
  - intros t m Ht Hm. destruct (Hin t m Ht Hm) as (s & Hs & Hsend).
    rewrite should_send_run. simpl notice_settings.
    unfold resolve. rewrite (objects_get_one _ _ _ _ Hs). rewrite Hsend.
    now destruct w.
  - intros u' t' m' Hne. apply Hfr. now left.
Qed.
End notices_view.

(** Alice posts the form with only the box for welcome by email ticked:
    facebook for invite, on by default, is off afterwards. *)
Lemma notices_settings_table_witness :
  exists w' page,
    views.notices
      {| req_method := "POST"; req_POST := {[ "welcome_1" := "on" ]};
         req_user := Example.alice |} Example.world
    = (w', inr (RenderNotices page))
    /\ should_send Example.alice Example.invite "2" w' = (w', inr false).
Proof.
  destruct (notices_settings_table
              {| req_method := "POST"; req_POST := {[ "welcome_1" := "on" ]};
                 req_user := Example.alice |} Example.world)
    as (w' & page & E & _ & _ & _ & _ & _ & Hs & _).
  - intros ? ? ?. simpl. lia.
  - constructor.
  - simpl. repeat constructor; simpl; intuition discriminate.
  - exists w', page. split; [exact E|].
    apply (Hs Example.invite "2"); simpl; tauto.
Defined.

(** ** The mail of [send_now] *)

Lemma join_splitlines_no_linebreak (s : string) :
  has_linebreak (join_splitlines s) = false.
Proof.
  unfold has_linebreak. induction s as [|c s IH]; [reflexivity|]. simpl.
  destruct (is_linebreak c) eqn:E; [exact IH|]. simpl. now rewrite E.
Qed.

Lemma no_mail_bind {A B} (m : M A) (k : A -> M B) :
  no_mail m -> (forall a, no_mail (k a)) -> no_mail (bind m k).
Proof.
  intros Hm Hk w. unfold bind. specialize (Hm w).
  destruct (m w) as [w' [e|a]]; [exact Hm|].
  rewrite Hk. exact Hm.
Qed.

Lemma no_mail_ret {A} (a : A) : no_mail (ret a).
Proof. now intros w. Qed.

Lemma no_mail_raise {A} (e : Exception) : no_mail (@raise A e).
Proof. now intros w. Qed.

Lemma no_mail_read_dict l : no_mail (read_dict l).
Proof. now intros w. Qed.

Lemma no_mail_write_dict l d : no_mail (write_dict l d).
Proof. now intros w. Qed.

Lemma no_mail_wall_post token message d : no_mail (emit (PutWallPost token message d)).
Proof.
  intros w. unfold emit, modify, mails. simpl. rewrite List.filter_app. simpl.
  apply app_nil_r.
Qed.

Section mail.
Context (settings : Settings) (ext : Collaborators).

Lemma no_mail_send_to_facebook_body user context :
  no_mail (send_to_facebook_body settings user context).
Proof.
  unfold send_to_facebook_body.
  repeat first
    [ apply no_mail_bind; [|intros ?]
    | apply no_mail_read_dict | apply no_mail_write_dict
    | apply no_mail_wall_post | apply no_mail_ret | apply no_mail_raise
    | match goal with |- no_mail (match ?x with _ => _ end) => destruct x end ].
Qed.

Lemma no_mail_send_to_facebook user context :
  no_mail (send_to_facebook settings user context).
Proof.
  intros w. unfold send_to_facebook, daemonize.
  pose proof (no_mail_send_to_facebook_body user context w) as H.
  now destruct (daemon_mode settings).
Qed.

Lemma no_mail_facebook_block (b : bool) user extra_context subject notices_url :
  no_mail (if b
           then (let* ec := read_dict extra_context in
                 write_dict extra_context
                   (guess_facebook_attrs settings subject notices_url ec) ;;
                 send_to_facebook settings user extra_context)
           else ret tt).
Proof.
  destruct b; [|apply no_mail_ret].
  apply no_mail_bind; [apply no_mail_read_dict|]. intros ec.
  apply no_mail_bind; [apply no_mail_write_dict|]. intros _.
  apply no_mail_send_to_facebook.
Qed.

(** One turn of the loop of [send_now]: mail is sent by the last statement
    only. *)
Lemma send_now_user_mails (label : string) (extra_context : nat) (on_site : bool)
    (context : option ActivityContext) (notice_type : NoticeType)
    (notices_url : string) (formats : list string) (user : User) (w : World) :
  exists w' r,
    send_now_user settings ext label extra_context on_site context
      notice_type notices_url formats user w = (w', r)
    /\ match r with
       | inl _ => mails (trace w') = mails (trace w)
       | inr _ =>
           exists subject body,
             mails (trace w')
             = (mails (trace w) ++
                [SendMail subject body (DEFAULT_FROM_EMAIL settings)
                   (if would_send user notice_type "1" (notice_settings w)
                       && negb (bool_decide (u_email user = ""))
                    then [u_email user] else [])])%list
             /\ has_linebreak subject = false
       end.
Proof.
  unfold send_now_user.
  pose proof (get_notification_language_run user w) as Hl.
  destruct (lang_lookup (language_store w) user) as [e|lang] eqn:El.
  { rewrite (bind_fail _ _ _ _ _ Hl). exists w, (inl e). now split. }
  rewrite (bind_run _ _ _ _ _ Hl). clear Hl.
  set (wl := match lang with Some l => set_language l w | None => w end).
  assert (Hact : (match lang with Some l => activate l | None => ret tt end) w
                 = (wl, inr tt)) by (now destruct lang).
  rewrite (bind_run _ _ _ _ _ Hact). clear Hact.
  assert (Htl : trace wl = trace w) by (now destruct lang).
  assert (Hsl : notice_settings wl = notice_settings w) by (now destruct lang).
  clearbody wl. rewrite <- Htl, <- Hsl. clear Htl Hsl El.
  erewrite bind_run by reflexivity.
  erewrite bind_run by reflexivity.
  unfold get_formatted_messages.
  edestruct (get_formatted_messages_from_run ext formats ∅ label) as (m & c' & Hm & _ & _).
  erewrite bind_run by exact Hm. clear Hm.
  unfold getitem at 1.
  destruct (m !! "short.txt") as [short|].
  2:{ erewrite bind_fail by reflexivity. eexists. eexists. split; reflexivity. }
  erewrite bind_run by reflexivity.
  erewrite bind_run by reflexivity.
  unfold getitem at 1.
  destruct (m !! "full.txt") as [full|].
  2:{ erewrite bind_fail by reflexivity. eexists. eexists. split; reflexivity. }
  erewrite bind_run by reflexivity.
  erewrite bind_run by reflexivity.
  set (create msg := Notice_objects_create user msg notice_type on_site context).
  assert (Hcreate : forall msg, exists n,
             create msg wl = (set_notices (notices wl ++ [n]) wl, inr n)).
  { intros msg.
    exists {| n_id := next_pk (map n_id (notices wl));
              n_user := u_id user; n_message := msg;
              n_notice_type := nt_id notice_type; n_added := now wl;
              n_unseen := true; n_archived := false; n_on_site := on_site;
              n_context := option_map ac_id context |}.
    reflexivity. }
  assert (Hnotice :
            (exists n,
                (if LAZY_RENDERING settings && on_site
                 then (let* d := builtin_context settings ext user notice_type notices_url in
                       let* ec := read_dict extra_context in
                       create (pickle_context ext (Context_update d ec)))
                 else (let* html := getitem m "notice.html" in create html)) wl
                = (set_notices (notices wl ++ [n]) wl, inr n))
            \/ (exists e,
                (if LAZY_RENDERING settings && on_site
                 then (let* d := builtin_context settings ext user notice_type notices_url in
                       let* ec := read_dict extra_context in
                       create (pickle_context ext (Context_update d ec)))
                 else (let* html := getitem m "notice.html" in create html)) wl
                = (wl, inl e))).
  { destruct (LAZY_RENDERING settings && on_site).
    - left. erewrite bind_run by reflexivity. erewrite bind_run by reflexivity.
      apply Hcreate.
    - unfold getitem. destruct (m !! "notice.html") as [html|].
      + left. erewrite bind_run by reflexivity. apply Hcreate.
      + right. eexists. reflexivity. }
  fold create.
  destruct Hnotice as [(n & Hn)|(e & Hn)].
  2:{ rewrite (bind_fail _ _ _ _ _ Hn). eexists. eexists. split; reflexivity. }
  rewrite (bind_run _ _ _ _ _ Hn). clear Hn Hcreate.
  unfold bind at 1. rewrite should_send_run. simpl notice_settings.
  unfold would_send.
  destruct (resolve user notice_type "1" (notice_settings wl)) as [e1|[s1 rows1]].
  { eexists. eexists. split; reflexivity. }
  unfold bind at 1. rewrite should_send_run. simpl notice_settings.
  destruct (resolve user notice_type "2" rows1) as [e2|[s2 rows2]].
  { eexists. eexists. split; reflexivity. }
  match goal with
  | |- context [bind (if ?b then _ else _) _ ?w0] =>
      edestruct (facebook_block_run settings b user extra_context) as (wf & Hf & _);
      rewrite (bind_run _ _ w0 _ _ Hf)
  end.
  match type of Hf with
  | ?blk ?w0 = _ =>
      assert (Hq : mails (trace (fst (blk w0))) = mails (trace w0))
        by apply no_mail_facebook_block
  end.
  rewrite Hf in Hq.
  unfold send_mail, emit, modify.
  eexists. eexists. split; [reflexivity|].
  eexists. eexists. split; [|apply join_splitlines_no_linebreak].
  simpl in Hq. simpl trace. unfold mails in *. rewrite List.filter_app, Hq. simpl.
  reflexivity.
Qed.

Lemma for_each_send_now_user_mails (label : string) (extra_context : nat)
    (on_site : bool) (context : option ActivityContext) (notice_type : NoticeType)
    (notices_url : string) (formats : list string) (users0 : list User) :
  forall w : World,
  exists w' r sent,
    for_each users0
      (send_now_user settings ext label extra_context on_site context
         notice_type notices_url formats) w = (w', r)
    /\ mails (trace w') = (mails (trace w) ++ sent)%list
    /\ Forall2 (mail_to (DEFAULT_FROM_EMAIL settings))
         (firstn (length sent) users0) sent
    /\ (is_ok r = true -> length sent = length users0).
Proof.
  induction users0 as [|user users0 IH]; intros w.
  - exists w, (inr tt), []. split; [reflexivity|].
    split; [now rewrite app_nil_r|]. split; [constructor | reflexivity].
  - destruct (send_now_user_mails label extra_context on_site context notice_type
                notices_url formats user w) as (w1 & r1 & Hrun & Hmail).
    simpl for_each. destruct r1 as [e|[]].
    + rewrite (bind_fail _ _ _ _ _ Hrun). exists w1, (inl e), [].
      split; [reflexivity|]. split; [now rewrite app_nil_r|].
      split; [constructor | discriminate].
    + rewrite (bind_run _ _ _ _ _ Hrun).
      destruct Hmail as (subject & body & Hmail & Hsubject).
      destruct (IH w1) as (w' & r & sent & Hrun' & Hmail' & Hsent & Hlen).
      eexists w', r, (_ :: sent). split; [exact Hrun'|].
      split; [rewrite Hmail', Hmail, <- app_assoc; reflexivity|].
      split.
      * simpl. constructor; [|exact Hsent]. simpl.
        split; [assumption|]. split; [reflexivity|].
        destruct (would_send _ _ _ _); simpl; [|now left].
        case_bool_decide; simpl; [now left | now right].
      * intros Hok. simpl. f_equal. now apply Hlen.
Qed.

(** Property X17. Mail sent by [send_now]: one call of [send_mail] for
    each recipient whose turn completes, in their order, and for all of them
    when [send_now] returns. Each call is from [DEFAULT_FROM_EMAIL], has a
    subject without line breaks, and goes to nobody or to the non-empty
    address of that recipient alone. *)
Theorem send_now_mails_only_its_recipients (users0 : list User) (label : string)
    (extra_context : option nat) (on_site : bool) (context : option Entity)
    (w : World) :
  let out := send_now settings ext users0 label extra_context on_site context w in
  exists sent,
    mails (trace (fst out)) = (mails (trace w) ++ sent)%list
    /\ Forall2 (mail_to (DEFAULT_FROM_EMAIL settings))
         (firstn (length sent) users0) sent
    /\ (is_ok (snd out) = true -> length sent = length users0).
Proof.
  intros out. subst out. unfold send_now.
  assert (Hnone : forall w' e,
            exists sent,
              mails (trace (fst (w', @inl Exception unit e)))
              = (mails (trace w') ++ sent)%list
              /\ Forall2 (mail_to (DEFAULT_FROM_EMAIL settings))
                   (firstn (length sent) users0) sent
              /\ (is_ok (snd (w', @inl Exception unit e)) = true ->
                  length sent = length users0)).
  { intros w' e. exists []. simpl. rewrite app_nil_r.
    split; [reflexivity|]. split; [constructor | discriminate]. }
  set (alloc := match extra_context with None => new_dict ∅ | Some l => ret l end).
  assert (Halloc : exists wa l, alloc w = (wa, inr l) /\ trace wa = trace w).
  { destruct extra_context; eexists; eexists; split; reflexivity. }
  destruct Halloc as (wa & l & Ha & Ht).
  rewrite (bind_run _ _ _ _ _ Ha). clear Ha alloc. rewrite <- Ht. clear Ht.
  set (getctx := match context with
                 | Some c =>
                     let* a := ActivityContext_objects_get_or_create
                                 (e_content_type c) (e_pk c) in
                     ret (Some a)
                 | None => ret None
                 end).
  assert (Hctx : (exists e, getctx wa = (wa, inl e))
                 \/ (exists a acs', getctx wa = (set_activity_contexts acs' wa, inr a))).
  { subst getctx. destruct context as [c|].
    - unfold bind. rewrite get_or_create_run.
      destruct (get_or_create _ _ _) as [e|[a acs']]; [left | right]; eauto.
    - right. exists None, (activity_contexts wa). now destruct wa. }
  destruct Hctx as [(e & Hctx)|(a & acs' & Hctx)].
  { rewrite (bind_fail _ _ _ _ _ Hctx). apply Hnone. }
  rewrite (bind_run _ _ _ _ _ Hctx). clear Hctx getctx.
  assert (Hnt : NoticeType_objects_get_label label (set_activity_contexts acs' wa)
                = (set_activity_contexts acs' wa,
                   objects_get MNoticeType
                     (fun t => bool_decide (nt_label t = label)) (notice_types wa)))
    by reflexivity.
  destruct (objects_get MNoticeType _ (notice_types wa)) as [e|nt].
  { rewrite (bind_fail _ _ _ _ _ Hnt). apply (Hnone (set_activity_contexts acs' wa)). }
  rewrite (bind_run _ _ _ _ _ Hnt). clear Hnt.
  erewrite bind_run by reflexivity.
  match goal with
  | |- context [for_each users0 ?body] =>
      match body with
      | send_now_user _ _ ?lb ?ec ?os ?cx ?nt0 ?url ?fm =>
          destruct (for_each_send_now_user_mails lb ec os cx nt0 url fm
                      users0 (set_activity_contexts acs' wa))
            as (w' & r & sent & Hrun & Hmail & Hsent & Hlen)
      end
  end.
  simpl trace in Hmail.
  destruct r as [e|[]].
  - rewrite (bind_fail _ _ _ _ _ Hrun). exists sent. simpl.
    split; [assumption|]. split; [assumption | discriminate].
  - rewrite (bind_run _ _ _ _ _ Hrun). exists sent. simpl.
    split; [assumption|]. split; [assumption|]. intros _. now apply Hlen.
Qed.
End mail.

(** ** [archive] and the lists of notices *)

Lemma In_order_notices (n : Notice) (l : list Notice) :
  In n (order_notices_by_added_desc l) <-> In n l.
Proof.
  split; apply Permutation_in; [|symmetry]; apply order_notices_perm.
Qed.

Lemma In_map_replace {A} (pk : A -> Z) (new : A) (rows : list A) (x : A) :
  In x (map (fun r => if bool_decide (pk r = pk new) then new else r) rows) ->
  x = new \/ (In x rows /\ pk x <> pk new).
Proof.
  intros H. apply in_map_iff in H as (r & Hr & Hin).
  case_bool_decide; subst; auto.
Qed.

(** Property X18. After [archive] of a stored notice (keys unique),
    [notices_for] with [archived=False] no longer returns a notice of that
    key, for any user and filters, and returns every other notice exactly
    when it did before; with [archived=True] the owner still gets the
    notice, now archived. *)
Theorem archive_moves_the_notice (self : Notice) (user : User)
    (unseen on_site : option bool) (w : World) :
  List.NoDup (map n_id (notices w)) ->
  In self (notices w) ->
  let w1 := fst (archive self w) in
  (forall l, snd (notices_for user false unseen on_site None w1) = inr l ->
     forall n, In n l -> n_id n <> n_id self)
  /\ (forall l l1,
        snd (notices_for user false unseen on_site None w) = inr l ->
        snd (notices_for user false unseen on_site None w1) = inr l1 ->
        forall n, n_id n <> n_id self -> In n l1 <-> In n l)
  /\ (n_user self = u_id user ->
      forall l, snd (notices_for user true None None None w1) = inr l ->
        In (set_archived true self) l).
Proof.
  intros Hnd Hin w1.
  assert (Hrows : notices w1
                  = map (fun r => if bool_decide (n_id r = n_id (set_archived true self))
                                  then set_archived true self else r) (notices w)).
  { subst w1. unfold archive, Notice_save, bind, modify, ret. simpl.
    exact (save_row_present n_id (set_archived true self) self (notices w) Hin eq_refl). }
  clearbody w1. split; [|split].
  - intros l Hl n Hn Hid. rewrite notices_for_filter in Hl. simpl in Hl.
    injection Hl as <-. apply (proj1 (In_order_notices _ _)) in Hn.
    apply filter_In in Hn as [Hn Hp]. rewrite Hrows in Hn.
    apply In_map_replace in Hn as [->|[_ Hne]].
    + unfold notice_filter in Hp. simpl in Hp. now rewrite andb_false_r in Hp.
    + now apply Hne.
  - intros l l1 Hl Hl1 n Hid. rewrite notices_for_filter in Hl, Hl1. simpl in Hl, Hl1.
    injection Hl as <-. injection Hl1 as <-.
    rewrite !In_order_notices, !filter_In, Hrows.
    split; intros [Hn Hp]; (split; [|exact Hp]).
    + apply In_map_replace in Hn as [->|[Hn _]]; [now exfalso | exact Hn].
    + apply in_map_iff. exists n. split; [|exact Hn].
      now rewrite bool_decide_eq_false_2.
  - intros Hu l Hl. rewrite notices_for_filter in Hl. simpl in Hl.
    injection Hl as <-. apply In_order_notices. apply filter_In. split.
    + rewrite Hrows. apply in_map_iff. exists self. split; [|exact Hin].
      now rewrite bool_decide_eq_true_2.
    + unfold notice_filter. simpl. now rewrite bool_decide_eq_true_2.
Qed.

(** Alice's notice is not listed once it is archived. *)
Lemma archive_moves_the_notice_witness :
  exists l,
    snd (notices_for Example.alice false None None None
           (fst (archive Example.notice1 (set_notices [Example.notice1] Example.world))))
    = inr l
    /\ Forall (fun n => n_id n <> 1) l.
Proof.
  eexists. split; [reflexivity|]. apply List.Forall_forall.
  refine (proj1 (archive_moves_the_notice Example.notice1 Example.alice None None
                   (set_notices [Example.notice1] Example.world) _ _) _ eq_refl).
  - simpl. repeat constructor. intros [].
  - now left.
Defined.

(** ** The guesses of the facebook attributes *)

Lemma guess_step_keeps (d : Dict) (key : string) (v x : Value) (k : string) :
  d !! k = Some x ->
  (if negb (bool_decide (is_Some (d !! key))) then <[key := v]> d else d) !! k = Some x.
Proof.
  intros Hk. case_bool_decide as H; cbn [negb]; [exact Hk|].
  destruct (decide (key = k)) as [<-|Hne]; [exfalso; apply H; eauto|].
  now rewrite lookup_insert_ne.
Qed.

Section first_guess.
Context (settings : Settings).

(** Property X19. The guesses of the facebook attributes in [send_now]
    never replace a value that [extra_context] has, touch no key but
    [name], [description], [link] and [picture], and are made once: guessing
    again, with any other subject and url, changes nothing, so the
    description guessed from the subject of the first recipient stays for
    the later ones. *)
Theorem guess_facebook_attrs_keeps_the_first_guess (subject notices_url : string)
    (extra_context : Dict) :
  let d := guess_facebook_attrs settings subject notices_url extra_context in
  (forall k v, extra_context !! k = Some v -> d !! k = Some v)
  /\ (forall k, ~ In k ["name"; "description"; "link"; "picture"] ->
        d !! k = extra_context !! k)
  /\ (forall subject' notices_url',
        guess_facebook_attrs settings subject' notices_url' d = d).
Proof.
  intros d. subst d. unfold guess_facebook_attrs.
  split; [|split].
  - intros k v Hk.
    destruct (NOTIFICATION_SITE_PICTURE settings);
      repeat apply guess_step_keeps; exact Hk.
  - intros k Hk. simpl in Hk.
    repeat match goal with
           | |- context [if ?b then _ else _] => destruct b
           | |- context [match NOTIFICATION_SITE_PICTURE settings with _ => _ end] =>
               destruct (NOTIFICATION_SITE_PICTURE settings)
           end;
      rewrite ?lookup_insert_ne by (intros <-; tauto); reflexivity.
  - intros subject' notices_url'.
    set (d1 := if negb (bool_decide (is_Some (extra_context !! "name")))
               then <["name" := VStr (site_domain (current_site settings))]> extra_context
               else extra_context).
    assert (H1 : is_Some (d1 !! "name")).
    { subst d1. case_bool_decide as H; cbn [negb]; [exact H|].
      rewrite lookup_insert_eq. eauto. }
    set (d2 := if negb (bool_decide (is_Some (d1 !! "description")))
               then <["description" := VStr subject]> d1 else d1).
    assert (H2 : is_Some (d2 !! "name") /\ is_Some (d2 !! "description")).
    { subst d2. case_bool_decide as H; cbn [negb]; [now split|].
      rewrite lookup_insert_eq, lookup_insert_ne by discriminate. eauto. }
    set (d3 := if negb (bool_decide (is_Some (d2 !! "link")))
               then <["link" := VStr notices_url]> d2 else d2).
    assert (H3 : is_Some (d3 !! "name") /\ is_Some (d3 !! "description")
                 /\ is_Some (d3 !! "link")).
    { subst d3. destruct H2 as [Ha Hb]. case_bool_decide as H; cbn [negb]; [now split_and!|].
      rewrite lookup_insert_eq, !lookup_insert_ne by discriminate. eauto. }
    destruct H3 as (Ha & Hb & Hc).
    destruct (NOTIFICATION_SITE_PICTURE settings) as [picture|].
    + set (d4 := if negb (bool_decide (is_Some (d3 !! "picture")))
                 then <["picture" := picture]> d3 else d3).
      assert (H4 : is_Some (d4 !! "name") /\ is_Some (d4 !! "description")
                   /\ is_Some (d4 !! "link") /\ is_Some (d4 !! "picture")).
      { subst d4. case_bool_decide as H; cbn [negb]; [now split_and!|].
        rewrite lookup_insert_eq, !lookup_insert_ne by discriminate. eauto. }
      destruct H4 as (Ha' & Hb' & Hc' & Hd').
      rewrite (bool_decide_eq_true_2 _ Ha'). cbn [negb].
      rewrite (bool_decide_eq_true_2 _ Hb'). cbn [negb].
      rewrite (bool_decide_eq_true_2 _ Hc'). cbn [negb].
      now rewrite (bool_decide_eq_true_2 _ Hd').
    + rewrite (bool_decide_eq_true_2 _ Ha). cbn [negb].
      rewrite (bool_decide_eq_true_2 _ Hb). cbn [negb].
      now rewrite (bool_decide_eq_true_2 _ Hc).
Qed.
End first_guess.

(** ** [get_notification_language] *)

(** Property X20. [get_notification_language] changes no state. It
    returns the language of the one row of the user; it raises
    [LanguageStoreNotAvailable] when no language module is configured, when
    the user has no row and when the row has no language; and when the user
    has several rows, [MultipleObjectsReturned] is not handled and reaches
    the caller. *)
Theorem get_notification_language_outcomes (user : User) (w : World) :
  let rows_of := List.filter (fun r => bool_decide (lr_user r = u_id user)) in
  get_notification_language user w
  = (w,
     match language_store w with
     | None => inl LanguageStoreNotAvailable
     | Some rows =>
         match rows_of rows with
         | [] => inl LanguageStoreNotAvailable
         | [r] =>
             match lr_language r with
             | Some l => inr l
             | None => inl LanguageStoreNotAvailable
             end
         | _ :: _ :: _ => inl (MultipleObjectsReturned MLanguage)
         end
     end).
Proof.
  intros rows_of. subst rows_of.
  unfold get_notification_language, try_except, bind, get_world, lift, objects_get,
    ret, raise.
  destruct (language_store w) as [rows|]; [|reflexivity].
  destruct (List.filter _ rows) as [|r [|r' l]]; try reflexivity.
  now destruct (lr_language r).
Qed.

(** ** Notices about an object *)

Lemma turn_context html user nt on_site c store added rows ns rows' ns' ok :
  turn html user nt on_site c store added rows ns = (rows', ns', ok) ->
  exists news, ns' = (ns ++ news)%list
               /\ Forall (fun n => n_context n = option_map ac_id c) news.
Proof.
  unfold turn. intros H.
  destruct (lang_lookup store user); [|destruct html].
  - injection H as _ <- _. exists []. now rewrite app_nil_r.
  - exists [new_notice user nt on_site c added ns].
    split; [|repeat constructor].
    destruct (resolve user nt "1" rows) as [e|[s1 rows1]]; [now injection H as _ <- _|].
    destruct (resolve user nt "2" rows1) as [e|[s2 rows2]]; now injection H as _ <- _.
  - injection H as _ <- _. exists []. now rewrite app_nil_r.
Qed.

Lemma turns_context html users0 nt on_site c store added :
  forall rows ns rows' ns' ok,
    turns html users0 nt on_site c store added rows ns = (rows', ns', ok) ->
    exists news, ns' = (ns ++ news)%list
                 /\ Forall (fun n => n_context n = option_map ac_id c) news.
Proof.
  induction users0 as [|user users0 IH]; intros rows ns rows' ns' ok H.
  - simpl in H. injection H as _ <- _. exists []. now rewrite app_nil_r.
  - simpl in H.
    destruct (turn html user nt on_site c store added rows ns) as [[rows1 ns1] ok1] eqn:E.
    destruct (turn_context _ _ _ _ _ _ _ _ _ _ _ _ E) as (news1 & -> & Hf1).
    destruct ok1.
    + destruct (IH _ _ _ _ _ H) as (news2 & -> & Hf2).
      exists (news1 ++ news2)%list. split; [now rewrite app_assoc|].
      apply Forall_app. now split.
    + injection H as _ <- _. eauto.
Qed.

Lemma get_or_create_found (c : Entity) acs a acs' :
  get_or_create (e_content_type c) (e_pk c) acs = inr (a, acs') ->
  List.filter (activity_filter c) acs' = [a].
Proof.
  unfold get_or_create. intros H.
  destruct (objects_get _ _ acs) as [e|x] eqn:E.
  - destruct e as [[]| | | | |]; try discriminate.
    injection H as <- <-.
    assert (Hf : List.filter (activity_filter c) acs = []).
    { unfold objects_get in E. unfold activity_filter.
      destruct (List.filter _ acs) as [|y [|z l]];
        [reflexivity|discriminate|discriminate]. }
    rewrite List.filter_app, Hf. simpl. unfold activity_filter. simpl.
    now rewrite !bool_decide_eq_true_2.
  - injection H as <- <-. apply objects_get_sat in E. exact E.
Qed.

Section round_trip.
Context (settings : Settings) (ext : Collaborators).

(** Property X21. Notices sent about an object are found through it:
    under the conditions of X6, after [send_now] with a context object the
    object has exactly one activity context, every new notice refers to it,
    and [notices_for] with that context (unseen, on site) returns for every
    recipient one of the new notices. *)
Theorem send_now_context_round_trip (users0 : list User) (label : string)
    (extra_context : option nat) (c : Entity) (nt : NoticeType) (w : World) :
  objects_get MNoticeType (fun t => bool_decide (nt_label t = label)) (notice_types w)
  = inr nt ->
  context_unique (Some c) (activity_contexts w) ->
  settings_unique (notice_settings w) ->
  Forall (fun u => is_ok (lang_lookup (language_store w) u) = true) users0 ->
  exists w' news a,
    send_now settings ext users0 label extra_context true (Some c) w = (w', inr tt)
    /\ notices w' = (notices w ++ news)%list
    /\ List.filter (activity_filter c) (activity_contexts w') = [a]
    /\ Forall (fun n => n_context n = Some (ac_id a)) news
    /\ (forall user, In user users0 ->
          exists l n,
            notices_for user false (Some true) (Some true) (Some c) w' = (w', inr l)
            /\ In n news /\ In n l /\ n_user n = u_id user).
Proof.
  intros Hnt Hc Hu Hl.
  destruct (send_now_on_site_creates_notices settings ext users0 label extra_context
              (Some c) w (prelude_ok _ _ _ _ _ Hnt Hc) Hu Hl)
    as (w' & news & nt' & Hrun & _ & Hn & Hus & Hf & _).
  pose proof (send_now_run settings ext users0 label extra_context true (Some c) w)
    as Hrun'.
  destruct (prelude _ _ _ _) as [e|[[c0 nt0] acs']] eqn:Ep.
  { destruct Hrun' as (w0 & Hrun' & _). rewrite Hrun in Hrun'. discriminate. }
  destruct Hrun' as (w0 & r & Hrun' & _ & _ & _ & Hacs & _ & _ & _ & _ & _ & _ & Hturns).
  rewrite Hrun in Hrun'. injection Hrun' as <- <-.
  unfold prelude in Ep.
  destruct (get_or_create _ _ _) as [e|[a acs0]] eqn:Eg; [discriminate|].
  destruct (objects_get _ _ (notice_types w)) as [e|nt1]; [discriminate|].
  injection Ep as <- <- <-.
  pose proof (get_or_create_found _ _ _ _ Eg) as Hfound.
  symmetry in Hturns.
  destruct (turns_context _ _ _ _ _ _ _ _ _ _ _ _ Hturns) as (news' & Hb & Hctx).
  rewrite Hn, map_app in Hb. apply app_inv_head in Hb. subst news'.
  assert (Hctx' : Forall (fun n => n_context n = Some (ac_id a)) news).
  { clear -Hctx. induction news as [|n news IH]; [constructor|].
    simpl in Hctx. apply Forall_cons in Hctx as [H Hctx].
    constructor; [exact H | now apply IH]. }
  exists w', news, a. split; [exact Hrun|]. split; [exact Hn|].
  split; [now rewrite Hacs|]. split; [exact Hctx'|].
  intros user Huser.
  assert (Hex : exists n, In n news /\ n_user n = u_id user).
  { apply (in_map u_id) in Huser. rewrite <- Hus in Huser.
    apply in_map_iff in Huser as (n & Hnu & Hin). eauto. }
  destruct Hex as (n & Hin & Hnu).
  eexists. exists n.
  split; [unfold notices_for, bind, get_world, ret; reflexivity|].
  split; [exact Hin|]. split; [|exact Hnu].
  apply In_order_notices. apply in_flat_map. exists n. split.
  - rewrite !filter_In. rewrite Hn.
    rewrite List.Forall_forall in Hf. destruct (Hf n Hin) as (Hs & Ha & _ & Ho).
    split_and!.
    + apply in_app_iff. now right.
    + rewrite Hnu, Ha. now rewrite !bool_decide_eq_true_2.
    + now apply bool_decide_eq_true.
    + now apply bool_decide_eq_true.
  - unfold context_filter. rewrite List.Forall_forall in Hctx'.
    rewrite (Hctx' n Hin). rewrite Hacs.
    assert (Ha : In a acs0 /\ activity_filter c a = true).
    { apply filter_In. rewrite Hfound. now left. }
    destruct Ha as [Ha Hp]. apply in_map_iff. exists a. split; [reflexivity|].
    apply filter_In. split; [exact Ha|].
    unfold activity_filter in Hp. rewrite <- andb_assoc, Hp.
    now rewrite bool_decide_eq_true_2.
Qed.
End round_trip.

(** Bob finds the welcome sent about the project under the project. *)
Lemma send_now_context_round_trip_witness :
  exists w' l n,
    notices_for Example.bob false (Some true) (Some true) (Some Example.project) w'
    = (w', inr l)
    /\ In n l /\ n_user n = 2.
Proof.
  destruct (send_now_context_round_trip Example.settings Example.ext
              [Example.alice; Example.bob] "welcome" None Example.project
              Example.welcome Example.world eq_refl)
    as (w' & news & a & _ & _ & _ & _ & H).
  - intros c _. simpl. lia.
  - intros ? ? ?. simpl. lia.
  - repeat constructor.
  - destruct (H Example.bob) as (l & n & Hl & _ & Hin & Hu); [simpl; tauto|].
    exists w', l, n. split; [exact Hl|]. split; [exact Hin | exact Hu].
Defined.
